(** * AI co-scientist: the orchestration core

    A shallow embedding of the ranking agent (Elo tournament), the
    reflection agent's bookkeeping, the evolution, generation and
    proximity agents and the supervisor loop of [src/agents], with the
    properties of the specification that concern them and further
    properties of the code.

    Python values are modelled as follows.
    - [int] is [Z]; [float] is the primitive binary64 [float] of the
      kernel, so every [+], [-], [*], [/] below is the IEEE operation the
      interpreter performs.
    - A [dict] whose iteration order matters (the ratings) is an
      association list with unique keys kept in insertion order.
    - A [dict] read with [.get(key, default)] (the tournament state, the
      context memory) is a record of optional fields: [None] is a missing
      key.
    - A statement that can raise yields [Raise e]; the state reached
      before the exception is kept. *)

From Stdlib Require Import ZArith List String Bool Lia Floats.
From Stdlib Require Import Sorting.Permutation Sorting.Sorted.
Import ListNotations.

Local Open Scope string_scope.
Local Open Scope Z_scope.

(** ** Python primitives *)

Module Py.

Inductive exn :=
| OverflowError
| ValueError
| ZeroDivisionError
| UnboundLocalError.

Inductive result (A : Type) :=
| Ok (a : A)
| Raise (e : exn).
Arguments Ok {A} a.
Arguments Raise {A} e.

Definition bind {A B} (r : result A) (k : A -> result B) : result B :=
  match r with
  | Ok a => k a
  | Raise e => Raise e
  end.

(** *** Floats *)

(** [float(n)] for an [int]: the nearest binary64, ties to even;
    [OverflowError] when [n] is too large. *)
Definition float_of_int (n : Z) : result float :=
  let f := SF2Prim (binary_normalize prec emax n 0 false) in
  if is_infinity f then Raise OverflowError else Ok f.

(** [a / b] on two [int]s: the correctly rounded quotient.  The quotient
    is computed with 55 significant bits and a sticky bit, then rounded
    once. *)
Definition int_truediv (a b : Z) : result float :=
  if b =? 0 then Raise ZeroDivisionError
  else
    let neg := xorb (a <? 0) (b <? 0) in
    let A := Z.abs a in
    let B := Z.abs b in
    if A =? 0 then Ok (if neg then neg_zero else zero)
    else
      let k := Z.max 0 (55 + Z.log2 B - Z.log2 A) in
      let (q, r) := Z.div_eucl (Z.shiftl A k) B in
      let m := 2 * q + (if r =? 0 then 0 else 1) in
      let f := SF2Prim (binary_normalize prec emax
                          (if neg then - m else m) (- k - 1) neg) in
      if is_infinity f then Raise OverflowError else Ok f.

(** [x / y] on floats raises on a zero divisor. *)
Definition float_div (x y : float) : result float :=
  if is_zero y then Raise ZeroDivisionError else Ok (x / y)%float.

(** Nearest integer to [n / d] for [d > 0], ties to the even one. *)
Definition round_half_even (n d : Z) : Z :=
  let q := n / d in
  let r := n mod d in
  match 2 * r ?= d with
  | Lt => q
  | Gt => q + 1
  | Eq => if Z.even q then q else q + 1
  end.

(** [round(x)] with one argument: exact round-half-even of the value
    of [x], an [int]; [ValueError] on a NaN, [OverflowError] on an
    infinity. *)
Definition round (x : float) : result Z :=
  match Prim2SF x with
  | S754_nan => Raise ValueError
  | S754_infinity _ => Raise OverflowError
  | S754_zero _ => Ok 0
  | S754_finite s m e =>
      let n := if s then Z.neg m else Z.pos m in
      if 0 <=? e then Ok (n * 2 ^ e)
      else Ok (round_half_even n (2 ^ (- e)))
  end.

Section Pow.
(** The C library's [pow(10.0, x)], which the interpreter calls for
    [10 ** x]; it is not part of the repository. *)
Variable libm_pow10 : float -> float.

(** [10 ** x] for a finite float [x]: [1.0] when [x] is zero (decided
    before the C library is called), [OverflowError] when the C
    result is infinite. *)
Definition pow10 (x : float) : result float :=
  if is_zero x then Ok 1%float
  else
    let r := libm_pow10 x in
    if is_infinity r then Raise OverflowError else Ok r.
End Pow.

(** *** Insertion-ordered dictionaries with string keys *)

Section Dict.
Context {V : Type}.

Definition dict := list (string * V).

Fixpoint get (d : dict) (k : string) : option V :=
  match d with
  | [] => None
  | (k', v) :: d' => if String.eqb k' k then Some v else get d' k
  end.

Definition mem (d : dict) (k : string) : bool :=
  match get d k with Some _ => true | None => false end.

(** [d[k] = v]: an existing key keeps its position, a new key goes
    last. *)
Fixpoint set (d : dict) (k : string) (v : V) : dict :=
  match d with
  | [] => [(k, v)]
  | (k', v') :: d' =>
      if String.eqb k' k then (k', v) :: d' else (k', v') :: set d' k v
  end.

Definition keys (d : dict) : list string := map fst d.
End Dict.
Arguments dict V : clear implicits.

End Py.

Notation "x <- c ;; k" := (Py.bind c (fun x => k))
  (at level 61, c at next level, right associativity).

(** [random.choice] draws from the process-wide generator of the
    [random] module, which the interpreter seeds from the operating
    system when the module is first imported.  The generator is
    modelled by the values it hands out: [draws g i] is the value that
    call number [i] of [_randbelow] returns, and [pos g] counts the calls
    made so far.  The interpreter obtains a value below [n] by drawing
    [n.bit_length()] bits again and again until the value is below [n];
    of this only the value returned is kept, so the number of bits a
    choice consumes is not modelled. *)
Module Random.
Record Rng := { draws : nat -> nat; pos : nat }.

(** [_randbelow(n)]: the next value.  The reduction modulo [n] changes
    no value that [_randbelow(n)] can return and makes the function
    total on the sequences that hold a larger one. *)
Definition randbelow (n : nat) (g : Rng) : nat * Rng :=
  (Nat.modulo (draws g (pos g)) n, {| draws := draws g; pos := S (pos g) |}).

(** [random.choice(seq)] is [seq[randbelow(len(seq))]]. *)
Definition choice {A} (seq : list A) (dflt : A) (g : Rng) : A * Rng :=
  let (i, g') := randbelow (List.length seq) g in (List.nth i seq dflt, g').
End Random.

(** ** Data on the blackboard *)

(** A hypothesis is a [dict]; the core reads these three keys. *)
Record Hypo := {
  h_id : string;
  h_statement : string;
  h_generation_method : option string
}.

(** An entry of the match history kept in the tournament state. *)
Record Match := {
  hypothesis_1 : string;
  hypothesis_2 : string;
  winner : string;
  timestamp : string
}.

(** The two kinds of match differ in the key that carries the model's
    summary: [debate_summary] or [comparison_summary]. *)
Inductive MatchKind := Debate | Simple.

Record MatchResult := {
  mr_hypothesis_1 : string;
  mr_hypothesis_2 : string;
  mr_kind : MatchKind;
  mr_summary : string;
  mr_winner : string;
  mr_reasoning : string
}.

(** The tournament state is a [dict]; each key may be missing. *)
Record TournamentState := {
  ratings : option (Py.dict Z);
  matches : option (list Match);
  completed_matches : option Z;
  progress : option float;
  top_ranked : option (list string)
}.

Definition empty_state : TournamentState :=
  {| ratings := None; matches := None; completed_matches := None;
     progress := None; top_ranked := None |}.

(** [not tournament_state]: the [dict] has no key. *)
Definition is_empty (ts : TournamentState) : bool :=
  match ratings ts, matches ts, completed_matches ts, progress ts,
        top_ranked ts with
  | None, None, None, None, None => true
  | _, _, _, _, _ => false
  end.

Definition with_ratings (ts : TournamentState) (d : Py.dict Z) :=
  {| ratings := Some d; matches := matches ts;
     completed_matches := completed_matches ts; progress := progress ts;
     top_ranked := top_ranked ts |}.

Definition with_matches (ts : TournamentState) (ms : list Match) :=
  {| ratings := ratings ts; matches := Some ms;
     completed_matches := completed_matches ts; progress := progress ts;
     top_ranked := top_ranked ts |}.

Definition with_completed_matches (ts : TournamentState) (n : Z) :=
  {| ratings := ratings ts; matches := matches ts;
     completed_matches := Some n; progress := progress ts;
     top_ranked := top_ranked ts |}.

Definition with_progress (ts : TournamentState) (p : float) :=
  {| ratings := ratings ts; matches := matches ts;
     completed_matches := completed_matches ts; progress := Some p;
     top_ranked := top_ranked ts |}.

Definition with_top_ranked (ts : TournamentState) (ids : list string) :=
  {| ratings := ratings ts; matches := matches ts;
     completed_matches := completed_matches ts; progress := progress ts;
     top_ranked := Some ids |}.

(** One part of a review; only the verdict matters to the core. *)
Record SubReview := {
  sr_overall : string;
  sr_passed : option bool
}.

Record Statistics := {
  num_hypotheses : Z;
  num_reviewed : Z;
  unreviewed_hypotheses : list string;
  tournament_progress : float;
  top_hypotheses : list string;
  generation_methods : Py.dict Z
}.

(** Values stored under keys that the core writes and never reads. *)
Inductive Value :=
| VStr (s : string)
| VBool (b : bool)
| VSubReview (r : SubReview)
| VMatches (ms : list MatchResult)
| VHypothesis (h : option Hypo)
| VHypotheses (hs : list Hypo)
| VEmptyDict.

(** The shared context memory: a typed field for every key the core
    reads, [other] for the rest. *)
Record ContextMemory := {
  cm_hypotheses : option (list Hypo);
  cm_reviewed_hypotheses : option (list string);
  cm_tournament_state : option TournamentState;
  cm_stats_iteration : list (Z * Statistics);
  cm_top_hypotheses : option (list string);
  cm_research_overview : option (Py.dict Value);
  cm_research_plan_config : option (string * string);
  cm_other : Py.dict Value
}.

Definition empty_context : ContextMemory :=
  {| cm_hypotheses := None; cm_reviewed_hypotheses := None;
     cm_tournament_state := None; cm_stats_iteration := [];
     cm_top_hypotheses := None; cm_research_overview := None;
     cm_research_plan_config := None; cm_other := [] |}.

Definition set_hypotheses (c : ContextMemory) (hs : list Hypo) :=
  {| cm_hypotheses := Some hs;
     cm_reviewed_hypotheses := cm_reviewed_hypotheses c;
     cm_tournament_state := cm_tournament_state c;
     cm_stats_iteration := cm_stats_iteration c;
     cm_top_hypotheses := cm_top_hypotheses c;
     cm_research_overview := cm_research_overview c;
     cm_research_plan_config := cm_research_plan_config c;
     cm_other := cm_other c |}.

Definition set_reviewed_hypotheses (c : ContextMemory) (ids : list string) :=
  {| cm_hypotheses := cm_hypotheses c;
     cm_reviewed_hypotheses := Some ids;
     cm_tournament_state := cm_tournament_state c;
     cm_stats_iteration := cm_stats_iteration c;
     cm_top_hypotheses := cm_top_hypotheses c;
     cm_research_overview := cm_research_overview c;
     cm_research_plan_config := cm_research_plan_config c;
     cm_other := cm_other c |}.

Definition set_tournament_state (c : ContextMemory) (ts : TournamentState) :=
  {| cm_hypotheses := cm_hypotheses c;
     cm_reviewed_hypotheses := cm_reviewed_hypotheses c;
     cm_tournament_state := Some ts;
     cm_stats_iteration := cm_stats_iteration c;
     cm_top_hypotheses := cm_top_hypotheses c;
     cm_research_overview := cm_research_overview c;
     cm_research_plan_config := cm_research_plan_config c;
     cm_other := cm_other c |}.

(** [stats_iteration_{i}]: writing the same [i] again overwrites. *)
Fixpoint set_assoc {V} (l : list (Z * V)) (i : Z) (v : V) : list (Z * V) :=
  match l with
  | [] => [(i, v)]
  | (j, u) :: l' => if j =? i then (j, v) :: l' else (j, u) :: set_assoc l' i v
  end.

Fixpoint get_assoc {V} (l : list (Z * V)) (i : Z) : option V :=
  match l with
  | [] => None
  | (j, u) :: l' => if j =? i then Some u else get_assoc l' i
  end.

Definition set_stats_iteration (c : ContextMemory) (i : Z) (s : Statistics) :=
  {| cm_hypotheses := cm_hypotheses c;
     cm_reviewed_hypotheses := cm_reviewed_hypotheses c;
     cm_tournament_state := cm_tournament_state c;
     cm_stats_iteration := set_assoc (cm_stats_iteration c) i s;
     cm_top_hypotheses := cm_top_hypotheses c;
     cm_research_overview := cm_research_overview c;
     cm_research_plan_config := cm_research_plan_config c;
     cm_other := cm_other c |}.

Definition set_research_overview (c : ContextMemory) (o : Py.dict Value) :=
  {| cm_hypotheses := cm_hypotheses c;
     cm_reviewed_hypotheses := cm_reviewed_hypotheses c;
     cm_tournament_state := cm_tournament_state c;
     cm_stats_iteration := cm_stats_iteration c;
     cm_top_hypotheses := cm_top_hypotheses c;
     cm_research_overview := Some o;
     cm_research_plan_config := cm_research_plan_config c;
     cm_other := cm_other c |}.

Definition set_research_plan_config (c : ContextMemory) (g : string * string) :=
  {| cm_hypotheses := cm_hypotheses c;
     cm_reviewed_hypotheses := cm_reviewed_hypotheses c;
     cm_tournament_state := cm_tournament_state c;
     cm_stats_iteration := cm_stats_iteration c;
     cm_top_hypotheses := cm_top_hypotheses c;
     cm_research_overview := cm_research_overview c;
     cm_research_plan_config := Some g;
     cm_other := cm_other c |}.

Definition set_other (c : ContextMemory) (k : string) (v : Value) :=
  {| cm_hypotheses := cm_hypotheses c;
     cm_reviewed_hypotheses := cm_reviewed_hypotheses c;
     cm_tournament_state := cm_tournament_state c;
     cm_stats_iteration := cm_stats_iteration c;
     cm_top_hypotheses := cm_top_hypotheses c;
     cm_research_overview := cm_research_overview c;
     cm_research_plan_config := cm_research_plan_config c;
     cm_other := Py.set (cm_other c) k v |}.

(** A result map returned by an agent, as the list of its items. *)
Inductive Entry :=
| E_tournament_state (ts : TournamentState)
| E_hypotheses (hs : list Hypo)
| E_other (key : string) (v : Value).

Definition ResultMap := list Entry.

(** A task of the queue. *)
Record Task := {
  agent : string;
  task_type : option string;
  count : option Z;
  hypothesis_id : option string
}.

(** What an agent runs in: the context memory it shares with the others
    and the process-wide random generator. *)
Record World := {
  ctx : ContextMemory;
  rng : Random.Rng
}.

Definition with_ctx (w : World) (c : ContextMemory) : World :=
  {| ctx := c; rng := rng w |}.

(** [BaseAgent._call_model]: the placeholder answer built from the first
    30 characters of the prompt. *)
Definition _call_model (prompt : string) : string :=
  "Model response to: " ++ String.substring 0 30 prompt ++ "...".


(** ** The ranking agent ([agents/ranking_agent.py]) *)

Module Ranking.
Section WithLibm.
Variable libm_pow10 : float -> float.

Definition _initialize_tournament : TournamentState :=
  {| ratings := Some []; matches := Some []; completed_matches := Some 0;
     progress := Some 0%float; top_ranked := Some [] |}.

(** [get_from_context_memory("tournament_state", {})]. *)
Definition stored_state (c : ContextMemory) : TournamentState :=
  match cm_tournament_state c with
  | Some ts => ts
  | None => empty_state
  end.

(** The object a local variable [tournament_state] is bound to: the
    very [dict] held by the context memory, which every in-place change
    is seen through, or a [dict] of the caller's own. *)
Inductive ts_ref :=
| Shared
| Local (ts : TournamentState).

Definition deref (r : ts_ref) (w : World) : TournamentState :=
  match r with
  | Shared => stored_state (ctx w)
  | Local ts => ts
  end.

Definition assign (r : ts_ref) (ts : TournamentState) (w : World)
  : ts_ref * World :=
  match r with
  | Shared => (Shared, with_ctx w (set_tournament_state (ctx w) ts))
  | Local _ => (Local ts, w)
  end.

Definition default_rating : Z := 1200.

Definition init_rating (d : Py.dict Z) (k : string) : Py.dict Z :=
  if Py.mem d k then d else Py.set d k default_rating.

(** The ratings [dict] is changed in place when it is the state's own;
    when the key is missing the defaults go to a [dict] that is
    dropped. *)
Definition _select_hypothesis_pair (hypotheses : list Hypo)
    (ts : TournamentState) : option (Hypo * Hypo) * TournamentState :=
  let ts' :=
    match ratings ts with
    | Some d =>
        with_ratings ts
          (fold_left (fun d h => init_rating d (h_id h)) hypotheses d)
    | None => ts
    end in
  (match hypotheses with
   | h1 :: h2 :: _ => Some (h1, h2)
   | _ => None
   end, ts').

Definition nl : string := String (Ascii.ascii_of_nat 10) "".

(** The prompts; of the fixed text that follows the two statements only
    the first line is kept, [_call_model] reading 30 characters. *)
Definition debate_prompt (a b : string) : string :=
  nl ++ "        Compare the following two research hypotheses through a scientific debate:"
     ++ nl ++ "        HYPOTHESIS A:" ++ nl ++ a
     ++ nl ++ "        HYPOTHESIS B:" ++ nl ++ b
     ++ nl ++ "        DEBATE FORMAT:".

Definition comparison_prompt (a b : string) : string :=
  nl ++ "        Compare the following two research hypotheses:"
     ++ nl ++ "        HYPOTHESIS A:" ++ nl ++ a
     ++ nl ++ "        HYPOTHESIS B:" ++ nl ++ b
     ++ nl ++ "        For each hypothesis, assess:".

Definition _run_scientific_debate (h1 h2 : Hypo) (w : World)
  : MatchResult * World :=
  let prompt := debate_prompt (h_statement h1) (h_statement h2) in
  let response := _call_model prompt in
  let (win, g) := Random.choice [h_id h1; h_id h2] (h_id h1) (rng w) in
  ({| mr_hypothesis_1 := h_id h1; mr_hypothesis_2 := h_id h2;
      mr_kind := Debate;
      mr_summary := "Model response to: " ++ String.substring 0 30 prompt ++ "...";
      mr_winner := win;
      mr_reasoning := "Reasoning for the winner selection" |},
   {| ctx := ctx w; rng := g |}).

Definition _run_simple_comparison (h1 h2 : Hypo) (w : World)
  : MatchResult * World :=
  let prompt := comparison_prompt (h_statement h1) (h_statement h2) in
  let response := _call_model prompt in
  let (win, g) := Random.choice [h_id h1; h_id h2] (h_id h1) (rng w) in
  ({| mr_hypothesis_1 := h_id h1; mr_hypothesis_2 := h_id h2;
      mr_kind := Simple;
      mr_summary := "Model response to: " ++ String.substring 0 30 prompt ++ "...";
      mr_winner := win;
      mr_reasoning := "Reasoning for the winner selection" |},
   {| ctx := ctx w; rng := g |}).

(** The ratings a match is classified by are read from the context
    memory, 1200 standing for a missing one. *)
Definition context_rating (c : ContextMemory) (k : string) : Z :=
  let d := match ratings (stored_state c) with Some d => d | None => [] end in
  match Py.get d k with Some r => r | None => 1200 end.

Definition _run_match (h1 h2 : Hypo) (w : World) : MatchResult * World :=
  let h1_rating := context_rating (ctx w) (h_id h1) in
  let h2_rating := context_rating (ctx w) (h_id h2) in
  if (1300 <=? h1_rating) && (1300 <=? h2_rating)
  then _run_scientific_debate h1 h2 w
  else _run_simple_comparison h1 h2 w.

Definition k_factor : float := 32%float.

(** [1 / (1 + 10 ** ((r_other - r_self) / 400))]. *)
Definition expected_score (r_self r_other : Z) : Py.result float :=
  x <- Py.int_truediv (r_other - r_self) 400 ;;
  p <- Py.pow10 libm_pow10 x ;;
  Py.float_div 1%float (1 + p)%float.

(** [1 if winner_id == h_id else 0]. *)
Definition actual_score (winner_id h : string) : float :=
  if String.eqb winner_id h then 1%float else 0%float.

(** [round(r + k_factor * (s - e))]. *)
Definition new_rating (r : Z) (s e : float) : Py.result Z :=
  f <- Py.float_of_int r ;;
  Py.round (f + k_factor * (s - e))%float.

Definition lookup_rating (d : Py.dict Z) (k : string) : Z :=
  match Py.get d k with Some r => r | None => default_rating end.

(** The second component is the tournament state when the call ends,
    also when it ends by an exception. *)
Definition _update_elo_ratings (h1_id h2_id winner_id : string)
    (ts : TournamentState) : Py.result unit * TournamentState :=
  let sync d := match ratings ts with
                | Some _ => with_ratings ts d
                | None => ts
                end in
  let d0 := match ratings ts with Some d => d | None => [] end in
  let d2 := init_rating (init_rating d0 h1_id) h2_id in
  let r1 := lookup_rating d2 h1_id in
  let r2 := lookup_rating d2 h2_id in
  match expected_score r1 r2 with
  | Py.Raise e => (Py.Raise e, sync d2)
  | Py.Ok e1 =>
  match expected_score r2 r1 with
  | Py.Raise e => (Py.Raise e, sync d2)
  | Py.Ok e2 =>
  let s1 := actual_score winner_id h1_id in
  let s2 := actual_score winner_id h2_id in
  match new_rating r1 s1 e1 with
  | Py.Raise e => (Py.Raise e, sync d2)
  | Py.Ok n1 =>
  let d3 := Py.set d2 h1_id n1 in
  match new_rating r2 s2 e2 with
  | Py.Raise e => (Py.Raise e, sync d3)
  | Py.Ok n2 =>
  let d4 := Py.set d3 h2_id n2 in
  let ts1 := with_ratings ts d4 in
  let ms := match matches ts1 with Some ms => ms | None => [] end in
  (Py.Ok tt,
   with_matches ts1
     (ms ++ [{| hypothesis_1 := h1_id; hypothesis_2 := h2_id;
                winner := winner_id; timestamp := "2025-03-07" |}]))
  end end end end.

(** [sorted(..., key=..., reverse=True)]: descending and stable, equal
    keys stay in their original order. *)
Fixpoint insert_desc (x : string * Z) (l : list (string * Z)) :=
  match l with
  | [] => [x]
  | y :: l' => if snd x <? snd y then y :: insert_desc x l' else x :: l
  end.

Fixpoint sort_desc (l : list (string * Z)) : list (string * Z) :=
  match l with
  | [] => []
  | x :: l' => insert_desc x (sort_desc l')
  end.

Definition is_hypothesis_id (hypotheses : list Hypo) (k : string) : bool :=
  existsb (fun h => String.eqb (h_id h) k) hypotheses.

Definition valid_ratings (ts : TournamentState) (hypotheses : list Hypo)
  : Py.dict Z :=
  let d := match ratings ts with Some d => d | None => [] end in
  filter (fun kv => is_hypothesis_id hypotheses (fst kv)) d.

Definition _get_top_ranked (ts : TournamentState) (hypotheses : list Hypo)
  : list string :=
  map fst (sort_desc (valid_ratings ts hypotheses)).

(** [for _ in range(count)]: the matches of one batch.  [r] is what the
    local variable [tournament_state] is bound to, [acc] the list
    [matches]. *)
Fixpoint run_matches (n : nat) (eligible : list Hypo) (r : ts_ref)
    (acc : list MatchResult) (w : World)
  : Py.result (list MatchResult) * ts_ref * World :=
  match n with
  | O => (Py.Ok acc, r, w)
  | S n' =>
      let (pair, ts1) := _select_hypothesis_pair eligible (deref r w) in
      let (r1, w1) := assign r ts1 w in
      match pair with
      | None => (Py.Ok acc, r1, w1)
      | Some (h1, h2) =>
          let (m, w2) := _run_match h1 h2 w1 in
          let (res, ts2) :=
            _update_elo_ratings (h_id h1) (h_id h2) (mr_winner m)
                                (deref r1 w2) in
          let (r2, w3) := assign r1 ts2 w2 in
          match res with
          | Py.Raise e => (Py.Raise e, r2, w3)
          | Py.Ok _ => run_matches n' eligible r2 (acc ++ [m]) w3
          end
      end
  end.

(** [min(1.0, completed_matches / max(1, total_possible_matches))]. *)
Definition progress_of (completed : Z) (total : float) : Py.result float :=
  q <- (if (1 <? total)%float
        then (c <- Py.float_of_int completed ;; Py.float_div c total)
        else Py.int_truediv completed 1) ;;
  Py.Ok (if (q <? 1)%float then q else 1%float).

Definition eligible_hypotheses (c : ContextMemory) : list Hypo :=
  let hypotheses := match cm_hypotheses c with Some l => l | None => [] end in
  let reviewed :=
    match cm_reviewed_hypotheses c with Some l => l | None => [] end in
  filter (fun h => existsb (String.eqb (h_id h)) reviewed) hypotheses.

Definition _run_tournament_matches (count : Z) (w : World)
  : Py.result ResultMap * World :=
  let r0 := if is_empty (stored_state (ctx w))
            then Local _initialize_tournament
            else Shared in
  let hypotheses :=
    match cm_hypotheses (ctx w) with Some l => l | None => [] end in
  let eligible := eligible_hypotheses (ctx w) in
  let n := Z.of_nat (List.length eligible) in
  if n <? 2 then
    (Py.Ok [E_other "error"
              (VStr "Not enough reviewed hypotheses for tournament");
            E_tournament_state (deref r0 w)], w)
  else
    match run_matches (Z.to_nat count) eligible r0 [] w with
    | (Py.Raise e, _, w1) => (Py.Raise e, w1)
    | (Py.Ok ms, r1, w1) =>
        match Py.int_truediv (n * (n - 1)) 2 with
        | Py.Raise e => (Py.Raise e, w1)
        | Py.Ok total =>
            let ts1 := deref r1 w1 in
            let completed :=
              match completed_matches ts1 with Some k => k | None => 0 end
              + Z.of_nat (List.length ms) in
            let (r2, w2) := assign r1 (with_completed_matches ts1 completed) w1 in
            match progress_of completed total with
            | Py.Raise e => (Py.Raise e, w2)
            | Py.Ok p =>
                let ts3 := with_progress (deref r2 w2) p in
                let ts4 := with_top_ranked ts3 (_get_top_ranked ts3 hypotheses) in
                (Py.Ok [E_other "matches" (VMatches ms);
                        E_tournament_state ts4],
                 with_ctx w2 (set_tournament_state (ctx w2) ts4))
            end
        end
    end.

Definition _update_rankings (w : World) : Py.result ResultMap * World :=
  let ts := stored_state (ctx w) in
  let hypotheses :=
    match cm_hypotheses (ctx w) with Some l => l | None => [] end in
  let ts' := with_top_ranked ts (_get_top_ranked ts hypotheses) in
  (Py.Ok [E_tournament_state ts'],
   with_ctx w (set_tournament_state (ctx w) ts')).

Definition execute (task : Task) (w : World) : Py.result ResultMap * World :=
  let tt := match task_type task with
            | Some t => t
            | None => "run_tournament_matches"
            end in
  if String.eqb tt "run_tournament_matches" then
    _run_tournament_matches
      (match count task with Some c => c | None => 5 end) w
  else if String.eqb tt "update_rankings" then _update_rankings w
  else (Py.Ok [E_other "error" (VStr ("Unknown task type: " ++ tt))], w).
End WithLibm.
End Ranking.

(** ** The reflection agent ([agents/reflection_agent.py]) *)

Module Reflection.

(** The four review procedures as the repository has them: the model is
    called and its answer dropped, the verdict is fixed. *)
Definition _perform_initial_review (h : Hypo) : SubReview :=
  {| sr_overall := "The hypothesis passes the initial review.";
     sr_passed := Some true |}.

Definition _perform_full_review (h : Hypo) : SubReview :=
  {| sr_overall := "The hypothesis passes the full review with minor concerns.";
     sr_passed := Some true |}.

Definition _perform_deep_verification (h : Hypo) : SubReview :=
  {| sr_overall := "The hypothesis passes deep verification with one non-fundamental incorrect assumption.";
     sr_passed := Some true |}.

Definition _perform_observation_review (h : Hypo) : SubReview :=
  {| sr_overall := "The hypothesis provides a better explanation for 1 out of 2 observations.";
     sr_passed := None |}.

(** [review_results]. *)
Record Review := {
  rv_hypothesis_id : string;
  rv_initial_review : SubReview;
  rv_full_review : option SubReview;
  rv_deep_verification : option SubReview;
  rv_observation_review : option SubReview;
  rv_passed : bool
}.

Inductive Outcome :=
| Reviewed (r : Review)
| Error (msg : string).

(** [d.get("passed", False)]. *)
Definition passed_or_false (r : SubReview) : bool :=
  match sr_passed r with Some b => b | None => false end.

Definition find_hypothesis (hypotheses : list Hypo) (k : string)
  : option Hypo :=
  find (fun h => String.eqb (h_id h) k) hypotheses.

(** [_review_hypothesis], for any four review procedures: the methods it
    calls on [self]. *)
Section Procedures.
Variables initial full deep observation : Hypo -> SubReview.

Definition review_hypothesis_with (hypothesis_id : string) (w : World)
  : Outcome * World :=
  let hypotheses :=
    match cm_hypotheses (ctx w) with Some l => l | None => [] end in
  match find_hypothesis hypotheses hypothesis_id with
  | None => (Error ("Hypothesis " ++ hypothesis_id ++ " not found"), w)
  | Some hypothesis =>
      let initial_review := initial hypothesis in
      let review_results :=
        if passed_or_false initial_review then
          let full_review := full hypothesis in
          let deep_verification := deep hypothesis in
          let observation_review := observation hypothesis in
          {| rv_hypothesis_id := hypothesis_id;
             rv_initial_review := initial_review;
             rv_full_review := Some full_review;
             rv_deep_verification := Some deep_verification;
             rv_observation_review := Some observation_review;
             rv_passed := passed_or_false full_review
                          && passed_or_false deep_verification |}
        else
          {| rv_hypothesis_id := hypothesis_id;
             rv_initial_review := initial_review;
             rv_full_review := None;
             rv_deep_verification := None;
             rv_observation_review := None;
             rv_passed := false |} in
      let reviewed :=
        match cm_reviewed_hypotheses (ctx w) with
        | Some l => l
        | None => []
        end in
      (Reviewed review_results,
       with_ctx w (set_reviewed_hypotheses (ctx w) (reviewed ++ [hypothesis_id])))
  end.
End Procedures.

(** The method of the repository's agent. *)
Definition _review_hypothesis : string -> World -> Outcome * World :=
  review_hypothesis_with _perform_initial_review _perform_full_review
    _perform_deep_verification _perform_observation_review.

Definition optional_entry (k : string) (r : option SubReview) : ResultMap :=
  match r with
  | Some r => [E_other k (VSubReview r)]
  | None => []
  end.

(** The result map, in the order its keys are written. *)
Definition items (o : Outcome) : ResultMap :=
  match o with
  | Error msg => [E_other "error" (VStr msg)]
  | Reviewed r =>
      ([E_other "hypothesis_id" (VStr (rv_hypothesis_id r));
        E_other "initial_review" (VSubReview (rv_initial_review r))]
       ++ optional_entry "full_review" (rv_full_review r)
       ++ optional_entry "deep_verification" (rv_deep_verification r)
       ++ optional_entry "observation_review" (rv_observation_review r)
       ++ [E_other "passed" (VBool (rv_passed r))])%list
  end.

Definition execute (task : Task) (w : World) : Outcome * World :=
  let tt := match task_type task with
            | Some t => t
            | None => "review_hypothesis"
            end in
  if String.eqb tt "review_hypothesis" then
    match hypothesis_id task with
    | None => (Error "Missing hypothesis_id", w)
    | Some "" => (Error "Missing hypothesis_id", w)
    | Some k => _review_hypothesis k w
    end
  else (Error ("Unknown task type: " ++ tt), w).

(** The agent as the supervisor's registry holds it. *)
Definition as_agent (task : Task) (w : World) : Py.result ResultMap * World :=
  let (o, w') := execute task w in (Py.Ok (items o), w').
End Reflection.

(** [str(uuid.uuid4())]: the identifiers come from the operating system.
    A source is the sequence of identifiers it issues and the number
    issued so far. *)
Module Uuid.
Record Source := { issued : nat -> string; used : nat }.

Definition uuid4 (s : Source) : string * Source :=
  (issued s (used s), {| issued := issued s; used := S (used s) |}).
End Uuid.

(** ** The evolution agent ([agents/evolution_agent.py]) *)

Module Evolution.
Definition techniques : list string :=
  ["_enhance_through_grounding"; "_improve_coherence_and_feasibility";
   "_simplify_hypothesis"; "_out_of_box_thinking"].

(** [technique = random.choice(techniques)]. *)
Definition choose_technique (w : World) : string * World :=
  let (t, g) := Random.choice techniques "_enhance_through_grounding" (rng w) in
  (t, {| ctx := ctx w; rng := g |}).

(** The four techniques.  Each calls the model, drops the answer and
    returns a hypothesis with a new id; of the keys it sets, those that
    the record of a hypothesis holds are kept. *)
Definition _enhance_through_grounding (h : Hypo) (new_id : string) : Hypo :=
  {| h_id := new_id;
     h_statement :=
       "Enhanced version of the original hypothesis with literature grounding";
     h_generation_method := Some "evolution_enhance_grounding" |}.

Definition _improve_coherence_and_feasibility (h : Hypo) (new_id : string)
  : Hypo :=
  {| h_id := new_id;
     h_statement :=
       "More coherent and feasible version of the original hypothesis";
     h_generation_method := Some "evolution_improve_feasibility" |}.

Definition _simplify_hypothesis (h : Hypo) (new_id : string) : Hypo :=
  {| h_id := new_id;
     h_statement := "Simplified version of the original hypothesis";
     h_generation_method := Some "evolution_simplify" |}.

Definition _out_of_box_thinking (h : Hypo) (new_id : string) : Hypo :=
  {| h_id := new_id;
     h_statement := "Novel hypothesis using out-of-box thinking";
     h_generation_method := Some "evolution_out_of_box" |}.

(** The technique of a given [__name__]. *)
Definition technique_named (name : string) : Hypo -> string -> Hypo :=
  if String.eqb name "_enhance_through_grounding"
  then _enhance_through_grounding
  else if String.eqb name "_improve_coherence_and_feasibility"
  then _improve_coherence_and_feasibility
  else if String.eqb name "_simplify_hypothesis" then _simplify_hypothesis
  else _out_of_box_thinking.

(** [_combine]. *)
Definition _combine (hypotheses : list Hypo) (new_id : string) : Hypo :=
  {| h_id := new_id;
     h_statement :=
       "Combined hypothesis statement that unifies multiple perspectives";
     h_generation_method := Some "evolution_combination" |}.

(** What the agent runs in: the world and the source of identifiers. *)
Definition Env : Type := World * Uuid.Source.

Inductive Outcome :=
| Evolved (original_hypothesis_id : string) (evolved_hypothesis : Hypo)
          (technique : string)
| Combined (original_hypothesis_ids : list string) (combined_hypothesis : Hypo)
| Error (msg : string).

Definition find_hypothesis (hypotheses : list Hypo) (k : string)
  : option Hypo :=
  find (fun h => String.eqb (h_id h) k) hypotheses.

Definition _evolve_hypothesis (hypothesis_id : string) (e : Env)
  : Outcome * Env :=
  let (w, u) := e in
  let hypotheses :=
    match cm_hypotheses (ctx w) with Some l => l | None => [] end in
  match find_hypothesis hypotheses hypothesis_id with
  | None => (Error ("Hypothesis " ++ hypothesis_id ++ " not found"), e)
  | Some hypothesis =>
      let (technique, w1) := choose_technique w in
      let (new_id, u1) := Uuid.uuid4 u in
      let evolved_hypothesis := technique_named technique hypothesis new_id in
      (Evolved hypothesis_id evolved_hypothesis technique,
       (with_ctx w1 (set_hypotheses (ctx w1)
                       (hypotheses ++ [evolved_hypothesis])),
        u1))
  end.

Definition _combine_hypotheses (hypothesis_ids : list string) (e : Env)
  : Outcome * Env :=
  let (w, u) := e in
  let all_hypotheses :=
    match cm_hypotheses (ctx w) with Some l => l | None => [] end in
  let hypotheses_to_combine :=
    filter (fun h => existsb (String.eqb (h_id h)) hypothesis_ids)
           all_hypotheses in
  if (List.length hypotheses_to_combine <? 2)%nat
  then (Error "Not enough hypotheses found to combine", e)
  else
    let (new_id, u1) := Uuid.uuid4 u in
    let combined_hypothesis := _combine hypotheses_to_combine new_id in
    (Combined hypothesis_ids combined_hypothesis,
     (with_ctx w (set_hypotheses (ctx w)
                    (all_hypotheses ++ [combined_hypothesis])),
      u1)).

(** [execute]; [hypothesis_ids] is the key of that name, which the record
    of a task does not hold. *)
Definition execute (task : Task) (hypothesis_ids : option (list string))
    (e : Env) : Outcome * Env :=
  let tt := match task_type task with
            | Some t => t
            | None => "evolve_hypothesis"
            end in
  if String.eqb tt "evolve_hypothesis" then
    match hypothesis_id task with
    | None => (Error "Missing hypothesis_id", e)
    | Some "" => (Error "Missing hypothesis_id", e)
    | Some k => _evolve_hypothesis k e
    end
  else if String.eqb tt "combine_hypotheses" then
    let ids := match hypothesis_ids with Some l => l | None => [] end in
    if (List.length ids <? 2)%nat
    then (Error "Need at least 2 hypothesis_ids", e)
    else _combine_hypotheses ids e
  else (Error ("Unknown task type: " ++ tt), e).
End Evolution.

(** ** The generation agent: a batch of hypotheses
    ([agents/generation_agent.py], [_generate_hypotheses]) *)

Module Generation.

(** The four methods, each of which calls the model, drops the answer and
    returns a hypothesis with a new id. *)
Definition _literature_exploration (new_id : string) : Hypo :=
  {| h_id := new_id;
     h_statement := "Statement of hypothesis from literature exploration";
     h_generation_method := Some "literature_exploration" |}.

Definition _simulated_debate (new_id : string) : Hypo :=
  {| h_id := new_id;
     h_statement := "Statement of hypothesis from simulated debate";
     h_generation_method := Some "simulated_debate" |}.

Definition _assumptions_identification (new_id : string) : Hypo :=
  {| h_id := new_id;
     h_statement := "Statement of hypothesis from assumptions identification";
     h_generation_method := Some "assumptions_identification" |}.

Definition _research_expansion (new_id : string) : Hypo :=
  {| h_id := new_id;
     h_statement := "Statement of hypothesis from research expansion";
     h_generation_method := Some "research_expansion" |}.

Definition methods : list string :=
  ["literature"; "debate"; "assumptions"; "expansion"].

(** The method run for a name; the last branch is the [else]. *)
Definition method_named (name : string) : string -> Hypo :=
  if String.eqb name "literature" then _literature_exploration
  else if String.eqb name "debate" then _simulated_debate
  else if String.eqb name "assumptions" then _assumptions_identification
  else _research_expansion.

(** [for i in range(count)], from [i]: the hypotheses appended to the
    list, in order.  [pick i] is the method of round [i]. *)
Fixpoint generate (pick : nat -> string -> Hypo) (n i : nat) (u : Uuid.Source)
  : list Hypo * Uuid.Source :=
  match n with
  | O => ([], u)
  | S n' =>
      let (new_id, u1) := Uuid.uuid4 u in
      let (rest, u2) := generate pick n' (S i) u1 in
      (pick i new_id :: rest, u2)
  end.

(** The method of round [i] for a value of the key [method]. *)
Definition pick_for (method : string) (i : nat) : string -> Hypo :=
  if String.eqb method "literature" || String.eqb method "debate"
     || String.eqb method "assumptions" || String.eqb method "expansion"
  then method_named method
  else method_named (nth (Nat.modulo i (List.length methods)) methods "").

(** [_generate_hypotheses]; [method] is the key of that name, which the
    record of a task does not hold. *)
Definition _generate_hypotheses (task : Task) (method : option string)
    (e : World * Uuid.Source) : ResultMap * (World * Uuid.Source) :=
  let (w, u) := e in
  let n := match count task with Some c => c | None => 3 end in
  let m := match method with Some m => m | None => "mixed" end in
  let (hypotheses, u1) := generate (pick_for m) (Z.to_nat n) O u in
  let existing_hypotheses :=
    match cm_hypotheses (ctx w) with Some l => l | None => [] end in
  let all_hypotheses := (existing_hypotheses ++ hypotheses)%list in
  ([E_other "generated_hypotheses" (VHypotheses hypotheses);
    E_hypotheses all_hypotheses],
   (with_ctx w (set_hypotheses (ctx w) all_hypotheses), u1)).
End Generation.

(** ** The proximity agent ([agents/proximity_agent.py]) *)

Module Proximity.

Record Edge := {
  e_hypothesis_id : string;
  similarity : float
}.

Definition Graph := Py.dict (list Edge).

(** The context memory with the key [proximity_graph], which only this
    agent uses. *)
Record Board := {
  memory : ContextMemory;
  proximity_graph : option Graph
}.

Inductive Outcome :=
| Calculated (g : Graph)
| Error (msg : string).

(** [enumerate(l)]. *)
Definition enumerate {A} (l : list A) : list (nat * A) :=
  combine (seq 0 (List.length l)) l.

(** The float that the literal [0.5] denotes. *)
Definition one_half : float := 0x1p-1%float.

(** The list built for the hypothesis at index [i]: an edge to every
    hypothesis at another index. *)
Definition edges_from (hypotheses : list Hypo) (i : nat) : list Edge :=
  map (fun jh => {| e_hypothesis_id := h_id (snd jh);
                    similarity := one_half |})
      (filter (fun jh => negb (Nat.eqb i (fst jh))) (enumerate hypotheses)).

Definition build_graph (hypotheses : list Hypo) : Graph :=
  fold_left
    (fun g ih => Py.set g (h_id (snd ih)) (edges_from hypotheses (fst ih)))
    (enumerate hypotheses) [].

Definition _calculate_proximity (b : Board) : Outcome * Board :=
  let hypotheses :=
    match cm_hypotheses (memory b) with Some l => l | None => [] end in
  if (List.length hypotheses <? 2)%nat
  then (Error "Not enough hypotheses for proximity calculation", b)
  else
    let g := build_graph hypotheses in
    (Calculated g, {| memory := memory b; proximity_graph := Some g |}).

Definition execute (task : Task) (b : Board) : Outcome * Board :=
  let tt := match task_type task with
            | Some t => t
            | None => "calculate_proximity"
            end in
  if String.eqb tt "calculate_proximity" then _calculate_proximity b
  else (Error ("Unknown task type: " ++ tt), b).
End Proximity.

(** ** The supervisor ([agents/supervisor_agent.py]) *)

Module Supervisor.

(** [BaseAgent.execute] of a registered agent. *)
Definition AgentExec := Task -> World -> Py.result ResultMap * World.

(** The meta-review agent, whose module is not in the repository: called
    with the top hypotheses, it returns a result map. *)
Definition MetaReview :=
  list string -> World -> Py.result (Py.dict Value) * World.

Record State := {
  world : World;
  task_queue : list Task;
  running : bool
}.

Definition with_world (s : State) (w : World) : State :=
  {| world := w; task_queue := task_queue s; running := running s |}.

Definition put (s : State) (t : Task) : State :=
  {| world := world s; task_queue := (task_queue s ++ [t])%list;
     running := running s |}.

Definition set_running (s : State) (b : bool) : State :=
  {| world := world s; task_queue := task_queue s; running := b |}.

(** The argument of [execute]. *)
Record Plan := {
  research_goal : option string;
  max_iterations : option Z;
  num_workers : option Z
}.

(** What [execute] returns; [statistics] is [None] for the default
    [{}]. *)
Record Result := {
  status : string;
  research_overview : Py.dict Value;
  result_top_hypotheses : list string;
  statistics : option Statistics
}.

(** [update_context_memory(key, value)] for an item of a result map. *)
Definition store_entry (c : ContextMemory) (e : Entry) : ContextMemory :=
  match e with
  | E_tournament_state ts => set_tournament_state c ts
  | E_hypotheses hs => set_hypotheses c hs
  | E_other k v => set_other c k v
  end.

Definition store_result (r : ResultMap) (c : ContextMemory) : ContextMemory :=
  fold_left store_entry r c.

Definition _count_generation_methods (hypotheses : list Hypo) : Py.dict Z :=
  fold_left
    (fun methods h =>
       let method := match h_generation_method h with
                     | Some m => m
                     | None => "unknown"
                     end in
       Py.set methods method
         (match Py.get methods method with Some n => n | None => 0 end + 1))
    hypotheses [].

Definition _calculate_statistics (c : ContextMemory) : Statistics :=
  let hypotheses := match cm_hypotheses c with Some l => l | None => [] end in
  let reviewed :=
    match cm_reviewed_hypotheses c with Some l => l | None => [] end in
  let tournament := Ranking.stored_state c in
  {| num_hypotheses := Z.of_nat (List.length hypotheses);
     num_reviewed := Z.of_nat (List.length reviewed);
     unreviewed_hypotheses :=
       map h_id
         (filter (fun h => negb (existsb (String.eqb (h_id h)) reviewed))
                 hypotheses);
     tournament_progress :=
       match progress tournament with Some p => p | None => 0%float end;
     top_hypotheses :=
       firstn 10
         (match top_ranked tournament with Some l => l | None => [] end);
     generation_methods := _count_generation_methods hypotheses |}.

Definition min_hypotheses : Z := 10.

(** The floats that the literals [0.9] and [0.8] denote. *)
Definition nine_tenths : float := 0x1.ccccccccccccdp-1%float.
Definition eight_tenths : float := 0x1.999999999999ap-1%float.

Definition _check_terminal_state (stats : Statistics)
    (iteration max_iterations : Z) : bool :=
  if max_iterations - 1 <=? iteration then true
  else if (min_hypotheses <=? num_hypotheses stats)
          && (min_hypotheses <=? num_reviewed stats)
          && (5 <=? Z.of_nat (List.length (top_hypotheses stats)))
  then (if (nine_tenths <? tournament_progress stats)%float then true else false)
  else false.

Definition target_hypotheses : Z := 20.

(** The tasks one call of [_update_task_queue] puts, in order. *)
Definition refill_tasks (stats : Statistics) : list Task :=
  ((if num_hypotheses stats <? target_hypotheses
    then [{| agent := "generation"; task_type := Some "generate_hypotheses";
             count := Some 5; hypothesis_id := None |}]
    else [])
   ++ map (fun k => {| agent := "reflection";
                       task_type := Some "review_hypothesis";
                       count := None; hypothesis_id := Some k |})
          (firstn 5 (unreviewed_hypotheses stats))
   ++ (if (tournament_progress stats <? eight_tenths)%float
       then [{| agent := "ranking";
                task_type := Some "run_tournament_matches";
                count := Some 10; hypothesis_id := None |}]
       else [])
   ++ map (fun k => {| agent := "evolution";
                       task_type := Some "evolve_hypothesis";
                       count := None; hypothesis_id := Some k |})
          (firstn 3 (top_hypotheses stats)))%list.

Definition _update_task_queue (stats : Statistics) (s : State) : State :=
  fold_left put (refill_tasks stats) s.

Definition goal_prompt (goal : string) : string :=
  Ranking.nl
  ++ "        Parse the following research goal to derive a research plan configuration:"
  ++ Ranking.nl ++ goal.

Definition _parse_research_goal (goal : string) (s : State) : State :=
  match goal with
  | "" => s
  | _ =>
      with_world s
        (with_ctx (world s)
           (set_research_plan_config (ctx (world s))
              (goal, _call_model (goal_prompt goal))))
  end.

Section WithAgents.
(** The registered agents that tasks are dispatched to.  The supervisor
    and the agents work on one context memory, the [dict] they were
    constructed with; [BaseAgent.__init__] keeps the [dict] it is given
    only when that [dict] is not empty, so this is the system built on a
    context memory that holds a key already. *)
Variable agents : Py.dict AgentExec.
(** The agent registered as [meta_review], if any. *)
Variable meta_review : option MetaReview.
(** How many queued tasks the workers complete while the supervisor
    sleeps in round [i]. *)
Variable schedule : Z -> nat.

(** One turn of the loop of [_worker]: an exception of the agent is
    printed and dropped. *)
Definition worker_step (s : State) : State :=
  match task_queue s with
  | [] => s
  | task :: q =>
      let w :=
        match Py.get agents (agent task) with
        | Some ag =>
            match ag task (world s) with
            | (Py.Ok result, w1) =>
                with_ctx w1 (store_result result (ctx w1))
            | (Py.Raise _, w1) => w1
            end
        | None => world s
        end in
      {| world := w; task_queue := q; running := running s |}
  end.

Fixpoint run_workers (k : nat) (s : State) : State :=
  match k with
  | O => s
  | S k' => run_workers k' (worker_step s)
  end.

Definition _initialize_task_queue (s : State) : State :=
  if Py.mem agents "generation"
  then put s {| agent := "generation"; task_type := Some "initial_generation";
                count := None; hypothesis_id := None |}
  else s.

(** [for i in range(max_iterations)]: [n] iterations remain, [last] is
    the value of [i], [None] while it is unbound. *)
Fixpoint rounds (n : nat) (i max_iterations : Z) (last : option Z)
    (s : State) : option Z * State :=
  match n with
  | O => (last, s)
  | S n' =>
      let s1 := run_workers (schedule i) s in
      let stats := _calculate_statistics (ctx (world s1)) in
      let s2 := with_world s1
                  (with_ctx (world s1)
                     (set_stats_iteration (ctx (world s1)) i stats)) in
      if _check_terminal_state stats i max_iterations then (Some i, s2)
      else rounds n' (i + 1) max_iterations (Some i)
                  (_update_task_queue stats s2)
  end.

Definition build_result (i : option Z) (s : State) : Py.result Result * State :=
  match i with
  | None => (Py.Raise Py.UnboundLocalError, s)
  | Some i =>
      (Py.Ok
         {| status := "completed";
            research_overview :=
              match cm_research_overview (ctx (world s)) with
              | Some o => o
              | None => []
              end;
            result_top_hypotheses :=
              match cm_top_hypotheses (ctx (world s)) with
              | Some l => l
              | None => []
              end;
            statistics := get_assoc (cm_stats_iteration (ctx (world s))) i |},
       s)
  end.

Definition execute (task : Plan) (s : State) : Py.result Result * State :=
  let s1 := with_world s
              (with_ctx (world s)
                 (set_other (ctx (world s)) "research_plan" VEmptyDict)) in
  let s2 := _parse_research_goal
              (match research_goal task with Some g => g | None => "" end)
              s1 in
  let s3 := _initialize_task_queue (set_running s2 true) in
  let max := match max_iterations task with Some m => m | None => 10 end in
  let (i, s4) := rounds (Z.to_nat max) 0 max None s3 in
  let s5 := set_running s4 false in
  match meta_review with
  | Some mr =>
      match mr (match cm_top_hypotheses (ctx (world s5)) with
                | Some l => l
                | None => []
                end) (world s5) with
      | (Py.Raise e, w) => (Py.Raise e, with_world s5 w)
      | (Py.Ok overview, w) =>
          build_result i
            (with_world s5 (with_ctx w (set_research_overview (ctx w) overview)))
      end
  | None => build_result i s5
  end.
End WithAgents.
End Supervisor.

(** ** Notions used in the statements *)

(** The rating of [k] in a tournament state, 1200 when it has none. *)
Definition rating (ts : TournamentState) (k : string) : Z :=
  Ranking.lookup_rating
    (match ratings ts with Some d => d | None => [] end) k.

(** The value of a finite float is [fst * 2 ^ snd]. *)
Definition float_value (x : float) : option (Z * Z) :=
  match Prim2SF x with
  | S754_zero _ => Some (0, 0)
  | S754_finite s m e => Some (if s then Z.neg m else Z.pos m, e)
  | _ => None
  end.

(** [n] is an integer nearest to [m * 2 ^ e]. *)
Definition nearest_integer (n m e : Z) : Prop :=
  if 0 <=? e then n = m * 2 ^ e
  else 2 * Z.abs (n * 2 ^ (- e) - m) <= 2 ^ (- e).

(** Tasks of a queue addressed to the proximity agent. *)
Definition proximity_tasks (q : list Task) : nat :=
  List.length (filter (fun t => String.eqb (agent t) "proximity") q).

(** The agents that the refill addresses tasks to. *)
Definition core_agent (t : Task) : Prop :=
  agent t = "generation" \/ agent t = "reflection" \/
  agent t = "ranking" \/ agent t = "evolution".

(** A supervisor with an empty queue on an empty context memory
    ([SupervisorAgent.__init__]). *)
Definition initial_state (g : Random.Rng) : Supervisor.State :=
  {| Supervisor.world := {| ctx := empty_context; rng := g |};
     Supervisor.task_queue := [];
     Supervisor.running := false |}.

Definition constant_rng (n : nat) : Random.Rng :=
  {| Random.draws := fun _ => n; Random.pos := O |}.

(** [c'] is [c] but for the tournament state. *)
Definition same_but_tournament (c c' : ContextMemory) : Prop :=
  cm_hypotheses c' = cm_hypotheses c /\
  cm_reviewed_hypotheses c' = cm_reviewed_hypotheses c /\
  cm_stats_iteration c' = cm_stats_iteration c /\
  cm_top_hypotheses c' = cm_top_hypotheses c /\
  cm_research_overview c' = cm_research_overview c /\
  cm_research_plan_config c' = cm_research_plan_config c /\
  cm_other c' = cm_other c.

(** An agent that leaves the statistics records alone. *)
Definition keeps_statistics (ag : Supervisor.AgentExec) : Prop :=
  forall t w,
    cm_stats_iteration (ctx (snd (ag t w))) = cm_stats_iteration (ctx w).

Definition registry_keeps_statistics (agents : Py.dict Supervisor.AgentExec)
  : Prop :=
  forall name ag, Py.get agents name = Some ag -> keeps_statistics ag.

(** The meta-review agent returns a map and leaves the statistics
    records alone. *)
Definition meta_review_returns (mr : option Supervisor.MetaReview) : Prop :=
  forall f, mr = Some f ->
  forall tops w, exists o w',
    f tops w = (Py.Ok o, w') /\
    cm_stats_iteration (ctx w') = cm_stats_iteration (ctx w).

Definition statistics_records (s : Supervisor.State) : list (Z * Statistics) :=
  cm_stats_iteration (ctx (Supervisor.world s)).

(** The ratings [dict] of a state, empty when the key is missing. *)
Definition ratings_of (ts : TournamentState) : Py.dict Z :=
  match ratings ts with Some d => d | None => [] end.

(** The rated ids that are ids of hypotheses, in the order of the
    ratings [dict]. *)
Definition rated_hypotheses (ts : TournamentState) (hypotheses : list Hypo)
  : list string :=
  filter (Ranking.is_hypothesis_id hypotheses) (Py.keys (ratings_of ts)).

(** Sorted by rating, highest first. *)
Definition descending (ts : TournamentState) (ids : list string) : Prop :=
  StronglySorted (fun a b => rating ts b <= rating ts a) ids.

(** Ids with one rating stand in [ids] as they stand in [keys]. *)
Definition ties_keep_order (ts : TournamentState) (keys ids : list string)
  : Prop :=
  forall v,
    filter (fun k => rating ts k =? v) ids
    = filter (fun k => rating ts k =? v) keys.

(** The order the specification words: rating descending, and among
    equal ratings the lexically smaller id first. *)
Definition descending_then_lexical (ts : TournamentState) (ids : list string)
  : Prop :=
  StronglySorted
    (fun a b => rating ts b < rating ts a
                \/ (rating ts a = rating ts b /\ String.ltb a b = true))
    ids.

Definition hypo (k : string) : Hypo :=
  {| h_id := k; h_statement := ""; h_generation_method := None |}.

(** Four reviewed hypotheses and no tournament yet. *)
Definition four_reviewed : World :=
  {| ctx := set_reviewed_hypotheses
              (set_hypotheses empty_context
                 [hypo "d"; hypo "c"; hypo "b"; hypo "a"])
              ["a"; "b"; "c"; "d"];
     rng := constant_rng 0 |}.

(** [get_from_context_memory("hypotheses", [])]. *)
Definition hypotheses_of (c : ContextMemory) : list Hypo :=
  match cm_hypotheses c with Some l => l | None => [] end.

(** A ratings [dict] has each key once. *)
Definition distinct_keys (ts : TournamentState) : Prop :=
  NoDup (Py.keys (ratings_of ts)).

(** Every rated id is the id of a hypothesis. *)
Definition rated_are_hypotheses (hypotheses : list Hypo) (ts : TournamentState)
  : Prop :=
  forall k, In k (Py.keys (ratings_of ts)) ->
            Ranking.is_hypothesis_id hypotheses k = true.

(** [get_from_context_memory("reviewed_hypotheses", [])]. *)
Definition reviewed_of (c : ContextMemory) : list string :=
  match cm_reviewed_hypotheses c with Some l => l | None => [] end.

(** The number of distinct reviewed ids. *)
Definition distinct_reviewed (c : ContextMemory) : nat :=
  List.length (nodup string_dec (reviewed_of c)).

(** One hypothesis, reviewed once already. *)
Definition reviewed_once : World :=
  {| ctx := set_reviewed_hypotheses
              (set_hypotheses empty_context [hypo "h1"]) ["h1"];
     rng := constant_rng 0 |}.

(** The task the supervisor queues for the ranking agent. *)
Definition ranking_task : Task :=
  {| agent := "ranking"; task_type := Some "run_tournament_matches";
     count := Some 10; hypothesis_id := None |}.

(** A supervisor with one ranking task queued, on a given world. *)
Definition with_ranking_queued (w : World) : Supervisor.State :=
  {| Supervisor.world := w; Supervisor.task_queue := [ranking_task];
     Supervisor.running := true |}.

(** The state a batch works on: the stored one, or a new one when none
    or an empty one is stored. *)
Definition working_state (c : ContextMemory) : TournamentState :=
  if is_empty (Ranking.stored_state c)
  then Ranking._initialize_tournament
  else Ranking.stored_state c.

(** The rounds [i] to [j] were executed and [j] was the last: each left
    its statistics record, the one of [j], which is [st], is terminal, the
    earlier ones are not, and no other record was written. *)
Definition rounds_executed (i j max : Z) (before after : list (Z * Statistics))
    (st : Statistics) : Prop :=
  i <= j < max /\
  get_assoc after j = Some st /\
  Supervisor._check_terminal_state st j max = true /\
  (forall k, i <= k < j ->
     exists st_k, get_assoc after k = Some st_k /\
                  Supervisor._check_terminal_state st_k k max = false) /\
  (forall k, k < i \/ j < k -> get_assoc after k = get_assoc before k).

(** [task.get("max_iterations", 10)]. *)
Definition max_iterations_of (task : Supervisor.Plan) : Z :=
  match Supervisor.max_iterations task with Some m => m | None => 10 end.

(** Two reviewed hypotheses, no tournament yet, the process generator in
    state [g]. *)
Definition two_reviewed (g : Random.Rng) : World :=
  {| ctx := set_reviewed_hypotheses
              (set_hypotheses empty_context [hypo "h1"; hypo "h2"])
              ["h1"; "h2"];
     rng := g |}.

(** The next value of the generator, and the generator after it was
    taken. *)
Definition next_draw (g : Random.Rng) : nat :=
  Random.draws g (Random.pos g).

Definition advance (g : Random.Rng) : Random.Rng :=
  {| Random.draws := Random.draws g; Random.pos := S (Random.pos g) |}.

(** The reviews an outcome of the reflection agent carries. *)
Definition reviews_of (o : Reflection.Outcome) : list Reflection.Review :=
  match o with
  | Reflection.Reviewed r => [r]
  | Reflection.Error _ => []
  end.

(** The worlds a run reaches from an empty context memory, with the
    reviews made on the way.  A worker handles a task of the reflection
    agent and stores its result; anything else in the repository (the
    other agents, the supervisor) leaves the list of reviewed ids
    alone. *)
Inductive reachable : list Reflection.Review -> World -> Prop :=
| reach_start g :
    reachable [] {| ctx := empty_context; rng := g |}
| reach_review log w task o w1 :
    reachable log w ->
    Reflection.execute task w = (o, w1) ->
    reachable (log ++ reviews_of o)%list
      (with_ctx w1 (Supervisor.store_result (Reflection.items o) (ctx w1)))
| reach_other log w w' :
    reachable log w ->
    cm_reviewed_hypotheses (ctx w') = cm_reviewed_hypotheses (ctx w) ->
    reachable log w'.

(** Some review of the hypothesis [k] has passed. *)
Definition review_passed (log : list Reflection.Review) (k : string) : Prop :=
  exists r, In r log /\ Reflection.rv_hypothesis_id r = k
            /\ Reflection.rv_passed r = true.

(** The participants of a match are eligible hypotheses. *)
Definition between_eligible (eligible : list Hypo) (m : MatchResult) : Prop :=
  exists h1 h2,
    In h1 eligible /\ In h2 eligible /\
    mr_hypothesis_1 m = h_id h1 /\ mr_hypothesis_2 m = h_id h2.

(** The task the supervisor queues for the reflection agent. *)
Definition review_task (k : string) : Task :=
  {| agent := "reflection"; task_type := Some "review_hypothesis";
     count := None; hypothesis_id := Some k |}.

(** The world after a worker has handled the review of [k]. *)
Definition after_review (w : World) (k : string) : World :=
  let out := Reflection.execute (review_task k) w in
  with_ctx (snd out)
    (Supervisor.store_result (Reflection.items (fst out)) (ctx (snd out))).

(** Two hypotheses generated and none reviewed. *)
Definition two_generated : World :=
  {| ctx := set_hypotheses empty_context [hypo "h1"; hypo "h2"];
     rng := constant_rng 0 |}.

(** [c'] is [c] but for the list of hypotheses. *)
Definition same_but_hypotheses (c c' : ContextMemory) : Prop :=
  cm_reviewed_hypotheses c' = cm_reviewed_hypotheses c /\
  cm_tournament_state c' = cm_tournament_state c /\
  cm_stats_iteration c' = cm_stats_iteration c /\
  cm_top_hypotheses c' = cm_top_hypotheses c /\
  cm_research_overview c' = cm_research_overview c /\
  cm_research_plan_config c' = cm_research_plan_config c /\
  cm_other c' = cm_other c.

(** The generation methods that the evolution agent stamps. *)
Definition evolution_methods : list string :=
  ["evolution_enhance_grounding"; "evolution_improve_feasibility";
   "evolution_simplify"; "evolution_out_of_box"; "evolution_combination"].

(** The generation methods of a mixed batch, in the order of its rounds. *)
Definition mixed_methods : list string :=
  ["literature_exploration"; "simulated_debate";
   "assumptions_identification"; "research_expansion"].

(** The next [n] identifiers of a source. *)
Definition next_ids (u : Uuid.Source) (n : nat) : list string :=
  map (Uuid.issued u) (seq (Uuid.used u) n).

(** The hypothesis an outcome of the evolution agent carries. *)
Definition new_hypothesis (o : Evolution.Outcome) : option Hypo :=
  match o with
  | Evolution.Evolved _ h _ => Some h
  | Evolution.Combined _ h => Some h
  | Evolution.Error _ => None
  end.

(** A source that issues [id], [id'], [id''] and so on. *)
Fixpoint unary (n : nat) : string :=
  match n with
  | O => "id"
  | S n' => unary n' ++ "'"
  end.

Definition unary_source : Uuid.Source :=
  {| Uuid.issued := unary; Uuid.used := O |}.

(** [task.get("count", 3)] as the number of rounds of [range]. *)
Definition rounds_of (task : Task) : nat :=
  Z.to_nat (match count task with Some c => c | None => 3 end).

(** A value of the key [method] that names one of the four methods. *)
Definition single_method (method : option string) : bool :=
  match method with
  | Some m => existsb (String.eqb m) Generation.methods
  | None => false
  end.

(** A blackboard on which no graph has been stored. *)
Definition board_of (c : ContextMemory) : Proximity.Board :=
  {| Proximity.memory := c; Proximity.proximity_graph := None |}.

(** The ids a list of edges leads to. *)
Definition neighbours (es : list Proximity.Edge) : list string :=
  map Proximity.e_hypothesis_id es.

(** The items [kvs] stored one after the other in the [dict] [g]. *)
Definition store_all {V} (g : Py.dict V) (kvs : list (string * V))
  : Py.dict V :=
  fold_left (fun g kv => Py.set g (fst kv) (snd kv)) kvs g.

(** The match history of a state, empty when the key is missing. *)
Definition matches_of (ts : TournamentState) : list Match :=
  match matches ts with Some ms => ms | None => [] end.

(** The counter of a state, 0 when the key is missing. *)
Definition completed_of (ts : TournamentState) : Z :=
  match completed_matches ts with Some k => k | None => 0 end.

(** The entry of the history that a match leaves. *)
Definition history_entry (m : MatchResult) : Match :=
  {| hypothesis_1 := mr_hypothesis_1 m; hypothesis_2 := mr_hypothesis_2 m;
     winner := mr_winner m; timestamp := "2025-03-07" |}.

(** A match between [h1] and [h2], won by one of them. *)
Definition match_between (h1 h2 : Hypo) (m : MatchResult) : Prop :=
  mr_hypothesis_1 m = h_id h1 /\ mr_hypothesis_2 m = h_id h2 /\
  (mr_winner m = h_id h1 \/ mr_winner m = h_id h2).

(** [h.get("generation_method", "unknown")]. *)
Definition method_of (h : Hypo) : string :=
  match h_generation_method h with Some m => m | None => "unknown" end.

(** A supervisor with the tasks [q] queued, on a given world. *)
Definition with_queue (w : World) (q : list Task) : Supervisor.State :=
  {| Supervisor.world := w; Supervisor.task_queue := q;
     Supervisor.running := true |}.

(** The float that the literal [0.1] denotes. *)
Definition one_tenth : float := 0x1.999999999999ap-4%float.

(** [tournament_state.get("progress", 0)]. *)
Definition progress_or_zero (ts : TournamentState) : float :=
  match progress ts with Some p => p | None => 0%float end.

(** [tournament_state.get("top_ranked", [])]. *)
Definition top_ranked_of (ts : TournamentState) : list string :=
  match top_ranked ts with Some l => l | None => [] end.







(** * Properties *)

(** ** Dictionaries *)

Section DictFacts.
Context {V : Type}.
Implicit Types (d : Py.dict V) (k : string) (v : V).

Lemma get_set_same d k v : Py.get (Py.set d k v) k = Some v.
Proof.
  induction d as [|[k' v'] d IH]; simpl.
  - now rewrite String.eqb_refl.
  - destruct (String.eqb k' k) eqn:E; simpl; now rewrite E.
Qed.

Lemma get_set_other d k k' v :
  k' <> k -> Py.get (Py.set d k v) k' = Py.get d k'.
Proof.
  intros Hne. induction d as [|[k0 v0] d IH]; simpl.
  - apply String.eqb_neq in Hne. rewrite String.eqb_sym. now rewrite Hne.
  - destruct (String.eqb k0 k) eqn:E; simpl.
    + apply String.eqb_eq in E. subst k0.
      assert (String.eqb k k' = false) as ->; [|reflexivity].
      apply String.eqb_neq. congruence.
    + now rewrite IH.
Qed.

Lemma keys_set_mem d k v :
  Py.mem d k = true -> Py.keys (Py.set d k v) = Py.keys d.
Proof.
  unfold Py.mem, Py.keys. induction d as [|[k' v'] d IH]; simpl.
  - discriminate.
  - destruct (String.eqb k' k) eqn:E; simpl; [reflexivity|].
    intros H. now rewrite IH.
Qed.

Lemma keys_set_new d k v :
  Py.mem d k = false -> Py.keys (Py.set d k v) = (Py.keys d ++ [k])%list.
Proof.
  unfold Py.mem, Py.keys. induction d as [|[k' v'] d IH]; simpl.
  - reflexivity.
  - destruct (String.eqb k' k) eqn:E; simpl; [discriminate|].
    intros H. now rewrite IH.
Qed.

Lemma mem_in_keys d k : Py.mem d k = true <-> In k (Py.keys d).
Proof.
  unfold Py.mem, Py.keys. induction d as [|[k' v'] d IH]; simpl.
  - split; [discriminate | tauto].
  - destruct (String.eqb k' k) eqn:E.
    + apply String.eqb_eq in E. split; auto.
    + apply String.eqb_neq in E. rewrite IH. split; [auto | intros [?|?]]; tauto.
Qed.
End DictFacts.

(** ** Elo *)

Lemma round_half_even_nearest n d :
  0 < d -> 2 * Z.abs (Py.round_half_even n d * d - n) <= d.
Proof.
  intros Hd. unfold Py.round_half_even.
  pose proof (Z.div_mod n d ltac:(lia)) as Hn.
  pose proof (Z.mod_pos_bound n d Hd) as Hr.
  generalize dependent (n mod d). generalize dependent (n / d).
  intros q r -> Hr.
  assert (Hq : (q + 1) * d - (d * q + r) = d - r) by ring.
  assert (Hq' : q * d - (d * q + r) = - r) by ring.
  destruct (Z.compare_spec (2 * r) d) as [C|C|C].
  - destruct (Z.even q); [rewrite Hq' | rewrite Hq]; lia.
  - rewrite Hq'. lia.
  - rewrite Hq. lia.
Qed.

Lemma round_nearest x n :
  Py.round x = Py.Ok n ->
  exists m e, float_value x = Some (m, e) /\ nearest_integer n m e.
Proof.
  unfold Py.round, float_value, nearest_integer.
  destruct (Prim2SF x) as [s|s| |s m e]; try discriminate.
  - intros [= <-]. exists 0, 0. split; [reflexivity|]. reflexivity.
  - set (v := if s then Z.neg m else Z.pos m).
    destruct (0 <=? e) eqn:E; intros [= <-]; exists v, e;
      (split; [reflexivity | rewrite E]).
    + reflexivity.
    + apply round_half_even_nearest. apply Z.leb_gt in E.
      apply Z.pow_pos_nonneg; lia.
Qed.

Lemma lookup_set_same d k v : Ranking.lookup_rating (Py.set d k v) k = v.
Proof. unfold Ranking.lookup_rating. now rewrite get_set_same. Qed.

Lemma lookup_set_other d k k' v :
  k' <> k -> Ranking.lookup_rating (Py.set d k v) k' = Ranking.lookup_rating d k'.
Proof. intros H. unfold Ranking.lookup_rating. now rewrite get_set_other. Qed.

(** Giving a hypothesis its initial rating changes no rating read with
    the default. *)
Lemma lookup_init d k k' :
  Ranking.lookup_rating (Ranking.init_rating d k) k' = Ranking.lookup_rating d k'.
Proof.
  unfold Ranking.init_rating, Py.mem.
  destruct (Py.get d k) eqn:G; [reflexivity|].
  destruct (String.eqb_spec k' k) as [->|Hne].
  - rewrite lookup_set_same. unfold Ranking.lookup_rating. now rewrite G.
  - now apply lookup_set_other.
Qed.

Lemma actual_score_winner k : Ranking.actual_score k k = 1%float.
Proof. unfold Ranking.actual_score. now rewrite String.eqb_refl. Qed.

Lemma actual_score_loser k k' : k <> k' -> Ranking.actual_score k k' = 0%float.
Proof.
  intros H. unfold Ranking.actual_score.
  now apply String.eqb_neq in H as ->.
Qed.

(** What a call of [_update_elo_ratings] that returns has done. *)
Lemma update_elo_ok libm h1 h2 w ts ts' :
  Ranking._update_elo_ratings libm h1 h2 w ts = (Py.Ok tt, ts') ->
  exists e1 e2 n1 n2,
    Ranking.expected_score libm (rating ts h1) (rating ts h2) = Py.Ok e1 /\
    Ranking.expected_score libm (rating ts h2) (rating ts h1) = Py.Ok e2 /\
    Ranking.new_rating (rating ts h1) (Ranking.actual_score w h1) e1 = Py.Ok n1 /\
    Ranking.new_rating (rating ts h2) (Ranking.actual_score w h2) e2 = Py.Ok n2 /\
    ratings ts' =
      Some (Py.set
              (Py.set (Ranking.init_rating
                         (Ranking.init_rating
                            (match ratings ts with Some d => d | None => [] end)
                            h1) h2) h1 n1) h2 n2) /\
    matches ts' =
      Some ((match matches ts with Some ms => ms | None => [] end)
            ++ [{| hypothesis_1 := h1; hypothesis_2 := h2; winner := w;
                   timestamp := "2025-03-07" |}])%list /\
    completed_matches ts' = completed_matches ts /\
    progress ts' = progress ts /\ top_ranked ts' = top_ranked ts.
Proof.
  unfold Ranking._update_elo_ratings, rating.
  set (d0 := match ratings ts with Some d => d | None => [] end).
  rewrite !lookup_init.
  destruct (Ranking.expected_score libm _ _) as [e1|] eqn:E1; [|discriminate].
  destruct (Ranking.expected_score libm (Ranking.lookup_rating d0 h2) _)
    as [e2|] eqn:E2; [|discriminate].
  destruct (Ranking.new_rating _ _ e1) as [n1|] eqn:N1; [|discriminate].
  destruct (Ranking.new_rating _ _ e2) as [n2|] eqn:N2; [|discriminate].
  intros [= <-]. exists e1, e2, n1, n2. simpl. repeat split; assumption.
Qed.

Lemma new_rating_nearest r s e n :
  Ranking.new_rating r s e = Py.Ok n ->
  exists f m x,
    Py.float_of_int r = Py.Ok f /\
    float_value (f + 32 * (s - e))%float = Some (m, x) /\
    nearest_integer n m x.
Proof.
  unfold Ranking.new_rating, Py.bind.
  destruct (Py.float_of_int r) as [f|]; [|discriminate].
  intros H. apply round_nearest in H as (m & x & Hv & Hn).
  now exists f, m, x.
Qed.

(** Both at 1200: whatever the C library computes elsewhere, the
    exponent is zero and the expected score is one half. *)
Lemma expected_score_equal libm :
  Ranking.expected_score libm 1200 1200 = Py.Ok 0.5%float.
Proof. reflexivity. Qed.

Lemma expected_score_formula libm r_own r_other e :
  Ranking.expected_score libm r_own r_other = Py.Ok e ->
  exists x p,
    Py.int_truediv (r_other - r_own) 400 = Py.Ok x /\
    Py.pow10 libm x = Py.Ok p /\
    is_zero (1 + p)%float = false /\
    e = (1 / (1 + p))%float.
Proof.
  unfold Ranking.expected_score.
  destruct (Py.int_truediv (r_other - r_own) 400) as [x|ex] eqn:Hx;
    [|discriminate].
  cbn [Py.bind]. destruct (Py.pow10 libm x) as [p|ep] eqn:Hp; [|discriminate].
  cbn [Py.bind]. unfold Py.float_div.
  destruct (is_zero (1 + p)%float) eqn:Z; [discriminate|].
  intros [= <-]. exists x, p. auto.
Qed.

(** Ratings 400 apart, with a C library that is exact on [10 ** 1.0] and
    correctly rounded on [10 ** -1.0]. *)
Lemma expected_score_apart libm :
  libm 1%float = 10%float -> libm (-1)%float = one_tenth ->
  Ranking.expected_score libm 1200 1600 = Py.Ok (1 / (1 + 10))%float /\
  Ranking.expected_score libm 1600 1200 = Py.Ok (1 / (1 + one_tenth))%float.
Proof.
  intros H1 H2. unfold Ranking.expected_score.
  replace (Py.int_truediv (1600 - 1200) 400) with (Py.Ok 1%float)
    by (vm_compute; reflexivity).
  replace (Py.int_truediv (1200 - 1600) 400) with (Py.Ok (-1)%float)
    by (vm_compute; reflexivity).
  cbn [Py.bind]. unfold Py.pow10.
  replace (is_zero 1%float) with false by (vm_compute; reflexivity).
  replace (is_zero (-1)%float) with false by (vm_compute; reflexivity).
  rewrite H1, H2. split; reflexivity.
Qed.

(** C1. The rating update is the Elo update with K = 32.  For a match
    between two different hypotheses, a call that returns has computed,
    for each side, the expected score from the ratings before the match
    and has stored [round(own + 32 * (actual - expected))]; no other
    rating changes.  The expected score is
    [1 / (1 + 10 ** ((other - own) / 400))]: the quotient of the two
    integers, the power of ten, the sum and the division of floats, in
    this order.  The stored rating is an integer nearest to the float
    [own + 32 * (actual - expected)], the actual score being 1 for the
    winner and 0 for the loser.  With both ratings at 1200 and the first
    hypothesis winning, the call returns and leaves 1216 and 1184; with
    the first at 1200, the second at 1600 and the first winning, it
    leaves 1229 and 1571 when the C library's power is the correctly
    rounded one at 1.0 and -1.0. *)
Theorem elo_update_is_standard libm h1 h2 ts (Hne : h1 <> h2) :
  (forall w ts',
     Ranking._update_elo_ratings libm h1 h2 w ts = (Py.Ok tt, ts') ->
     exists e1 e2 n1 n2,
       Ranking.expected_score libm (rating ts h1) (rating ts h2) = Py.Ok e1 /\
       Ranking.expected_score libm (rating ts h2) (rating ts h1) = Py.Ok e2 /\
       Ranking.new_rating (rating ts h1) (Ranking.actual_score w h1) e1 = Py.Ok n1 /\
       Ranking.new_rating (rating ts h2) (Ranking.actual_score w h2) e2 = Py.Ok n2 /\
       rating ts' h1 = n1 /\ rating ts' h2 = n2 /\
       (forall k, k <> h1 -> k <> h2 -> rating ts' k = rating ts k))
  /\ (forall r_own r_other e,
        Ranking.expected_score libm r_own r_other = Py.Ok e ->
        exists x p,
          Py.int_truediv (r_other - r_own) 400 = Py.Ok x /\
          Py.pow10 libm x = Py.Ok p /\
          is_zero (1 + p)%float = false /\
          e = (1 / (1 + p))%float)
  /\ (forall r s e n,
        Ranking.new_rating r s e = Py.Ok n ->
        exists f m x,
          Py.float_of_int r = Py.Ok f /\
          float_value (f + 32 * (s - e))%float = Some (m, x) /\
          nearest_integer n m x)
  /\ (Ranking.actual_score h1 h1 = 1%float /\ Ranking.actual_score h1 h2 = 0%float
      /\ Ranking.actual_score h2 h2 = 1%float /\ Ranking.actual_score h2 h1 = 0%float)
  /\ (rating ts h1 = 1200 -> rating ts h2 = 1200 ->
      exists ts',
        Ranking._update_elo_ratings libm h1 h2 h1 ts = (Py.Ok tt, ts') /\
        rating ts' h1 = 1216 /\ rating ts' h2 = 1184)
  /\ (libm 1%float = 10%float -> libm (-1)%float = one_tenth ->
      rating ts h1 = 1200 -> rating ts h2 = 1600 ->
      exists ts',
        Ranking._update_elo_ratings libm h1 h2 h1 ts = (Py.Ok tt, ts') /\
        rating ts' h1 = 1229 /\ rating ts' h2 = 1571).
Proof.
  assert (Hrat : forall w ts',
     Ranking._update_elo_ratings libm h1 h2 w ts = (Py.Ok tt, ts') ->
     exists e1 e2 n1 n2,
       Ranking.expected_score libm (rating ts h1) (rating ts h2) = Py.Ok e1 /\
       Ranking.expected_score libm (rating ts h2) (rating ts h1) = Py.Ok e2 /\
       Ranking.new_rating (rating ts h1) (Ranking.actual_score w h1) e1 = Py.Ok n1 /\
       Ranking.new_rating (rating ts h2) (Ranking.actual_score w h2) e2 = Py.Ok n2 /\
       rating ts' h1 = n1 /\ rating ts' h2 = n2 /\
       (forall k, k <> h1 -> k <> h2 -> rating ts' k = rating ts k)).
  { intros w ts' H.
    apply update_elo_ok in H
      as (e1 & e2 & n1 & n2 & E1 & E2 & N1 & N2 & R & _).
    exists e1, e2, n1, n2. repeat split; try assumption.
    - unfold rating at 1. rewrite R.
      rewrite lookup_set_other by assumption. apply lookup_set_same.
    - unfold rating at 1. rewrite R. apply lookup_set_same.
    - intros k K1 K2. unfold rating at 1. rewrite R.
      rewrite !lookup_set_other by assumption. now rewrite !lookup_init. }
  split; [exact Hrat|]. split; [apply expected_score_formula|].
  split; [exact new_rating_nearest|]. split.
  { repeat split; first [apply actual_score_winner | apply actual_score_loser];
      congruence. }
  split.
  - intros R1 R2.
    destruct (Ranking._update_elo_ratings libm h1 h2 h1 ts) as [res ts'] eqn:U.
    assert (res = Py.Ok tt) as ->.
    { revert U. unfold Ranking._update_elo_ratings.
      rewrite !lookup_init. fold (rating ts h1) (rating ts h2).
      rewrite R1, R2, expected_score_equal, actual_score_winner,
        (actual_score_loser h1 h2 Hne).
      now intros [= <- _]. }
    exists ts'. split; [reflexivity|].
    destruct (Hrat _ _ U) as (e1 & e2 & n1 & n2 & E1 & E2 & N1 & N2 & -> & -> & _).
    rewrite R1, R2, expected_score_equal in E1, E2.
    injection E1 as <-. injection E2 as <-.
    rewrite R1, actual_score_winner in N1.
    rewrite R2, (actual_score_loser h1 h2 Hne) in N2.
    vm_compute in N1, N2. split; congruence.
  - intros L1 L2 R1 R2.
    destruct (expected_score_apart libm L1 L2) as [A1 A2].
    destruct (Ranking._update_elo_ratings libm h1 h2 h1 ts) as [res ts'] eqn:U.
    assert (res = Py.Ok tt) as ->.
    { revert U. unfold Ranking._update_elo_ratings.
      rewrite !lookup_init. fold (rating ts h1) (rating ts h2).
      rewrite R1, R2, A1, A2, actual_score_winner,
        (actual_score_loser h1 h2 Hne).
      replace (Ranking.new_rating 1200 1 (1 / (1 + 10))) with (Py.Ok 1229)
        by (vm_compute; reflexivity).
      replace (Ranking.new_rating 1600 0 (1 / (1 + one_tenth)))
        with (Py.Ok 1571) by (vm_compute; reflexivity).
      now intros [= <- _]. }
    exists ts'. split; [reflexivity|].
    destruct (Hrat _ _ U) as (e1 & e2 & n1 & n2 & E1 & E2 & N1 & N2 & -> & -> & _).
    rewrite R1, R2, A1 in E1. rewrite R1, R2, A2 in E2.
    injection E1 as <-. injection E2 as <-.
    rewrite R1, actual_score_winner in N1.
    rewrite R2, (actual_score_loser h1 h2 Hne) in N2.
    vm_compute in N1, N2. split; congruence.
Qed.

(** The two Elo steps, on the state of a new tournament and on ratings
    400 apart. *)
Lemma elo_update_is_standard_witness :
  (exists ts',
     Ranking._update_elo_ratings (fun _ => 1%float) "h1" "h2" "h1"
       Ranking._initialize_tournament = (Py.Ok tt, ts') /\
     rating ts' "h1" = 1216 /\ rating ts' "h2" = 1184) /\
  (exists ts',
     Ranking._update_elo_ratings
       (fun x => if (x =? 1)%float then 10%float else one_tenth)
       "h1" "h2" "h1"
       (with_ratings Ranking._initialize_tournament [("h2", 1600)])
     = (Py.Ok tt, ts') /\
     rating ts' "h1" = 1229 /\ rating ts' "h2" = 1571).
Proof.
  split.
  - destruct (elo_update_is_standard (fun _ => 1%float) "h1" "h2"
                Ranking._initialize_tournament)
      as (_ & _ & _ & _ & H & _); [discriminate|].
    apply H; reflexivity.
  - destruct (elo_update_is_standard
                (fun x => if (x =? 1)%float then 10%float else one_tenth)
                "h1" "h2"
                (with_ratings Ranking._initialize_tournament [("h2", 1600)]))
      as (_ & _ & _ & _ & _ & H); [discriminate|].
    apply H; reflexivity.
Defined.

(** ** The kind of a match *)

Lemma choice_of_two (a b : string) g :
  fst (Random.choice [a; b] a g) = a \/ fst (Random.choice [a; b] a g) = b.
Proof.
  unfold Random.choice, Random.randbelow. simpl.
  destruct (snd (Nat.divmod _ 1 0 1)); auto.
Qed.

Lemma debate_facts h1 h2 w :
  let m := fst (Ranking._run_scientific_debate h1 h2 w) in
  mr_kind m = Debate /\
  mr_hypothesis_1 m = h_id h1 /\ mr_hypothesis_2 m = h_id h2 /\
  (mr_winner m = h_id h1 \/ mr_winner m = h_id h2) /\
  ctx (snd (Ranking._run_scientific_debate h1 h2 w)) = ctx w.
Proof.
  unfold Ranking._run_scientific_debate.
  pose proof (choice_of_two (h_id h1) (h_id h2) (rng w)) as Hc.
  destruct (Random.choice _ _ _) as [win g]. simpl in *. tauto.
Qed.

Lemma comparison_facts h1 h2 w :
  let m := fst (Ranking._run_simple_comparison h1 h2 w) in
  mr_kind m = Simple /\
  mr_hypothesis_1 m = h_id h1 /\ mr_hypothesis_2 m = h_id h2 /\
  (mr_winner m = h_id h1 \/ mr_winner m = h_id h2) /\
  ctx (snd (Ranking._run_simple_comparison h1 h2 w)) = ctx w.
Proof.
  unfold Ranking._run_simple_comparison.
  pose proof (choice_of_two (h_id h1) (h_id h2) (rng w)) as Hc.
  destruct (Random.choice _ _ _) as [win g]. simpl in *. tauto.
Qed.

(** C7. A match is a scientific debate when both participants are rated
    at least 1300 on the blackboard when the match is run, a missing
    rating counting as 1200, and a simple comparison otherwise; either
    way the result names the two participants and one winner, which is
    one of them. *)
Theorem match_kind_by_rating h1 h2 w :
  let r1 := rating (Ranking.stored_state (ctx w)) (h_id h1) in
  let r2 := rating (Ranking.stored_state (ctx w)) (h_id h2) in
  let m := fst (Ranking._run_match h1 h2 w) in
  (1300 <= r1 /\ 1300 <= r2 -> mr_kind m = Debate) /\
  (r1 < 1300 \/ r2 < 1300 -> mr_kind m = Simple) /\
  mr_hypothesis_1 m = h_id h1 /\ mr_hypothesis_2 m = h_id h2 /\
  (mr_winner m = h_id h1 \/ mr_winner m = h_id h2) /\
  ctx (snd (Ranking._run_match h1 h2 w)) = ctx w.
Proof.
  intros r1 r2 m. subst m. unfold Ranking._run_match.
  change (Ranking.context_rating (ctx w) (h_id h1)) with r1.
  change (Ranking.context_rating (ctx w) (h_id h2)) with r2.
  destruct (Z.leb_spec 1300 r1) as [L1|L1];
    destruct (Z.leb_spec 1300 r2) as [L2|L2]; simpl;
    first [ destruct (debate_facts h1 h2 w) as (K & A & B & C & D)
          | destruct (comparison_facts h1 h2 w) as (K & A & B & C & D) ];
    repeat split; try assumption; try (intros; assumption); intros; lia.
Qed.

(** The debate threshold of the specification: both at 1300 is a debate,
    1299 against 1300 is a simple comparison. *)
Lemma match_kind_by_rating_witness :
  let seeded a b :=
    {| ctx := set_tournament_state empty_context
                (with_ratings Ranking._initialize_tournament
                   [("h1", a); ("h2", b)]);
       rng := {| Random.draws := fun _ => O; Random.pos := O |} |} in
  let h k := {| h_id := k; h_statement := ""; h_generation_method := None |} in
  mr_kind (fst (Ranking._run_match (h "h1") (h "h2") (seeded 1300 1300))) = Debate
  /\ mr_kind (fst (Ranking._run_match (h "h1") (h "h2") (seeded 1299 1300))) = Simple.
Proof.
  intros seeded h. split.
  - apply (match_kind_by_rating (h "h1") (h "h2") (seeded 1300 1300)).
    vm_compute. split; discriminate.
  - apply (match_kind_by_rating (h "h1") (h "h2") (seeded 1299 1300)).
    left. vm_compute. reflexivity.
Defined.

(** ** The supervisor's termination predicate *)

Lemma length_firstn_ge {A} (l : list A) (n k : nat) :
  (k <= n)%nat -> (k <= List.length (firstn n l))%nat <-> (k <= List.length l)%nat.
Proof. intros H. rewrite length_firstn. lia. Qed.

(** C6. The termination predicate holds exactly when the iteration has
    reached [max_iterations - 1] or there are at least 10 hypotheses, at
    least 10 reviewed, at least 5 top-ranked and the tournament progress
    is strictly above 0.9; the statistics list up to 10 top-ranked ids, so
    it has 5 entries exactly when the tournament's list has.  At
    [max_iterations - 1] it holds whatever the statistics. *)
Theorem check_terminal_state_iff :
  (forall stats i max,
     Supervisor._check_terminal_state stats i max = true <->
     max - 1 <= i \/
     (10 <= num_hypotheses stats /\ 10 <= num_reviewed stats /\
      (5 <= List.length (top_hypotheses stats))%nat /\
      (Supervisor.nine_tenths <? tournament_progress stats)%float = true))
  /\ (forall c,
        (5 <= List.length (top_hypotheses (Supervisor._calculate_statistics c)))%nat
        <-> (5 <= List.length
                    (match top_ranked (Ranking.stored_state c) with
                     | Some l => l
                     | None => []
                     end))%nat)
  /\ (forall stats max,
        Supervisor._check_terminal_state stats (max - 1) max = true).
Proof.
  split; [|split].
  - intros stats i max. unfold Supervisor._check_terminal_state,
      Supervisor.min_hypotheses.
    destruct (Z.leb_spec (max - 1) i) as [L|L]; [tauto|].
    destruct (Z.leb_spec 10 (num_hypotheses stats)) as [H1|H1];
      destruct (Z.leb_spec 10 (num_reviewed stats)) as [H2|H2];
      destruct (Z.leb_spec 5 (Z.of_nat (List.length (top_hypotheses stats))))
        as [H3|H3]; simpl;
      destruct (Supervisor.nine_tenths <? tournament_progress stats)%float;
      split; intros H; try discriminate; try reflexivity;
      try (right; repeat split; (reflexivity || lia));
      destruct H as [H|(K1 & K2 & K3 & K4)]; try discriminate; lia.
  - intros c. unfold Supervisor._calculate_statistics.
    cbn [top_hypotheses]. apply length_firstn_ge. lia.
  - intros stats max. unfold Supervisor._check_terminal_state.
    now rewrite Z.leb_refl.
Qed.

(** ** The supervisor's queue refill *)

Lemma proximity_tasks_app q q' :
  proximity_tasks (q ++ q') = (proximity_tasks q + proximity_tasks q')%nat.
Proof. unfold proximity_tasks. now rewrite filter_app, length_app. Qed.

Lemma update_task_queue_queue stats s :
  Supervisor.task_queue (Supervisor._update_task_queue stats s)
  = (Supervisor.task_queue s ++ Supervisor.refill_tasks stats)%list
  /\ Supervisor.world (Supervisor._update_task_queue stats s) = Supervisor.world s.
Proof.
  unfold Supervisor._update_task_queue.
  generalize (Supervisor.refill_tasks stats) as l. intros l. revert s.
  induction l as [|t l IH]; intros s; simpl.
  - now rewrite app_nil_r.
  - destruct (IH (Supervisor.put s t)) as [-> ->]. simpl.
    now rewrite <- app_assoc.
Qed.

Lemma refill_tasks_agents stats :
  Forall core_agent (Supervisor.refill_tasks stats).
Proof.
  unfold Supervisor.refill_tasks, core_agent.
  repeat (apply Forall_app; split).
  - destruct (_ <? _); constructor; simpl; auto.
  - apply Forall_map, Forall_forall. simpl. auto.
  - destruct (_ <? _)%float; constructor; simpl; auto.
  - apply Forall_map, Forall_forall. simpl. auto.
Qed.

Lemma core_agents_no_proximity q : Forall core_agent q -> proximity_tasks q = O.
Proof.
  unfold proximity_tasks. induction 1 as [|t q Ht _ IH]; simpl; [reflexivity|].
  destruct Ht as [E|[E|[E|E]]]; rewrite E; simpl; exact IH.
Qed.

Lemma worker_step_queue agents s :
  Supervisor.task_queue (Supervisor.worker_step agents s)
  = tl (Supervisor.task_queue s).
Proof.
  unfold Supervisor.worker_step.
  destruct s as [w [|t q] b]; reflexivity.
Qed.

Lemma run_workers_queue agents k s :
  Forall core_agent (Supervisor.task_queue s) ->
  Forall core_agent (Supervisor.task_queue (Supervisor.run_workers agents k s)).
Proof.
  revert s. induction k as [|k IH]; intros s H; simpl; [exact H|].
  apply IH. rewrite worker_step_queue.
  destruct (Supervisor.task_queue s); simpl; [constructor|].
  now inversion H.
Qed.

Lemma rounds_queue agents schedule n i max last s :
  Forall core_agent (Supervisor.task_queue s) ->
  Forall core_agent
    (Supervisor.task_queue (snd (Supervisor.rounds agents schedule n i max last s))).
Proof.
  revert i last s. induction n as [|n IH]; intros i last s H; simpl; [exact H|].
  pose proof (run_workers_queue agents (schedule i) s H) as H1.
  destruct (Supervisor._check_terminal_state _ i max); simpl; [exact H1|].
  apply IH.
  destruct (update_task_queue_queue
              (Supervisor._calculate_statistics
                 (ctx (Supervisor.world
                         (Supervisor.run_workers agents (schedule i) s))))
              (Supervisor.with_world
                 (Supervisor.run_workers agents (schedule i) s)
                 (with_ctx
                    (Supervisor.world
                       (Supervisor.run_workers agents (schedule i) s))
                    (set_stats_iteration
                       (ctx (Supervisor.world
                               (Supervisor.run_workers agents (schedule i) s)))
                       i
                       (Supervisor._calculate_statistics
                          (ctx (Supervisor.world
                                  (Supervisor.run_workers agents (schedule i) s))))))))
    as [-> _].
  apply Forall_app. split; [exact H1 | apply refill_tasks_agents].
Qed.

Lemma parse_goal_queue goal s :
  Supervisor.task_queue (Supervisor._parse_research_goal goal s)
  = Supervisor.task_queue s.
Proof. unfold Supervisor._parse_research_goal. now destruct goal. Qed.

Lemma build_result_state i s : snd (Supervisor.build_result i s) = s.
Proof. unfold Supervisor.build_result. now destruct i. Qed.

Lemma execute_queue agents meta schedule task s :
  Forall core_agent (Supervisor.task_queue s) ->
  Forall core_agent
    (Supervisor.task_queue (snd (Supervisor.execute agents meta schedule task s))).
Proof.
  intros H. unfold Supervisor.execute.
  match goal with
  | |- context [Supervisor.rounds agents schedule ?n ?i ?m ?l ?s3] =>
      pose proof (rounds_queue agents schedule n i m l s3) as HR;
      destruct (Supervisor.rounds agents schedule n i m l s3) as [j s4]
  end.
  simpl in HR.
  assert (H4 : Forall core_agent (Supervisor.task_queue s4)).
  { apply HR. unfold Supervisor._initialize_task_queue.
    destruct (Py.mem agents "generation"); simpl; rewrite parse_goal_queue; simpl.
    - apply Forall_app. split; [exact H|]. constructor; [|constructor].
      left. reflexivity.
    - exact H. }
  destruct meta as [mr|].
  - destruct (mr _ _) as [[o|e] w]; [rewrite build_result_state|]; exact H4.
  - rewrite build_result_state. exact H4.
Qed.

(** Three consecutive refills put no task for the proximity agent, where
    the specification has one. *)
Lemma three_refills_without_proximity :
  let stats := Supervisor._calculate_statistics empty_context in
  let s := initial_state (constant_rng 0) in
  proximity_tasks
    (Supervisor.task_queue
       (Supervisor._update_task_queue stats
          (Supervisor._update_task_queue stats
             (Supervisor._update_task_queue stats s)))) <> 1%nat.
Proof. vm_compute. discriminate. Qed.

(** C8, as the code has it.  The refill puts tasks for the generation,
    reflection, ranking and evolution agents only, at the end of the
    queue: no call adds a task for the proximity agent, and a run of the
    supervisor that starts with none in the queue ends with none. *)
Theorem refill_never_enqueues_proximity :
  (forall stats s,
     Supervisor.task_queue (Supervisor._update_task_queue stats s)
     = (Supervisor.task_queue s ++ Supervisor.refill_tasks stats)%list /\
     Forall core_agent (Supervisor.refill_tasks stats) /\
     proximity_tasks (Supervisor.task_queue (Supervisor._update_task_queue stats s))
     = proximity_tasks (Supervisor.task_queue s))
  /\ (forall agents meta schedule task s,
        Forall core_agent (Supervisor.task_queue s) ->
        proximity_tasks
          (Supervisor.task_queue
             (snd (Supervisor.execute agents meta schedule task s))) = O).
Proof.
  split.
  - intros stats s. destruct (update_task_queue_queue stats s) as [-> _].
    repeat split; [apply refill_tasks_agents|].
    rewrite proximity_tasks_app.
    rewrite (core_agents_no_proximity _ (refill_tasks_agents stats)). lia.
  - intros. now apply core_agents_no_proximity, execute_queue.
Qed.

(** A run from the initial state, ten rounds, nothing registered. *)
Lemma refill_never_enqueues_proximity_witness :
  proximity_tasks
    (Supervisor.task_queue
       (snd (Supervisor.execute [] None (fun _ => 5%nat)
               {| Supervisor.research_goal := Some "goal";
                  Supervisor.max_iterations := Some 10;
                  Supervisor.num_workers := Some 5 |}
               (initial_state (constant_rng 0))))) = O.
Proof.
  apply (proj2 refill_never_enqueues_proximity). simpl. constructor.
Defined.


(** ** The stable descending sort *)

Lemma insert_desc_perm x l : Permutation (Ranking.insert_desc x l) (x :: l).
Proof.
  induction l as [|y l IH]; simpl; [reflexivity|].
  destruct (snd x <? snd y); [|reflexivity].
  rewrite IH. apply perm_swap.
Qed.

Lemma sort_desc_perm l : Permutation (Ranking.sort_desc l) l.
Proof.
  induction l as [|x l IH]; simpl; [reflexivity|].
  rewrite insert_desc_perm. now constructor.
Qed.

Lemma insert_desc_sorted x l :
  StronglySorted (fun a b => snd b <= snd a) l ->
  StronglySorted (fun a b => snd b <= snd a) (Ranking.insert_desc x l).
Proof.
  induction 1 as [|y l Hs IH Hy]; simpl.
  - repeat constructor.
  - destruct (Z.ltb_spec (snd x) (snd y)) as [L|L].
    + constructor; [exact IH|].
      rewrite insert_desc_perm. constructor; [lia | exact Hy].
    + constructor; [now constructor|].
      constructor; [exact L|].
      eapply Forall_impl; [|exact Hy]. simpl. intros; lia.
Qed.

Lemma sort_desc_sorted l :
  StronglySorted (fun a b => snd b <= snd a) (Ranking.sort_desc l).
Proof.
  induction l as [|x l IH]; simpl; [constructor | now apply insert_desc_sorted].
Qed.

(** Stability: the elements of one rating come out in the order they
    went in. *)
Lemma insert_desc_stable x l v :
  filter (fun y => snd y =? v) (Ranking.insert_desc x l)
  = filter (fun y => snd y =? v) (x :: l).
Proof.
  induction l as [|y l IH]; [reflexivity|].
  cbn [Ranking.insert_desc].
  destruct (Z.ltb_spec (snd x) (snd y)) as [L|L]; [|reflexivity].
  cbn [filter] in *. rewrite IH.
  destruct (Z.eqb_spec (snd x) v) as [Ex|Ex];
    destruct (Z.eqb_spec (snd y) v) as [Ey|Ey]; try reflexivity; lia.
Qed.

Lemma sort_desc_stable l v :
  filter (fun y => snd y =? v) (Ranking.sort_desc l)
  = filter (fun y => snd y =? v) l.
Proof.
  induction l as [|x l IH]; [reflexivity|].
  cbn [Ranking.sort_desc]. rewrite insert_desc_stable.
  cbn [filter]. now rewrite IH.
Qed.

(** ** The top-ranked list *)

Lemma get_in_nodup {V} (d : Py.dict V) k v :
  NoDup (Py.keys d) -> In (k, v) d -> Py.get d k = Some v.
Proof.
  unfold Py.keys. induction d as [|[k' v'] d IH]; simpl; [tauto|].
  intros Hnd [E|Hin].
  - injection E as -> ->. now rewrite String.eqb_refl.
  - inversion Hnd as [|? ? Hk Hd]; subst.
    destruct (String.eqb_spec k' k) as [->|_]; [|now apply IH].
    exfalso. apply Hk. now apply (in_map fst) in Hin.
Qed.

Lemma rating_of_pair ts y :
  NoDup (Py.keys (ratings_of ts)) -> In y (ratings_of ts) ->
  rating ts (fst y) = snd y.
Proof.
  intros Hnd Hin. destruct y as [k v].
  change (Ranking.lookup_rating (ratings_of ts) k = v).
  unfold Ranking.lookup_rating. now rewrite (get_in_nodup _ k v Hnd Hin).
Qed.

Lemma map_fst_filter {V} (f : string -> bool) (d : Py.dict V) :
  map fst (filter (fun kv => f (fst kv)) d) = filter f (map fst d).
Proof.
  induction d as [|[k v] d IH]; simpl; [reflexivity|].
  destruct (f k); simpl; now rewrite IH.
Qed.

Lemma filter_rating_map_fst ts (l : list (string * Z)) v :
  (forall y, In y l -> rating ts (fst y) = snd y) ->
  filter (fun k => rating ts k =? v) (map fst l)
  = map fst (filter (fun y => snd y =? v) l).
Proof.
  induction l as [|y l IH]; intros H; simpl; [reflexivity|].
  rewrite (H y (or_introl eq_refl)).
  destruct (snd y =? v); simpl; rewrite IH; auto; intros; apply H; now right.
Qed.

Lemma sorted_map_fst ts (l : list (string * Z)) :
  (forall y, In y l -> rating ts (fst y) = snd y) ->
  StronglySorted (fun a b => snd b <= snd a) l ->
  descending ts (map fst l).
Proof.
  unfold descending. intros H. induction 1 as [|y l Hs IH Hy]; simpl.
  - constructor.
  - constructor.
    + apply IH. intros; apply H; now right.
    + apply Forall_map. rewrite Forall_forall in *. intros z Hz.
      rewrite (H y (or_introl eq_refl)), (H z (or_intror Hz)). now apply Hy.
Qed.

Lemma valid_ratings_in ts hypotheses y :
  In y (Ranking.valid_ratings ts hypotheses) -> In y (ratings_of ts).
Proof. unfold Ranking.valid_ratings. intros H. now apply filter_In in H. Qed.

(** What [_get_top_ranked] returns: the rated hypothesis ids, highest
    rating first, equal ratings in the order of the ratings [dict]. *)
Lemma get_top_ranked_spec ts hypotheses :
  NoDup (Py.keys (ratings_of ts)) ->
  let ids := Ranking._get_top_ranked ts hypotheses in
  Permutation ids (rated_hypotheses ts hypotheses) /\
  descending ts ids /\
  ties_keep_order ts (rated_hypotheses ts hypotheses) ids.
Proof.
  intros Hnd ids. subst ids. unfold Ranking._get_top_ranked.
  assert (Hkeys : map fst (Ranking.valid_ratings ts hypotheses)
                  = rated_hypotheses ts hypotheses).
  { unfold Ranking.valid_ratings, rated_hypotheses, Py.keys.
    apply map_fst_filter. }
  assert (Hv : forall y, In y (Ranking.valid_ratings ts hypotheses) ->
                         rating ts (fst y) = snd y).
  { intros y Hy. apply rating_of_pair; [exact Hnd|].
    now apply valid_ratings_in in Hy. }
  assert (Hs : forall y,
             In y (Ranking.sort_desc (Ranking.valid_ratings ts hypotheses)) ->
             rating ts (fst y) = snd y).
  { intros y Hy. apply Hv.
    eapply Permutation_in; [apply sort_desc_perm | exact Hy]. }
  repeat split.
  - rewrite <- Hkeys. apply Permutation_map, sort_desc_perm.
  - apply sorted_map_fst; [exact Hs | apply sort_desc_sorted].
  - intros v. rewrite <- Hkeys.
    rewrite (filter_rating_map_fst ts _ v Hs),
      (filter_rating_map_fst ts _ v Hv).
    now rewrite sort_desc_stable.
Qed.


(** ** What a batch of matches does to the blackboard *)

Lemma in_keys_set {V} (d : Py.dict V) k v x :
  In x (Py.keys (Py.set d k v)) <-> In x (Py.keys d) \/ x = k.
Proof.
  destruct (Py.mem d k) eqn:M.
  - rewrite keys_set_mem by exact M. apply mem_in_keys in M.
    split; [auto | intros [H| ->]; assumption].
  - rewrite keys_set_new by exact M. rewrite in_app_iff. simpl.
    split; intros [H|H]; auto; destruct H; auto; tauto.
Qed.

Lemma nodup_keys_set {V} (d : Py.dict V) k v :
  NoDup (Py.keys d) -> NoDup (Py.keys (Py.set d k v)).
Proof.
  intros H. destruct (Py.mem d k) eqn:M.
  - now rewrite keys_set_mem.
  - rewrite keys_set_new by exact M.
    apply NoDup_app; [exact H | repeat constructor; simpl; tauto |].
    intros x Hx Hk. destruct Hk as [<-|Hf]; [|destruct Hf].
    apply mem_in_keys in Hx. congruence.
Qed.

Lemma same_but_tournament_refl c : same_but_tournament c c.
Proof. unfold same_but_tournament. tauto. Qed.

Lemma same_but_tournament_trans c1 c2 c3 :
  same_but_tournament c1 c2 -> same_but_tournament c2 c3 ->
  same_but_tournament c1 c3.
Proof.
  unfold same_but_tournament.
  intros (A1 & A2 & A3 & A4 & A5 & A6 & A7) (B1 & B2 & B3 & B4 & B5 & B6 & B7).
  repeat split; congruence.
Qed.

Lemma same_but_tournament_set c ts :
  same_but_tournament c (set_tournament_state c ts).
Proof. unfold same_but_tournament. simpl. tauto. Qed.

Lemma deref_assign r ts w :
  Ranking.deref (fst (Ranking.assign r ts w)) (snd (Ranking.assign r ts w)) = ts.
Proof. now destruct r. Qed.

Lemma assign_frame r ts w :
  same_but_tournament (ctx w) (ctx (snd (Ranking.assign r ts w))).
Proof.
  destruct r; simpl; [apply same_but_tournament_set | apply same_but_tournament_refl].
Qed.

Lemma deref_ctx r w w' : ctx w = ctx w' -> Ranking.deref r w = Ranking.deref r w'.
Proof. intros H. destruct r; simpl; [now rewrite H | reflexivity]. Qed.

Lemma run_match_ctx h1 h2 w : ctx (snd (Ranking._run_match h1 h2 w)) = ctx w.
Proof.
  unfold Ranking._run_match.
  destruct (_ && _); [apply debate_facts | apply comparison_facts].
Qed.

Lemma init_rating_closed (P : Py.dict Z -> Prop) d h :
  (forall v, P d -> P (Py.set d h v)) -> P d -> P (Ranking.init_rating d h).
Proof. unfold Ranking.init_rating. destruct (Py.mem d h); auto. Qed.

Lemma select_pair_closed (P : Py.dict Z -> Prop) hypotheses ts :
  (forall d h v, In h (map h_id hypotheses) -> P d -> P (Py.set d h v)) ->
  P (ratings_of ts) ->
  P (ratings_of (snd (Ranking._select_hypothesis_pair hypotheses ts))).
Proof.
  intros Hset. unfold Ranking._select_hypothesis_pair, ratings_of. simpl.
  destruct (ratings ts) as [d|] eqn:R; simpl.
  - clear R. revert d.
    induction hypotheses as [|h l IH]; intros d Hd; simpl; [exact Hd|].
    apply IH.
    + intros d' h' v Hin. apply Hset. now right.
    + apply init_rating_closed; [|exact Hd]. intros v. apply Hset. now left.
  - now rewrite R.
Qed.

Lemma select_pair_some hypotheses ts h1 h2 :
  fst (Ranking._select_hypothesis_pair hypotheses ts) = Some (h1, h2) ->
  exists rest, hypotheses = h1 :: h2 :: rest.
Proof.
  unfold Ranking._select_hypothesis_pair. simpl.
  destruct hypotheses as [|a [|b rest]]; try discriminate.
  intros [= -> ->]. now exists rest.
Qed.

Lemma update_elo_closed (P : Py.dict Z -> Prop) libm h1 h2 w ts :
  (forall d h v, h = h1 \/ h = h2 -> P d -> P (Py.set d h v)) ->
  P (ratings_of ts) ->
  P (ratings_of (snd (Ranking._update_elo_ratings libm h1 h2 w ts))).
Proof.
  intros Hset H0. unfold Ranking._update_elo_ratings.
  fold (ratings_of ts).
  set (d2 := Ranking.init_rating (Ranking.init_rating (ratings_of ts) h1) h2).
  assert (H2 : P d2).
  { subst d2. apply init_rating_closed; [intros; apply Hset; auto|].
    apply init_rating_closed; [intros; apply Hset; auto | exact H0]. }
  assert (Hsync : forall d, P d ->
            P (ratings_of match ratings ts with
                          | Some _ => with_ratings ts d
                          | None => ts
                          end)).
  { intros d Hd. destruct (ratings ts) eqn:R; [exact Hd|].
    unfold ratings_of in *. now rewrite R in *. }
  destruct (Ranking.expected_score libm _ _); [|now apply Hsync].
  destruct (Ranking.expected_score libm _ _); [|now apply Hsync].
  destruct (Ranking.new_rating _ _ _); [|now apply Hsync].
  destruct (Ranking.new_rating _ _ _); [|apply Hsync; apply Hset; auto].
  simpl. apply Hset; auto.
Qed.

(** The loop of a batch changes the context memory in the tournament
    state only, and the ratings [dict] only by assignments to the ids of
    eligible hypotheses. *)
Lemma run_matches_closed (P : Py.dict Z -> Prop) libm eligible :
  (forall d h v, In h (map h_id eligible) -> P d -> P (Py.set d h v)) ->
  forall n r acc w,
    P (ratings_of (Ranking.deref r w)) ->
    let out := Ranking.run_matches libm n eligible r acc w in
    P (ratings_of (Ranking.deref (snd (fst out)) (snd out))) /\
    same_but_tournament (ctx w) (ctx (snd out)).
Proof.
  intros Hset. induction n as [|n IH]; intros r acc w H0;
    cbn [Ranking.run_matches].
  - split; [exact H0 | apply same_but_tournament_refl].
  - pose proof (select_pair_closed P eligible (Ranking.deref r w) Hset H0) as H1.
    pose proof (select_pair_some eligible (Ranking.deref r w)) as Hp.
    destruct (Ranking._select_hypothesis_pair eligible (Ranking.deref r w))
      as [pair ts1]. simpl in H1, Hp.
    pose proof (deref_assign r ts1 w) as Hd1.
    pose proof (assign_frame r ts1 w) as Hf1.
    destruct (Ranking.assign r ts1 w) as [r1 w1]. simpl in Hd1, Hf1.
    destruct pair as [[h1 h2]|]; cbn [fst snd].
    + destruct (Hp h1 h2 eq_refl) as [rest ->].
      pose proof (run_match_ctx h1 h2 w1) as Hc.
      destruct (Ranking._run_match h1 h2 w1) as [m w2]. simpl in Hc.
      rewrite (deref_ctx r1 w2 w1 Hc), Hd1.
      pose proof (update_elo_closed P libm (h_id h1) (h_id h2) (mr_winner m) ts1)
        as H2.
      destruct (Ranking._update_elo_ratings libm (h_id h1) (h_id h2)
                  (mr_winner m) ts1) as [res ts2]. simpl in H2.
      pose proof (deref_assign r1 ts2 w2) as Hd2.
      pose proof (assign_frame r1 ts2 w2) as Hf2.
      destruct (Ranking.assign r1 ts2 w2) as [r2 w3]. simpl in Hd2, Hf2.
      assert (P2 : P (ratings_of ts2)).
      { apply H2; [|exact H1]. intros d h v [-> | ->]; apply Hset; simpl; auto. }
      assert (F3 : same_but_tournament (ctx w) (ctx w3)).
      { eapply same_but_tournament_trans; [exact Hf1|]. now rewrite <- Hc. }
      destruct res as [u|e]; cbn [fst snd].
      * destruct (IH r2 (acc ++ [m])%list w3) as [A B]; [now rewrite Hd2|].
        split; [exact A|]. eapply same_but_tournament_trans; eassumption.
      * rewrite Hd2. now split.
    + rewrite Hd1. now split.
Qed.

Lemma eligible_are_hypotheses c h :
  In h (map h_id (Ranking.eligible_hypotheses c)) ->
  Ranking.is_hypothesis_id (hypotheses_of c) h = true.
Proof.
  unfold Ranking.eligible_hypotheses, Ranking.is_hypothesis_id.
  fold (hypotheses_of c). intros H.
  apply in_map_iff in H as (x & <- & Hx). apply filter_In in Hx as [Hx _].
  apply existsb_exists. exists x. split; [exact Hx | apply String.eqb_refl].
Qed.

Lemma filter_all {A} (f : A -> bool) l :
  (forall x, In x l -> f x = true) -> filter f l = l.
Proof.
  induction l as [|x l IH]; intros H; simpl; [reflexivity|].
  rewrite (H x (or_introl eq_refl)), IH; [reflexivity|].
  intros; apply H; now right.
Qed.

(** The state a batch of matches stores when it runs to its end. *)
Lemma run_tournament_matches_ok libm count w res w' :
  (2 <= List.length (Ranking.eligible_hypotheses (ctx w)))%nat ->
  Ranking._run_tournament_matches libm count w = (Py.Ok res, w') ->
  exists ms r1 w1 ts p,
    Ranking.run_matches libm (Z.to_nat count)
      (Ranking.eligible_hypotheses (ctx w))
      (if is_empty (Ranking.stored_state (ctx w))
       then Ranking.Local Ranking._initialize_tournament
       else Ranking.Shared) [] w = (Py.Ok ms, r1, w1) /\
    ts = with_progress
           (with_completed_matches (Ranking.deref r1 w1)
              (match completed_matches (Ranking.deref r1 w1) with
               | Some k => k
               | None => 0
               end + Z.of_nat (List.length ms))) p /\
    cm_tournament_state (ctx w')
    = Some (with_top_ranked ts
              (Ranking._get_top_ranked ts (hypotheses_of (ctx w)))) /\
    res = [E_other "matches" (VMatches ms);
           E_tournament_state
             (with_top_ranked ts
                (Ranking._get_top_ranked ts (hypotheses_of (ctx w))))] /\
    same_but_tournament (ctx w1) (ctx w').
Proof.
  intros Hn. unfold Ranking._run_tournament_matches.
  destruct (Z.ltb_spec (Z.of_nat (List.length (Ranking.eligible_hypotheses (ctx w)))) 2)
    as [L|L]; [lia|].
  destruct (Ranking.run_matches libm _ _ _ _ _) as [[[ms|e] r1] w1];
    [|discriminate].
  destruct (Py.int_truediv _ 2) as [total|e]; [|discriminate].
  pose proof (deref_assign r1
                (with_completed_matches (Ranking.deref r1 w1)
                   (match completed_matches (Ranking.deref r1 w1) with
                    | Some k => k
                    | None => 0
                    end + Z.of_nat (List.length ms))) w1) as Hd.
  pose proof (assign_frame r1
                (with_completed_matches (Ranking.deref r1 w1)
                   (match completed_matches (Ranking.deref r1 w1) with
                    | Some k => k
                    | None => 0
                    end + Z.of_nat (List.length ms))) w1) as Hf.
  destruct (Ranking.assign r1 _ w1) as [r2 w2]. cbn [fst snd] in Hd, Hf.
  destruct (Ranking.progress_of _ total) as [p|e]; [|discriminate].
  intros [= <- <-]. rewrite Hd.
  exists ms, r1, w1. eexists. exists p.
  do 4 (split; [reflexivity|]).
  eapply same_but_tournament_trans; [exact Hf|].
  apply same_but_tournament_set.
Qed.

(** The conclusion of C3 for a state whose list is [_get_top_ranked] of
    its own ratings. *)
Lemma top_ranked_of_own_ratings ts hs :
  distinct_keys ts ->
  let ts' := with_top_ranked ts (Ranking._get_top_ranked ts hs) in
  exists ids,
    top_ranked ts' = Some ids /\
    Permutation ids (rated_hypotheses ts' hs) /\
    descending ts' ids /\
    ties_keep_order ts' (rated_hypotheses ts' hs) ids /\
    (rated_are_hypotheses hs ts -> Permutation ids (Py.keys (ratings_of ts'))).
Proof.
  intros Hnd ts'. exists (Ranking._get_top_ranked ts hs).
  destruct (get_top_ranked_spec ts hs Hnd) as (A & B & C).
  split; [reflexivity|]. split; [exact A|]. split; [exact B|].
  split; [exact C|]. intros Hall.
  change (ratings_of ts') with (ratings_of ts).
  rewrite A. unfold rated_hypotheses. now rewrite filter_all.
Qed.

Lemma batch_start_ratings (P : Py.dict Z -> Prop) w :
  P [] -> P (ratings_of (Ranking.stored_state (ctx w))) ->
  P (ratings_of
       (Ranking.deref
          (if is_empty (Ranking.stored_state (ctx w))
           then Ranking.Local Ranking._initialize_tournament
           else Ranking.Shared) w)).
Proof. intros Hnil Hs. now destruct (is_empty _). Qed.

(** With four reviewed hypotheses held in the order d, c, b, a, one
    match leaves b and a tied at 1200 and lists b before a. *)
Lemma top_ranked_tie_not_lexical :
  let w' := snd (Ranking._run_tournament_matches (fun _ => 1%float) 1
                   four_reviewed) in
  let ts := Ranking.stored_state (ctx w') in
  top_ranked ts = Some ["d"; "b"; "a"; "c"] /\
  rating ts "b" = rating ts "a" /\
  String.ltb "a" "b" = true /\
  ~ descending_then_lexical ts ["d"; "b"; "a"; "c"].
Proof.
  intros w' ts. repeat split.
  intros H. inversion H as [|? ? H1 _]; subst.
  inversion H1 as [|? ? _ H2]; subst.
  inversion H2 as [|? ? H3 _]; subst.
  vm_compute in H3. destruct H3 as [H3|[_ H3]]; discriminate.
Qed.

(** C3, as the code has it.  After a batch of matches that runs, and
    after [update_rankings], [top_ranked] holds exactly the rated ids
    that are ids of hypotheses on the blackboard (all keys of the
    ratings map when every rated id was one), sorted by rating
    descending; ids of equal rating keep the order in which they stand
    in the ratings map. *)
Theorem top_ranked_sorted_by_rating libm :
  (forall count w res w',
     distinct_keys (Ranking.stored_state (ctx w)) ->
     (2 <= List.length (Ranking.eligible_hypotheses (ctx w)))%nat ->
     Ranking._run_tournament_matches libm count w = (Py.Ok res, w') ->
     let ts' := Ranking.stored_state (ctx w') in
     let hs := hypotheses_of (ctx w') in
     exists ids,
       top_ranked ts' = Some ids /\
       Permutation ids (rated_hypotheses ts' hs) /\
       descending ts' ids /\
       ties_keep_order ts' (rated_hypotheses ts' hs) ids /\
       (rated_are_hypotheses hs (Ranking.stored_state (ctx w)) ->
        Permutation ids (Py.keys (ratings_of ts'))))
  /\ (forall w,
        distinct_keys (Ranking.stored_state (ctx w)) ->
        let w' := snd (Ranking._update_rankings w) in
        let ts' := Ranking.stored_state (ctx w') in
        let hs := hypotheses_of (ctx w') in
        exists ids,
          top_ranked ts' = Some ids /\
          Permutation ids (rated_hypotheses ts' hs) /\
          descending ts' ids /\
          ties_keep_order ts' (rated_hypotheses ts' hs) ids /\
          (rated_are_hypotheses hs (Ranking.stored_state (ctx w)) ->
           Permutation ids (Py.keys (ratings_of ts')))).
Proof.
  split.
  - intros count w res w' Hnd Hn Hrun ts' hs.
    destruct (run_tournament_matches_ok libm count w res w' Hn Hrun)
      as (ms & r1 & w1 & ts & p & Hloop & Hts & Hst & _ & Hfr).
    pose proof (run_matches_closed (fun d => NoDup (Py.keys d)) libm
                  (Ranking.eligible_hypotheses (ctx w))
                  (fun d h v _ => nodup_keys_set d h v)
                  (Z.to_nat count) _ [] w
                  (batch_start_ratings (fun d => NoDup (Py.keys d)) w
                     (NoDup_nil _) Hnd)) as [Hnd1 Hfr1].
    rewrite Hloop in Hnd1, Hfr1. cbn [fst snd] in Hnd1, Hfr1.
    assert (Hhs : hs = hypotheses_of (ctx w)).
    { subst hs. unfold hypotheses_of.
      destruct Hfr as (-> & _), Hfr1 as (-> & _). reflexivity. }
    assert (Hts' : ts' = with_top_ranked ts
                           (Ranking._get_top_ranked ts (hypotheses_of (ctx w)))).
    { subst ts'. unfold Ranking.stored_state. now rewrite Hst. }
    rewrite Hhs, Hts'.
    destruct (top_ranked_of_own_ratings ts (hypotheses_of (ctx w)))
      as (ids & A & B & C & D & E).
    { subst ts. exact Hnd1. }
    exists ids. repeat split; try assumption.
    intros Hall. apply E.
    set (P2 := fun d : Py.dict Z =>
                 forall k, In k (Py.keys d) ->
                   Ranking.is_hypothesis_id (hypotheses_of (ctx w)) k = true).
    assert (Hset : forall d h v,
               In h (map h_id (Ranking.eligible_hypotheses (ctx w))) ->
               P2 d -> P2 (Py.set d h v)).
    { intros d h v Hh Hd k Hk. apply in_keys_set in Hk as [Hk| ->];
        [now apply Hd | now apply eligible_are_hypotheses]. }
    assert (H0 : P2 (ratings_of
                       (Ranking.deref
                          (if is_empty (Ranking.stored_state (ctx w))
                           then Ranking.Local Ranking._initialize_tournament
                           else Ranking.Shared) w))).
    { apply batch_start_ratings; [intros k [] | exact Hall]. }
    destruct (run_matches_closed P2 libm _ Hset (Z.to_nat count) _ [] w H0)
      as [Hp _].
    rewrite Hloop in Hp. subst ts. exact Hp.
  - intros w Hnd w' ts' hs.
    apply (top_ranked_of_own_ratings (Ranking.stored_state (ctx w))
             (hypotheses_of (ctx w)) Hnd).
Qed.

(** One match among four reviewed hypotheses. *)
Lemma top_ranked_sorted_by_rating_witness :
  let out := Ranking._run_tournament_matches (fun _ => 1%float) 1 four_reviewed in
  let ts' := Ranking.stored_state (ctx (snd out)) in
  exists ids,
    top_ranked ts' = Some ids /\
    Permutation ids (rated_hypotheses ts' (hypotheses_of (ctx (snd out)))) /\
    descending ts' ids.
Proof.
  intros out ts'.
  destruct (proj1 (top_ranked_sorted_by_rating (fun _ => 1%float))
              1 four_reviewed
              (match fst out with Py.Ok r => r | Py.Raise _ => [] end)
              (snd out))
    as (ids & A & B & C & _).
  - constructor.
  - simpl. lia.
  - reflexivity.
  - exists ids. auto.
Defined.


(** ** Marking a hypothesis reviewed *)

Lemma nodup_length_same_members (l l' : list string) :
  (forall k, In k l' <-> In k l) ->
  List.length (nodup string_dec l') = List.length (nodup string_dec l).
Proof.
  intros H. apply Permutation_length, NoDup_Permutation;
    try apply NoDup_nodup.
  intros k. rewrite !nodup_In. apply H.
Qed.

Lemma nodup_length_le (l : list string) :
  (List.length (nodup string_dec l) <= List.length l)%nat.
Proof.
  apply NoDup_incl_length; [apply NoDup_nodup|].
  intros k Hk. now apply nodup_In in Hk.
Qed.

Lemma review_found id w h :
  Reflection.find_hypothesis (hypotheses_of (ctx w)) id = Some h ->
  exists r,
    Reflection._review_hypothesis id w
    = (Reflection.Reviewed r,
       with_ctx w (set_reviewed_hypotheses (ctx w)
                     (reviewed_of (ctx w) ++ [id])%list)) /\
    Reflection.rv_hypothesis_id r = id /\ Reflection.rv_passed r = true.
Proof.
  intros Hf.
  unfold Reflection._review_hypothesis, Reflection.review_hypothesis_with.
  fold (hypotheses_of (ctx w)). rewrite Hf. simpl.
  eexists. split; [reflexivity|]. split; reflexivity.
Qed.

Lemma review_not_found id w :
  Reflection.find_hypothesis (hypotheses_of (ctx w)) id = None ->
  Reflection._review_hypothesis id w
  = (Reflection.Error ("Hypothesis " ++ id ++ " not found"), w).
Proof.
  intros Hf.
  unfold Reflection._review_hypothesis, Reflection.review_hypothesis_with.
  fold (hypotheses_of (ctx w)). now rewrite Hf.
Qed.

(** Reviewing the only hypothesis a second time: two entries, one id. *)
Lemma re_review_counts_twice :
  let w' := snd (Reflection._review_hypothesis "h1" reviewed_once) in
  num_reviewed (Supervisor._calculate_statistics (ctx w')) = 2 /\
  distinct_reviewed (ctx w') = 1%nat /\
  ~ num_reviewed (Supervisor._calculate_statistics (ctx w'))
    <= Z.of_nat (distinct_reviewed (ctx w')).
Proof. vm_compute. repeat split. intros H. now apply H. Qed.

(** C4, as the code has it.  Reviewing again a hypothesis that is
    already marked reviewed leaves the set of reviewed ids as it was, and
    appends the id once more to the list: the count of reviewed
    hypotheses, which is the length of that list, grows by one and
    exceeds the number of distinct reviewed ids, which does not change. *)
Theorem re_review_appends id w h :
  Reflection.find_hypothesis (hypotheses_of (ctx w)) id = Some h ->
  In id (reviewed_of (ctx w)) ->
  let w' := snd (Reflection._review_hypothesis id w) in
  (forall k, In k (reviewed_of (ctx w')) <-> In k (reviewed_of (ctx w))) /\
  reviewed_of (ctx w') = (reviewed_of (ctx w) ++ [id])%list /\
  num_reviewed (Supervisor._calculate_statistics (ctx w'))
  = num_reviewed (Supervisor._calculate_statistics (ctx w)) + 1 /\
  distinct_reviewed (ctx w') = distinct_reviewed (ctx w) /\
  Z.of_nat (distinct_reviewed (ctx w'))
  < num_reviewed (Supervisor._calculate_statistics (ctx w')).
Proof.
  intros Hf Hin w'. subst w'.
  destruct (review_found id w h Hf) as (r & -> & _ & _).
  cbn [snd]. unfold distinct_reviewed, Supervisor._calculate_statistics.
  cbn [num_reviewed].
  change (reviewed_of (ctx (with_ctx w
            (set_reviewed_hypotheses (ctx w) (reviewed_of (ctx w) ++ [id])%list))))
    with (reviewed_of (ctx w) ++ [id])%list.
  change (match cm_reviewed_hypotheses (ctx (with_ctx w
            (set_reviewed_hypotheses (ctx w) (reviewed_of (ctx w) ++ [id])%list)))
          with Some l => l | None => [] end)
    with (reviewed_of (ctx w) ++ [id])%list.
  fold (reviewed_of (ctx w)).
  assert (Hmem : forall k, In k (reviewed_of (ctx w) ++ [id])%list
                           <-> In k (reviewed_of (ctx w))).
  { intros k. rewrite in_app_iff. simpl.
    split; [intros [H|[<-|[]]]; assumption | auto]. }
  split; [exact Hmem|]. split; [reflexivity|].
  rewrite (nodup_length_same_members _ _ Hmem), length_app. simpl.
  pose proof (nodup_length_le (reviewed_of (ctx w))).
  repeat split; lia.
Qed.

Lemma re_review_appends_witness :
  reviewed_of (ctx (snd (Reflection._review_hypothesis "h1" reviewed_once)))
  = ["h1"; "h1"].
Proof.
  apply (re_review_appends "h1" reviewed_once (hypo "h1")).
  - reflexivity.
  - simpl. auto.
Defined.

(** ** A batch with fewer than two eligible hypotheses *)

Lemma working_state_deref w :
  Ranking.deref
    (if is_empty (Ranking.stored_state (ctx w))
     then Ranking.Local Ranking._initialize_tournament
     else Ranking.Shared) w
  = working_state (ctx w).
Proof. unfold working_state. now destruct (is_empty _). Qed.

Lemma too_few_eligible libm count w :
  (List.length (Ranking.eligible_hypotheses (ctx w)) < 2)%nat ->
  Ranking._run_tournament_matches libm count w
  = (Py.Ok [E_other "error"
              (VStr "Not enough reviewed hypotheses for tournament");
            E_tournament_state (working_state (ctx w))], w).
Proof.
  intros Hn. unfold Ranking._run_tournament_matches.
  destruct (Z.ltb_spec (Z.of_nat (List.length (Ranking.eligible_hypotheses (ctx w)))) 2)
    as [L|L]; [|lia].
  now rewrite working_state_deref.
Qed.

Lemma stored_when_not_empty c :
  is_empty (Ranking.stored_state c) = false ->
  cm_tournament_state c = Some (Ranking.stored_state c).
Proof.
  unfold Ranking.stored_state.
  destruct (cm_tournament_state c); [reflexivity | discriminate].
Qed.

(** A remark on the key itself: on a blackboard that has no tournament
    state, the worker's store creates the key, with the state of a new
    tournament, every field of which reads as the missing one does. *)
Lemma error_batch_stores_a_state :
  let s := with_ranking_queued {| ctx := empty_context; rng := constant_rng 0 |} in
  let s' := Supervisor.worker_step
              [("ranking", Ranking.execute (fun _ => 1%float))] s in
  cm_tournament_state (ctx (Supervisor.world s)) = None /\
  cm_tournament_state (ctx (Supervisor.world s'))
  = Some Ranking._initialize_tournament /\
  cm_tournament_state (ctx (Supervisor.world s'))
  <> cm_tournament_state (ctx (Supervisor.world s)).
Proof. repeat split. discriminate. Qed.

Lemma working_state_fields c :
  ratings_of (working_state c) = ratings_of (Ranking.stored_state c) /\
  matches_of (working_state c) = matches_of (Ranking.stored_state c) /\
  completed_of (working_state c) = completed_of (Ranking.stored_state c) /\
  progress_or_zero (working_state c)
  = progress_or_zero (Ranking.stored_state c) /\
  top_ranked_of (working_state c) = top_ranked_of (Ranking.stored_state c).
Proof.
  unfold working_state.
  destruct (is_empty (Ranking.stored_state c)) eqn:E; [|repeat split].
  unfold is_empty in E.
  unfold ratings_of, matches_of, completed_of, progress_or_zero, top_ranked_of.
  destruct (ratings (Ranking.stored_state c)); [discriminate|].
  destruct (matches (Ranking.stored_state c)); [discriminate|].
  destruct (completed_matches (Ranking.stored_state c)); [discriminate|].
  destruct (progress (Ranking.stored_state c)); [discriminate|].
  destruct (top_ranked (Ranking.stored_state c)); [discriminate|].
  repeat split.
Qed.

Lemma working_state_not_empty c : is_empty (working_state c) = false.
Proof.
  unfold working_state.
  destruct (is_empty (Ranking.stored_state c)) eqn:E; [reflexivity | exact E].
Qed.

(** C5.  With fewer than two eligible hypotheses the batch returns an
    error map and writes nothing to the blackboard.  When the worker has
    stored the items of that map, the tournament state on the blackboard
    is what it was: its ratings, its match history, its counter of
    completed matches, its progress and its top-ranked list read as
    before, so does every rating, the state the next batch works on is
    the same and the supervisor's statistics are the same.  A stored
    state that is not empty is the very same [dict] content; the key
    [error] is set and nothing else changes. *)
Theorem error_batch_leaves_tournament_state libm agents w q cnt :
  (List.length (Ranking.eligible_hypotheses (ctx w)) < 2)%nat ->
  Py.get agents "ranking" = Some (Ranking.execute libm) ->
  let task := {| agent := "ranking";
                 task_type := Some "run_tournament_matches";
                 count := Some cnt; hypothesis_id := None |} in
  let s := {| Supervisor.world := w; Supervisor.task_queue := task :: q;
              Supervisor.running := true |} in
  let w' := Supervisor.world (Supervisor.worker_step agents s) in
  let before := Ranking.stored_state (ctx w) in
  let after := Ranking.stored_state (ctx w') in
  Ranking._run_tournament_matches libm cnt w
  = (Py.Ok [E_other "error"
              (VStr "Not enough reviewed hypotheses for tournament");
            E_tournament_state (working_state (ctx w))], w)
  /\ ratings_of after = ratings_of before
  /\ matches_of after = matches_of before
  /\ completed_of after = completed_of before
  /\ progress_or_zero after = progress_or_zero before
  /\ top_ranked_of after = top_ranked_of before
  /\ (forall k, rating after k = rating before k)
  /\ working_state (ctx w') = working_state (ctx w)
  /\ Supervisor._calculate_statistics (ctx w')
     = Supervisor._calculate_statistics (ctx w)
  /\ (is_empty before = false ->
      cm_tournament_state (ctx w') = cm_tournament_state (ctx w))
  /\ ctx w' = set_tournament_state
                (set_other (ctx w) "error"
                   (VStr "Not enough reviewed hypotheses for tournament"))
                (working_state (ctx w))
  /\ rng w' = rng w.
Proof.
  intros Hn Hag task s w' before after.
  pose proof (too_few_eligible libm cnt w Hn) as Hrun.
  assert (Hw : w' = with_ctx w
                      (set_tournament_state
                         (set_other (ctx w) "error"
                            (VStr "Not enough reviewed hypotheses for tournament"))
                         (working_state (ctx w)))).
  { subst w' s task. unfold Supervisor.worker_step.
    cbn [Supervisor.task_queue agent Supervisor.world].
    unfold Supervisor.AgentExec. rewrite Hag.
    unfold Ranking.execute. cbn [task_type count].
    change (String.eqb "run_tournament_matches" "run_tournament_matches")
      with true.
    cbv iota. rewrite Hrun. reflexivity. }
  assert (Ha : after = working_state (ctx w)) by (subst after; now rewrite Hw).
  destruct (working_state_fields (ctx w)) as (F1 & F2 & F3 & F4 & F5).
  fold before in F1, F2, F3, F4, F5.
  split; [exact Hrun|]. rewrite Ha.
  split; [exact F1|]. split; [exact F2|]. split; [exact F3|].
  split; [exact F4|]. split; [exact F5|].
  split; [intros k; unfold rating; fold (ratings_of (working_state (ctx w)));
          fold (ratings_of before); now rewrite F1|].
  split.
  { rewrite Hw. unfold working_state at 1.
    change (Ranking.stored_state (ctx (with_ctx w _)))
      with (working_state (ctx w)).
    now rewrite working_state_not_empty. }
  split.
  { rewrite Hw. unfold Supervisor._calculate_statistics.
    change (Ranking.stored_state (ctx (with_ctx w _)))
      with (working_state (ctx w)).
    cbn [ctx with_ctx set_tournament_state set_other cm_hypotheses
         cm_reviewed_hypotheses].
    fold (progress_or_zero (working_state (ctx w))).
    fold (top_ranked_of (working_state (ctx w))).
    fold (progress_or_zero (Ranking.stored_state (ctx w))).
    fold (top_ranked_of (Ranking.stored_state (ctx w))).
    fold before. now rewrite F4, F5. }
  split.
  { intros He. rewrite Hw. cbn [ctx with_ctx set_tournament_state
                                cm_tournament_state].
    unfold working_state. fold before. rewrite He.
    symmetry. now apply stored_when_not_empty. }
  split; now rewrite Hw.
Qed.

Lemma error_batch_leaves_tournament_state_witness :
  let w := {| ctx := empty_context; rng := constant_rng 0 |} in
  let w' := Supervisor.world
              (Supervisor.worker_step
                 [("ranking", Ranking.execute (fun _ => 1%float))]
                 (with_ranking_queued w)) in
  ratings_of (Ranking.stored_state (ctx w'))
  = ratings_of (Ranking.stored_state (ctx w)) /\
  Supervisor._calculate_statistics (ctx w')
  = Supervisor._calculate_statistics (ctx w).
Proof.
  intros w w'.
  destruct (error_batch_leaves_tournament_state (fun _ => 1%float)
              [("ranking", Ranking.execute (fun _ => 1%float))] w [] 10)
    as (_ & H1 & _ & _ & _ & _ & _ & _ & H2 & _).
  - simpl. lia.
  - reflexivity.
  - split; [exact H1 | exact H2].
Defined.

(** ** What the agents leave alone *)

Lemma run_tournament_matches_frame libm cnt w :
  same_but_tournament (ctx w)
    (ctx (snd (Ranking._run_tournament_matches libm cnt w))).
Proof.
  unfold Ranking._run_tournament_matches.
  destruct (_ <? 2); [apply same_but_tournament_refl|].
  pose proof (run_matches_closed (fun _ => True) libm
                (Ranking.eligible_hypotheses (ctx w)) (fun _ _ _ _ _ => I)
                (Z.to_nat cnt)
                (if is_empty (Ranking.stored_state (ctx w))
                 then Ranking.Local Ranking._initialize_tournament
                 else Ranking.Shared) [] w I) as [_ Hfr].
  destruct (Ranking.run_matches libm _ _ _ _ _) as [[[ms|e] r1] w1];
    cbn [fst snd] in Hfr; [|exact Hfr].
  destruct (Py.int_truediv _ 2) as [total|e]; [|exact Hfr].
  match goal with
  | |- context [Ranking.assign r1 ?t w1] =>
      pose proof (assign_frame r1 t w1) as Hf;
      destruct (Ranking.assign r1 t w1) as [r2 w2]
  end.
  cbn [snd] in Hf.
  assert (H2 : same_but_tournament (ctx w) (ctx w2))
    by (eapply same_but_tournament_trans; eassumption).
  destruct (Ranking.progress_of _ total) as [p|e]; [|exact H2].
  cbn [snd ctx with_ctx].
  eapply same_but_tournament_trans; [exact H2 | apply same_but_tournament_set].
Qed.

Lemma ranking_execute_frame libm task w :
  same_but_tournament (ctx w) (ctx (snd (Ranking.execute libm task w))).
Proof.
  unfold Ranking.execute.
  destruct (String.eqb _ "run_tournament_matches");
    [apply run_tournament_matches_frame|].
  destruct (String.eqb _ "update_rankings"); cbn [snd].
  - apply same_but_tournament_set.
  - apply same_but_tournament_refl.
Qed.

Lemma ranking_keeps_statistics libm : keeps_statistics (Ranking.execute libm).
Proof. intros t w. apply (ranking_execute_frame libm t w). Qed.

Lemma review_hypothesis_statistics id w :
  cm_stats_iteration (ctx (snd (Reflection._review_hypothesis id w)))
  = cm_stats_iteration (ctx w).
Proof.
  unfold Reflection._review_hypothesis, Reflection.review_hypothesis_with.
  destruct (Reflection.find_hypothesis _ _); reflexivity.
Qed.

Lemma reflection_execute_statistics task w :
  cm_stats_iteration (ctx (snd (Reflection.execute task w)))
  = cm_stats_iteration (ctx w).
Proof.
  unfold Reflection.execute.
  destruct (String.eqb _ _); [|reflexivity].
  destruct (hypothesis_id task) as [[|a k]|]; try reflexivity.
  apply review_hypothesis_statistics.
Qed.

Lemma reflection_keeps_statistics : keeps_statistics Reflection.as_agent.
Proof.
  intros t w. unfold Reflection.as_agent.
  pose proof (reflection_execute_statistics t w) as H.
  now destruct (Reflection.execute t w).
Qed.

(** ** The supervisor's rounds *)

Lemma get_set_assoc_same {V} (l : list (Z * V)) i v :
  get_assoc (set_assoc l i v) i = Some v.
Proof.
  induction l as [|[j u] l IH]; simpl.
  - now rewrite Z.eqb_refl.
  - destruct (j =? i) eqn:E; simpl; now rewrite E.
Qed.

Lemma get_set_assoc_other {V} (l : list (Z * V)) i k v :
  k <> i -> get_assoc (set_assoc l i v) k = get_assoc l k.
Proof.
  intros Hne. induction l as [|[j u] l IH]; simpl.
  - destruct (Z.eqb_spec i k); [congruence | reflexivity].
  - destruct (Z.eqb_spec j i) as [->|Hj]; simpl.
    + destruct (Z.eqb_spec i k); [congruence | reflexivity].
    + now rewrite IH.
Qed.

Lemma store_result_statistics r c :
  cm_stats_iteration (Supervisor.store_result r c) = cm_stats_iteration c.
Proof.
  unfold Supervisor.store_result. revert c.
  induction r as [|e r IH]; intros c; simpl; [reflexivity|].
  rewrite IH. now destruct e.
Qed.

Lemma worker_step_statistics agents s :
  registry_keeps_statistics agents ->
  statistics_records (Supervisor.worker_step agents s) = statistics_records s.
Proof.
  intros Hreg. unfold Supervisor.worker_step, statistics_records.
  destruct (Supervisor.task_queue s) as [|task q]; [reflexivity|].
  cbn [Supervisor.world].
  destruct (Py.get agents (agent task)) as [ag|] eqn:G; [|reflexivity].
  pose proof (Hreg _ _ G task (Supervisor.world s)) as Hk.
  destruct (ag task (Supervisor.world s)) as [[r|e] w1]; cbn [snd] in Hk.
  - cbn [ctx with_ctx]. now rewrite store_result_statistics.
  - exact Hk.
Qed.

Lemma run_workers_statistics agents k s :
  registry_keeps_statistics agents ->
  statistics_records (Supervisor.run_workers agents k s) = statistics_records s.
Proof.
  intros Hreg. revert s. induction k as [|k IH]; intros s; simpl; [reflexivity|].
  now rewrite IH, worker_step_statistics.
Qed.

Lemma not_terminal_before_last stats i max :
  Supervisor._check_terminal_state stats i max = false -> i < max - 1.
Proof.
  unfold Supervisor._check_terminal_state.
  destruct (Z.leb_spec (max - 1) i); [discriminate | auto].
Qed.


Lemma rounds_spec agents schedule :
  registry_keeps_statistics agents ->
  forall n i max last s,
    (0 < n)%nat -> i + Z.of_nat n = max ->
    let out := Supervisor.rounds agents schedule n i max last s in
    exists j st,
      fst out = Some j /\
      rounds_executed i j max (statistics_records s)
        (statistics_records (snd out)) st.
Proof.
  intros Hreg. induction n as [|n IH]; intros i max last s Hn Hmax; [lia|].
  cbn [Supervisor.rounds].
  set (s1 := Supervisor.run_workers agents (schedule i) s).
  set (stats := Supervisor._calculate_statistics (ctx (Supervisor.world s1))).
  set (s2 := Supervisor.with_world s1
               (with_ctx (Supervisor.world s1)
                  (set_stats_iteration (ctx (Supervisor.world s1)) i stats))).
  assert (H1 : statistics_records s1 = statistics_records s)
    by (apply run_workers_statistics, Hreg).
  assert (H2 : statistics_records s2
               = set_assoc (statistics_records s1) i stats) by reflexivity.
  destruct (Supervisor._check_terminal_state stats i max) eqn:T.
  - exists i, stats. cbn [fst snd]. split; [reflexivity|].
    unfold rounds_executed. rewrite H2, H1.
    split; [lia|]. split; [apply get_set_assoc_same|]. split; [exact T|].
    split; [intros k Hk; lia|].
    intros k Hk. apply get_set_assoc_other. lia.
  - pose proof (not_terminal_before_last _ _ _ T) as Hlt.
    destruct (IH (i + 1) max (Some i) (Supervisor._update_task_queue stats s2))
      as (j & st & Hj & Hr); [lia | lia |].
    exists j, st. split; [exact Hj|].
    assert (H3 : statistics_records (Supervisor._update_task_queue stats s2)
                 = set_assoc (statistics_records s) i stats).
    { unfold statistics_records at 1.
      destruct (update_task_queue_queue stats s2) as [_ ->].
      fold (statistics_records s2). now rewrite H2, H1. }
    rewrite H3 in Hr.
    destruct Hr as (Hb & Hg & Ht & Hprev & Hframe).
    unfold rounds_executed.
    split; [lia|]. split; [exact Hg|]. split; [exact Ht|]. split.
    + intros k Hk. destruct (Z.eq_dec k i) as [->|Hne].
      * exists stats. split; [|exact T].
        rewrite Hframe by lia. apply get_set_assoc_same.
      * apply Hprev. lia.
    + intros k Hk. rewrite Hframe by lia. apply get_set_assoc_other. lia.
Qed.

Lemma parse_goal_statistics goal s :
  statistics_records (Supervisor._parse_research_goal goal s)
  = statistics_records s.
Proof. unfold Supervisor._parse_research_goal. now destruct goal. Qed.

Lemma initialize_queue_statistics agents s :
  statistics_records (Supervisor._initialize_task_queue agents s)
  = statistics_records s.
Proof.
  unfold Supervisor._initialize_task_queue.
  now destruct (Py.mem agents "generation").
Qed.

(** The supervisor as it enters the loop of rounds. *)
Lemma before_rounds_statistics agents task s :
  statistics_records
    (Supervisor._initialize_task_queue agents
       (Supervisor.set_running
          (Supervisor._parse_research_goal
             (match Supervisor.research_goal task with
              | Some g => g
              | None => ""
              end)
             (Supervisor.with_world s
                (with_ctx (Supervisor.world s)
                   (set_other (ctx (Supervisor.world s)) "research_plan"
                      VEmptyDict)))) true))
  = statistics_records s.
Proof.
  rewrite initialize_queue_statistics.
  unfold Supervisor.set_running, statistics_records. cbn [Supervisor.world].
  apply parse_goal_statistics.
Qed.

(** What [execute] returns once the rounds are over, the meta-review
    agent returning. *)
Lemma after_rounds meta i s4 :
  meta_review_returns meta ->
  let out :=
    match meta with
    | Some mr =>
        match mr (match cm_top_hypotheses
                          (ctx (Supervisor.world
                                  (Supervisor.set_running s4 false))) with
                  | Some l => l
                  | None => []
                  end) (Supervisor.world (Supervisor.set_running s4 false)) with
        | (Py.Raise e, w) =>
            (Py.Raise e, Supervisor.with_world (Supervisor.set_running s4 false) w)
        | (Py.Ok overview, w) =>
            Supervisor.build_result i
              (Supervisor.with_world (Supervisor.set_running s4 false)
                 (with_ctx w (set_research_overview (ctx w) overview)))
        end
    | None => Supervisor.build_result i (Supervisor.set_running s4 false)
    end in
  statistics_records (snd out) = statistics_records s4 /\
  match i with
  | None => fst out = Py.Raise Py.UnboundLocalError
  | Some j =>
      exists r, fst out = Py.Ok r /\
                Supervisor.statistics r = get_assoc (statistics_records s4) j
  end.
Proof.
  intros Hm. destruct meta as [mr|].
  - destruct (Hm mr eq_refl
                (match cm_top_hypotheses
                         (ctx (Supervisor.world
                                 (Supervisor.set_running s4 false))) with
                 | Some l => l
                 | None => []
                 end) (Supervisor.world (Supervisor.set_running s4 false)))
      as (o & w' & -> & Hst).
    cbv zeta. rewrite build_result_state.
    split; [exact Hst|].
    destruct i as [j|]; [|reflexivity].
    eexists. split; [reflexivity|]. cbn [Supervisor.statistics].
    unfold statistics_records. cbn. cbn in Hst. now rewrite Hst.
  - cbv zeta. rewrite build_result_state. split; [reflexivity|].
    destruct i as [j|]; [|reflexivity].
    eexists. split; reflexivity.
Qed.

(** C10.  With [max_iterations <= 0] the loop of rounds does not run:
    [execute] writes no statistics record and ends by raising the error
    of an unbound local variable, when it builds the result.  With
    [max_iterations >= 1] it returns, and the [statistics] of the result
    is the record of the last round executed.  Both suppose that the
    registered agents leave the statistics records alone, as do those of
    the repository, and that the meta-review agent returns. *)
Theorem execute_statistics agents meta schedule task s :
  registry_keeps_statistics agents ->
  meta_review_returns meta ->
  let out := Supervisor.execute agents meta schedule task s in
  (max_iterations_of task <= 0 ->
   fst out = Py.Raise Py.UnboundLocalError /\
   statistics_records (snd out) = statistics_records s)
  /\ (1 <= max_iterations_of task ->
      exists r j st,
        fst out = Py.Ok r /\
        Supervisor.statistics r = Some st /\
        rounds_executed 0 j (max_iterations_of task)
          (statistics_records s) (statistics_records (snd out)) st).
Proof.
  intros Hreg Hmeta out. subst out. unfold Supervisor.execute.
  fold (max_iterations_of task).
  pose proof (before_rounds_statistics agents task s) as H3.
  set (s3 := Supervisor._initialize_task_queue agents _) in *.
  split.
  - intros Hle.
    assert (Z.to_nat (max_iterations_of task) = O) as -> by lia.
    cbn [Supervisor.rounds].
    destruct (after_rounds meta None s3 Hmeta) as [Hs Hr].
    cbv zeta in Hs, Hr. split; [exact Hr | now rewrite Hs].
  - intros Hge.
    destruct (rounds_spec agents schedule Hreg
                (Z.to_nat (max_iterations_of task)) 0
                (max_iterations_of task) None s3)
      as (j & st & Hj & Hex); [lia | lia |].
    destruct (Supervisor.rounds agents schedule _ 0 _ None s3) as [i s4].
    cbn [fst snd] in Hj, Hex. subst i.
    destruct (after_rounds meta (Some j) s4 Hmeta) as [Hs (r & Hr & Hst)].
    cbv zeta in Hs, Hr. exists r, j, st.
    split; [exact Hr|]. rewrite Hs, <- H3.
    split; [|exact Hex]. rewrite Hst. apply Hex.
Qed.

(** The ranking and reflection agents registered, no meta-review agent:
    no round raises, two rounds return the record of round 1. *)
Lemma execute_statistics_witness :
  let agents := [("ranking", Ranking.execute (fun _ => 1%float));
                 ("reflection", Reflection.as_agent)] in
  let run m :=
    Supervisor.execute agents None (fun _ => 5%nat)
      {| Supervisor.research_goal := Some "goal";
         Supervisor.max_iterations := Some m;
         Supervisor.num_workers := Some 5 |}
      (initial_state (constant_rng 0)) in
  fst (run 0) = Py.Raise Py.UnboundLocalError /\
  exists r j st,
    fst (run 2) = Py.Ok r /\ Supervisor.statistics r = Some st /\
    rounds_executed 0 j 2 [] (statistics_records (snd (run 2))) st.
Proof.
  intros agents run.
  assert (Hreg : registry_keeps_statistics agents).
  { intros name ag. subst agents. cbn [Py.get].
    destruct (String.eqb "ranking" name);
      [intros [= <-]; apply ranking_keeps_statistics|].
    destruct (String.eqb "reflection" name);
      [intros [= <-]; apply reflection_keeps_statistics | discriminate]. }
  assert (Hmeta : meta_review_returns None) by (intros f; discriminate).
  split.
  - apply (execute_statistics agents None (fun _ => 5%nat)
             {| Supervisor.research_goal := Some "goal";
                Supervisor.max_iterations := Some 0;
                Supervisor.num_workers := Some 5 |}
             (initial_state (constant_rng 0)) Hreg Hmeta).
    cbv [max_iterations_of Supervisor.max_iterations]. lia.
  - apply (execute_statistics agents None (fun _ => 5%nat)
             {| Supervisor.research_goal := Some "goal";
                Supervisor.max_iterations := Some 2;
                Supervisor.num_workers := Some 5 |}
             (initial_state (constant_rng 0)) Hreg Hmeta).
    cbv [max_iterations_of Supervisor.max_iterations]. lia.
Defined.


(** ** The stochastic choices *)

Lemma choice_of_two_draw (a b : string) g :
  Random.choice [a; b] a g
  = (if Nat.eqb (Nat.modulo (next_draw g) 2) 0 then a else b, advance g).
Proof.
  unfold Random.choice, Random.randbelow, next_draw, advance.
  cbn [List.length].
  pose proof (Nat.mod_upper_bound (Random.draws g (Random.pos g)) 2
                ltac:(discriminate)) as Hlt.
  remember (Nat.modulo (Random.draws g (Random.pos g)) 2) as m eqn:Hm.
  destruct m as [|[|m]]; [reflexivity | reflexivity | lia].
Qed.

Lemma simple_comparison_winner h1 h2 w :
  mr_winner (fst (Ranking._run_simple_comparison h1 h2 w))
  = (if Nat.eqb (Nat.modulo (next_draw (rng w)) 2) 0 then h_id h1 else h_id h2)
  /\ snd (Ranking._run_simple_comparison h1 h2 w)
     = {| ctx := ctx w; rng := advance (rng w) |}.
Proof.
  unfold Ranking._run_simple_comparison.
  rewrite choice_of_two_draw. split; reflexivity.
Qed.

Lemma scientific_debate_winner h1 h2 w :
  mr_winner (fst (Ranking._run_scientific_debate h1 h2 w))
  = (if Nat.eqb (Nat.modulo (next_draw (rng w)) 2) 0 then h_id h1 else h_id h2)
  /\ snd (Ranking._run_scientific_debate h1 h2 w)
     = {| ctx := ctx w; rng := advance (rng w) |}.
Proof.
  unfold Ranking._run_scientific_debate.
  rewrite choice_of_two_draw. split; reflexivity.
Qed.

Lemma choose_technique_draw w :
  Evolution.choose_technique w
  = (nth (Nat.modulo (next_draw (rng w)) 4) Evolution.techniques
         "_enhance_through_grounding",
     {| ctx := ctx w; rng := advance (rng w) |}).
Proof. reflexivity. Qed.




(** ** Eligibility *)

Lemma store_result_reviewed r c :
  cm_reviewed_hypotheses (Supervisor.store_result r c)
  = cm_reviewed_hypotheses c.
Proof.
  unfold Supervisor.store_result. revert c.
  induction r as [|e r IH]; intros c; simpl; [reflexivity|].
  rewrite IH. now destruct e.
Qed.

Lemma review_hypothesis_cases id w :
  (exists msg, Reflection._review_hypothesis id w = (Reflection.Error msg, w))
  \/ (exists r,
        Reflection._review_hypothesis id w
        = (Reflection.Reviewed r,
           with_ctx w (set_reviewed_hypotheses (ctx w)
                         (reviewed_of (ctx w) ++ [id])%list)) /\
        Reflection.rv_hypothesis_id r = id /\ Reflection.rv_passed r = true).
Proof.
  destruct (Reflection.find_hypothesis (hypotheses_of (ctx w)) id) as [h|] eqn:F.
  - right. exact (review_found id w h F).
  - left. eexists. exact (review_not_found id w F).
Qed.

Lemma reflection_execute_cases task w o w1 :
  Reflection.execute task w = (o, w1) ->
  (reviews_of o = [] /\ w1 = w)
  \/ (exists r,
        o = Reflection.Reviewed r /\ Reflection.rv_passed r = true /\
        reviewed_of (ctx w1)
        = (reviewed_of (ctx w) ++ [Reflection.rv_hypothesis_id r])%list).
Proof.
  unfold Reflection.execute.
  destruct (String.eqb _ _); [|intros [= <- <-]; now left].
  destruct (hypothesis_id task) as [k|]; [|intros [= <- <-]; now left].
  assert (Hk : Reflection._review_hypothesis k w = (o, w1) ->
               (reviews_of o = [] /\ w1 = w)
               \/ (exists r,
                     o = Reflection.Reviewed r /\ Reflection.rv_passed r = true /\
                     reviewed_of (ctx w1)
                     = (reviewed_of (ctx w) ++ [Reflection.rv_hypothesis_id r])%list)).
  { destruct (review_hypothesis_cases k w) as [[msg ->]|(r & -> & Hid & Hp)].
    - intros [= <- <-]. now left.
    - intros [= <- <-]. right. exists r. rewrite Hid. now repeat split. }
  destruct k as [|a k]; [intros [= <- <-]; now left | exact Hk].
Qed.

(** Every id in the list of reviewed ids was put there by a review that
    passed. *)
Lemma reviewed_have_passed log w :
  reachable log w ->
  forall k, In k (reviewed_of (ctx w)) -> review_passed log k.
Proof.
  induction 1 as [g | log w task o w1 Hr IH He | log w w' Hr IH Heq];
    intros k Hk.
  - destruct Hk.
  - unfold reviewed_of in Hk. cbn [ctx with_ctx] in Hk.
    rewrite store_result_reviewed in Hk. fold (reviewed_of (ctx w1)) in Hk.
    destruct (reflection_execute_cases task w o w1 He)
      as [[Ho ->]|(r & -> & Hp & Hrev)].
    + rewrite Ho, app_nil_r. now apply IH.
    + rewrite Hrev in Hk. apply in_app_or in Hk as [Hk|[<-|[]]].
      * destruct (IH k Hk) as (r0 & Hin & Hid & Hpass).
        exists r0. split; [apply in_or_app; now left | now split].
      * exists r. split; [apply in_or_app; right; now left | now split].
  - apply IH. unfold reviewed_of in *. now rewrite <- Heq.
Qed.

Lemma eligible_iff c h :
  In h (Ranking.eligible_hypotheses c)
  <-> In h (hypotheses_of c) /\ In (h_id h) (reviewed_of c).
Proof.
  unfold Ranking.eligible_hypotheses.
  fold (hypotheses_of c) (reviewed_of c). rewrite filter_In.
  split; intros [H1 H2]; split; try exact H1.
  - apply existsb_exists in H2 as (x & Hx & E).
    apply String.eqb_eq in E. now subst x.
  - apply existsb_exists. exists (h_id h). split; [exact H2|].
    apply String.eqb_refl.
Qed.

Lemma match_participants h1 h2 w :
  mr_hypothesis_1 (fst (Ranking._run_match h1 h2 w)) = h_id h1 /\
  mr_hypothesis_2 (fst (Ranking._run_match h1 h2 w)) = h_id h2.
Proof.
  unfold Ranking._run_match.
  destruct (_ && _);
    [destruct (debate_facts h1 h2 w) as (_ & A & B & _)
    |destruct (comparison_facts h1 h2 w) as (_ & A & B & _)]; now split.
Qed.

Lemma run_matches_participants libm eligible :
  forall n r acc w ms r' w',
    Ranking.run_matches libm n eligible r acc w = (Py.Ok ms, r', w') ->
    Forall (between_eligible eligible) acc ->
    Forall (between_eligible eligible) ms.
Proof.
  induction n as [|n IH]; intros r acc w ms r' w'; cbn [Ranking.run_matches].
  - now intros [= <- _ _].
  - pose proof (select_pair_some eligible (Ranking.deref r w)) as Hp.
    destruct (Ranking._select_hypothesis_pair eligible (Ranking.deref r w))
      as [pair ts1]. cbn [fst] in Hp.
    destruct (Ranking.assign r ts1 w) as [r1 w1].
    destruct pair as [[h1 h2]|]; [|now intros [= <- _ _]].
    destruct (Hp h1 h2 eq_refl) as [rest He].
    pose proof (match_participants h1 h2 w1) as [M1 M2].
    destruct (Ranking._run_match h1 h2 w1) as [m w2]. cbn [fst] in M1, M2.
    destruct (Ranking._update_elo_ratings libm _ _ _ _) as [res ts2].
    destruct (Ranking.assign r1 ts2 w2) as [r2 w3].
    destruct res as [u|e]; [|discriminate].
    intros Hrun Hacc. apply (IH _ _ _ _ _ _ Hrun).
    apply Forall_app. split; [exact Hacc|]. constructor; [|constructor].
    exists h1, h2. rewrite He. simpl. auto.
Qed.


(** The reviews of the repository always pass, and the theorem below
    rests on it.  The bookkeeping itself does not look at the verdict:
    with a review procedure that fails a hypothesis, the hypothesis is
    marked reviewed all the same, and is eligible. *)
Lemma failed_review_is_marked_reviewed initial full deep observation id w h :
  Reflection.find_hypothesis (hypotheses_of (ctx w)) id = Some h ->
  Reflection.passed_or_false (initial h) = false ->
  let out :=
    Reflection.review_hypothesis_with initial full deep observation id w in
  (exists r, fst out = Reflection.Reviewed r /\
             Reflection.rv_hypothesis_id r = id /\
             Reflection.rv_passed r = false) /\
  In h (Ranking.eligible_hypotheses (ctx (snd out))).
Proof.
  intros Hf Hp out. subst out. unfold Reflection.review_hypothesis_with.
  fold (hypotheses_of (ctx w)). rewrite Hf, Hp. cbn [fst snd].
  split; [eexists; repeat split|].
  apply eligible_iff. unfold Reflection.find_hypothesis in Hf.
  apply find_some in Hf as [Hin E]. apply String.eqb_eq in E.
  split; [exact Hin|].
  unfold reviewed_of. cbn. rewrite E. apply in_or_app. right. now left.
Qed.

(** C2.  In a run that starts from an empty context memory, whenever a
    batch of tournament matches returns, every hypothesis eligible for it
    has a review that passed, and both participants of every match of the
    batch are eligible hypotheses, hence have one. *)
Theorem eligible_have_passed_review libm log w cnt res w' :
  reachable log w ->
  Ranking._run_tournament_matches libm cnt w = (Py.Ok res, w') ->
  (forall h, In h (Ranking.eligible_hypotheses (ctx w)) ->
             review_passed log (h_id h))
  /\ (forall ms m,
        In (E_other "matches" (VMatches ms)) res -> In m ms ->
        between_eligible (Ranking.eligible_hypotheses (ctx w)) m /\
        review_passed log (mr_hypothesis_1 m) /\
        review_passed log (mr_hypothesis_2 m)).
Proof.
  intros Hreach Hrun.
  assert (Hel : forall h, In h (Ranking.eligible_hypotheses (ctx w)) ->
                          review_passed log (h_id h)).
  { intros h Hh. apply eligible_iff in Hh as [_ Hh].
    exact (reviewed_have_passed log w Hreach _ Hh). }
  split; [exact Hel|]. intros ms m Hres Hm.
  assert (Hb : between_eligible (Ranking.eligible_hypotheses (ctx w)) m).
  { destruct (Nat.lt_ge_cases
                (List.length (Ranking.eligible_hypotheses (ctx w))) 2)
      as [Hlt|Hge].
    - rewrite (too_few_eligible libm cnt w Hlt) in Hrun.
      injection Hrun as <- _.
      destruct Hres as [E|[E|[]]]; discriminate.
    - destruct (run_tournament_matches_ok libm cnt w res w' Hge Hrun)
        as (ms0 & r1 & w1 & ts & p & Hloop & _ & _ & -> & _).
      destruct Hres as [E|[E|[]]]; [|discriminate].
      injection E as <-.
      pose proof (run_matches_participants libm _ _ _ _ _ _ _ _ Hloop
                    (Forall_nil _)) as Hall.
      rewrite Forall_forall in Hall. now apply Hall. }
  split; [exact Hb|].
  destruct Hb as (h1 & h2 & H1 & H2 & -> & ->). split; now apply Hel.
Qed.

(** Two hypotheses, each reviewed once, then a batch of one match. *)
Lemma eligible_have_passed_review_witness :
  let w1 := after_review two_generated "h1" in
  let w2 := after_review w1 "h2" in
  let log := (reviews_of (fst (Reflection.execute (review_task "h1") two_generated))
              ++ reviews_of (fst (Reflection.execute (review_task "h2") w1)))%list in
  List.length (Ranking.eligible_hypotheses (ctx w2)) = 2%nat /\
  forall h, In h (Ranking.eligible_hypotheses (ctx w2)) ->
            review_passed log (h_id h).
Proof.
  intros w1 w2 log. split; [reflexivity|].
  pose (out := Ranking._run_tournament_matches (fun _ => 1%float) 1 w2).
  apply (eligible_have_passed_review (fun _ => 1%float) log w2 1
           (match fst out with Py.Ok r => r | Py.Raise _ => [] end) (snd out)).
  - apply (reach_review _ w1 (review_task "h2") _ _); [|apply surjective_pairing].
    apply (reach_review [] two_generated (review_task "h1") _ _);
      [|apply surjective_pairing].
    apply (reach_other [] {| ctx := empty_context; rng := constant_rng 0 |});
      [apply reach_start | reflexivity].
  - reflexivity.
Defined.

(** * Further properties of the agents *)

(** ** The evolution agent *)

Lemma find_some_iff (hs : list Hypo) k :
  In k (map h_id hs) <-> exists h, Evolution.find_hypothesis hs k = Some h.
Proof.
  unfold Evolution.find_hypothesis. induction hs as [|h hs IH]; simpl.
  - split; [tauto | intros [h H]; discriminate].
  - destruct (String.eqb (h_id h) k) eqn:E.
    + apply String.eqb_eq in E. split; eauto.
    + apply String.eqb_neq in E. rewrite <- IH. split; [intros [?|?]|]; tauto.
Qed.

Lemma find_some_id (hs : list Hypo) k h :
  Evolution.find_hypothesis hs k = Some h -> In h hs /\ h_id h = k.
Proof.
  unfold Evolution.find_hypothesis. intros H. apply find_some in H.
  destruct H as [H1 H2]. split; [exact H1 | now apply String.eqb_eq].
Qed.

Lemma technique_stamps name h new_id :
  h_id (Evolution.technique_named name h new_id) = new_id /\
  exists m,
    h_generation_method (Evolution.technique_named name h new_id) = Some m /\
    In m evolution_methods.
Proof.
  unfold Evolution.technique_named.
  destruct (String.eqb name "_enhance_through_grounding");
    [|destruct (String.eqb name "_improve_coherence_and_feasibility");
      [|destruct (String.eqb name "_simplify_hypothesis")]];
    (split; [reflexivity|]); eexists; (split; [reflexivity|]); simpl; tauto.
Qed.

Lemma set_hypotheses_frame c hs : same_but_hypotheses c (set_hypotheses c hs).
Proof. repeat split. Qed.

Lemma drawn_technique w :
  In (nth (Nat.modulo (next_draw (rng w)) 4) Evolution.techniques
          "_enhance_through_grounding") Evolution.techniques.
Proof.
  apply nth_In. change (List.length Evolution.techniques) with 4%nat.
  apply Nat.mod_upper_bound. discriminate.
Qed.

(** X1. Evolving a hypothesis that is on the blackboard succeeds: the
    technique is the one of four that the next draw of the process
    generator selects, one draw and one identifier are used, and exactly
    one hypothesis is appended to the list, after the existing ones,
    which are kept as they are.  The new hypothesis has the identifier
    just issued and one of the evolution agent's generation methods;
    nothing else on the blackboard changes. *)
Theorem evolve_known_hypothesis k w u :
  In k (map h_id (hypotheses_of (ctx w))) ->
  exists ev t w',
    Evolution._evolve_hypothesis k (w, u)
    = (Evolution.Evolved k ev t, (w', snd (Uuid.uuid4 u))) /\
    t = nth (Nat.modulo (next_draw (rng w)) 4) Evolution.techniques
            "_enhance_through_grounding" /\
    In t Evolution.techniques /\
    h_id ev = fst (Uuid.uuid4 u) /\
    (exists m, h_generation_method ev = Some m /\ In m evolution_methods) /\
    cm_hypotheses (ctx w') = Some (hypotheses_of (ctx w) ++ [ev])%list /\
    same_but_hypotheses (ctx w) (ctx w') /\
    rng w' = advance (rng w).
Proof.
  intros Hin. apply find_some_iff in Hin. destruct Hin as [h Hf].
  unfold Evolution._evolve_hypothesis. fold (hypotheses_of (ctx w)).
  rewrite Hf, choose_technique_draw. cbn [Uuid.uuid4 fst snd].
  set (t := nth _ Evolution.techniques _).
  set (ev := Evolution.technique_named t h _).
  exists ev, t, (with_ctx {| ctx := ctx w; rng := advance (rng w) |}
                   (set_hypotheses (ctx w) (hypotheses_of (ctx w) ++ [ev]))).
  split; [reflexivity|]. split; [reflexivity|].
  split; [apply drawn_technique|].
  destruct (technique_stamps t h (Uuid.issued u (Uuid.used u))) as [Hid Hm].
  split; [exact Hid|]. split; [exact Hm|].
  split; [reflexivity|]. split; [apply set_hypotheses_frame | reflexivity].
Qed.

Lemma evolve_known_hypothesis_witness :
  exists ev t w',
    Evolution._evolve_hypothesis "h1" (two_generated, unary_source)
    = (Evolution.Evolved "h1" ev t, (w', snd (Uuid.uuid4 unary_source))) /\
    h_id ev = "id" /\
    cm_hypotheses (ctx w') = Some [hypo "h1"; hypo "h2"; ev].
Proof.
  destruct (evolve_known_hypothesis "h1" two_generated unary_source)
    as (ev & t & w' & H1 & _ & _ & H2 & _ & H3 & _).
  - simpl. tauto.
  - exists ev, t, w'. split; [exact H1|]. split; [exact H2 | exact H3].
Defined.

(** X2. Evolving fails exactly when no hypothesis on the blackboard has
    the given id: with such a hypothesis the call does not fail, and
    without one it returns the error naming the id, changes nothing and
    uses neither a value of the generator nor an identifier. *)
Theorem evolve_fails_iff_unknown k e :
  ((exists msg, fst (Evolution._evolve_hypothesis k e) = Evolution.Error msg)
   <-> ~ In k (map h_id (hypotheses_of (ctx (fst e)))))
  /\ (~ In k (map h_id (hypotheses_of (ctx (fst e)))) ->
      Evolution._evolve_hypothesis k e
      = (Evolution.Error ("Hypothesis " ++ k ++ " not found"), e)).
Proof.
  destruct e as [w u]. cbn [fst].
  unfold Evolution._evolve_hypothesis. fold (hypotheses_of (ctx w)).
  destruct (Evolution.find_hypothesis (hypotheses_of (ctx w)) k) as [h|] eqn:Hf.
  - assert (Hin : In k (map h_id (hypotheses_of (ctx w))))
      by (apply find_some_iff; eauto).
    rewrite choose_technique_draw. cbn [Uuid.uuid4 fst snd]. split.
    + split; [intros [msg H]; discriminate | intros Hn; contradiction].
    + intros Hn. contradiction.
  - assert (Hn : ~ In k (map h_id (hypotheses_of (ctx w)))).
    { intros Hin. apply find_some_iff in Hin. destruct Hin as [h Hh].
      congruence. }
    cbn [fst]. split; [|reflexivity]. split; [intros _; exact Hn | eauto].
Qed.

Lemma evolve_fails_iff_unknown_witness :
  Evolution._evolve_hypothesis "h3" (two_generated, unary_source)
  = (Evolution.Error "Hypothesis h3 not found", (two_generated, unary_source)).
Proof.
  apply (proj2 (evolve_fails_iff_unknown "h3" (two_generated, unary_source))).
  simpl. intros [H|[H|[]]]; discriminate.
Defined.

Lemma combine_cases ids w u :
  let out := Evolution._combine_hypotheses ids (w, u) in
  (exists msg, out = (Evolution.Error msg, (w, u)))
  \/ (exists ev,
        out = (Evolution.Combined ids ev,
               (with_ctx w (set_hypotheses (ctx w)
                              (hypotheses_of (ctx w) ++ [ev])%list),
                snd (Uuid.uuid4 u))) /\
        h_id ev = fst (Uuid.uuid4 u) /\
        h_generation_method ev = Some "evolution_combination").
Proof.
  unfold Evolution._combine_hypotheses. fold (hypotheses_of (ctx w)).
  destruct (Nat.ltb _ 2); cbn zeta.
  - left. eauto.
  - right. cbn [Uuid.uuid4 fst snd]. eexists. split; [reflexivity|].
    split; reflexivity.
Qed.

Lemma evolve_cases k w u :
  let out := Evolution._evolve_hypothesis k (w, u) in
  (exists msg, out = (Evolution.Error msg, (w, u)))
  \/ (exists ev t,
        out = (Evolution.Evolved k ev t,
               (with_ctx {| ctx := ctx w; rng := advance (rng w) |}
                  (set_hypotheses (ctx w)
                     (hypotheses_of (ctx w) ++ [ev])%list),
                snd (Uuid.uuid4 u))) /\
        h_id ev = fst (Uuid.uuid4 u) /\
        exists m, h_generation_method ev = Some m /\ In m evolution_methods).
Proof.
  unfold Evolution._evolve_hypothesis. fold (hypotheses_of (ctx w)).
  destruct (Evolution.find_hypothesis (hypotheses_of (ctx w)) k) as [h|].
  - right. rewrite choose_technique_draw. cbn [Uuid.uuid4 fst snd].
    eexists. eexists. split; [reflexivity|]. apply technique_stamps.
  - left. eauto.
Qed.

(** X3. Whatever the task, the evolution agent never removes, reorders
    or rewrites a hypothesis.  A call either reports an error and leaves
    the blackboard, the generator and the source of identifiers as they
    were, or appends exactly one hypothesis, which carries the next
    identifier and an evolution method, and changes no other key of the
    blackboard. *)
Theorem evolution_appends_at_most_one task ids e :
  let out := Evolution.execute task ids e in
  match new_hypothesis (fst out) with
  | None => snd out = e
  | Some ev =>
      hypotheses_of (ctx (fst (snd out)))
      = (hypotheses_of (ctx (fst e)) ++ [ev])%list /\
      same_but_hypotheses (ctx (fst e)) (ctx (fst (snd out))) /\
      snd (snd out) = snd (Uuid.uuid4 (snd e)) /\
      h_id ev = fst (Uuid.uuid4 (snd e)) /\
      exists m, h_generation_method ev = Some m /\ In m evolution_methods
  end.
Proof.
  destruct e as [w u]. unfold Evolution.execute.
  set (tt := match task_type task with Some t => t | None => _ end).
  destruct (String.eqb tt "evolve_hypothesis").
  - assert (Hk : forall k,
      let out := Evolution._evolve_hypothesis k (w, u) in
      match new_hypothesis (fst out) with
      | None => snd out = (w, u)
      | Some ev =>
          hypotheses_of (ctx (fst (snd out)))
          = (hypotheses_of (ctx (fst (w, u))) ++ [ev])%list /\
          same_but_hypotheses (ctx (fst (w, u))) (ctx (fst (snd out))) /\
          snd (snd out) = snd (Uuid.uuid4 (snd (w, u))) /\
          h_id ev = fst (Uuid.uuid4 (snd (w, u))) /\
          exists m, h_generation_method ev = Some m /\ In m evolution_methods
      end).
    { intros k. destruct (evolve_cases k w u) as [[msg H]|(ev & t & H & Hid & Hm)];
        cbv zeta; rewrite H; cbn [fst snd new_hypothesis]; [reflexivity|].
      split; [reflexivity|]. split; [apply set_hypotheses_frame|].
      split; [reflexivity|]. split; assumption. }
    destruct (hypothesis_id task) as [[|c k]|]; [reflexivity| |reflexivity].
    apply Hk.
  - destruct (String.eqb tt "combine_hypotheses"); [|reflexivity].
    destruct (Nat.ltb _ 2); [reflexivity|].
    destruct (combine_cases (match ids with Some l => l | None => [] end) w u)
      as [[msg H]|(ev & H & Hid & Hm)];
      cbv zeta in H |- *; rewrite H; cbn [fst snd new_hypothesis]; [reflexivity|].
    split; [reflexivity|]. split; [apply set_hypotheses_frame|].
    split; [reflexivity|]. split; [assumption|].
    exists "evolution_combination". split; [assumption|]. simpl. tauto.
Qed.

Lemma evolve_found k w u h :
  Evolution.find_hypothesis (hypotheses_of (ctx w)) k = Some h ->
  exists ev t,
    Evolution._evolve_hypothesis k (w, u)
    = (Evolution.Evolved k ev t,
       (with_ctx {| ctx := ctx w; rng := advance (rng w) |}
          (set_hypotheses (ctx w) (hypotheses_of (ctx w) ++ [ev])%list),
        snd (Uuid.uuid4 u))) /\
    h_id ev = fst (Uuid.uuid4 u).
Proof.
  intros Hf. unfold Evolution._evolve_hypothesis. fold (hypotheses_of (ctx w)).
  rewrite Hf, choose_technique_draw. cbn [Uuid.uuid4 fst snd].
  eexists. eexists. split; [reflexivity|]. apply technique_stamps.
Qed.

Lemma existsb_eqb_false (k : string) (l : list string) :
  ~ In k l -> existsb (String.eqb k) l = false.
Proof.
  intros Hn. destruct (existsb (String.eqb k) l) eqn:E; [|reflexivity].
  apply existsb_exists in E. destruct E as (x & Hx & Hk).
  apply String.eqb_eq in Hk. subst x. contradiction.
Qed.

(** X4. An evolved hypothesis has to be reviewed like any other.  When
    the identifier it receives is not among the reviewed ones, the
    hypotheses eligible for the tournament are the same after the
    evolution as before, and the supervisor's statistics count one more
    hypothesis and list the new identifier last among the unreviewed. *)
Theorem evolved_waits_for_review k w u :
  In k (map h_id (hypotheses_of (ctx w))) ->
  ~ In (fst (Uuid.uuid4 u)) (reviewed_of (ctx w)) ->
  let c' := ctx (fst (snd (Evolution._evolve_hypothesis k (w, u)))) in
  Ranking.eligible_hypotheses c' = Ranking.eligible_hypotheses (ctx w) /\
  unreviewed_hypotheses (Supervisor._calculate_statistics c')
  = (unreviewed_hypotheses (Supervisor._calculate_statistics (ctx w))
     ++ [fst (Uuid.uuid4 u)])%list /\
  num_hypotheses (Supervisor._calculate_statistics c')
  = num_hypotheses (Supervisor._calculate_statistics (ctx w)) + 1.
Proof.
  intros Hin Hnew. apply find_some_iff in Hin. destruct Hin as [h Hf].
  destruct (evolve_found k w u h Hf) as (ev & t & -> & Hid).
  cbn [fst snd ctx with_ctx]. rewrite <- Hid in Hnew.
  apply existsb_eqb_false in Hnew. unfold reviewed_of in Hnew.
  unfold Ranking.eligible_hypotheses, Supervisor._calculate_statistics.
  cbn [set_hypotheses cm_hypotheses cm_reviewed_hypotheses
       unreviewed_hypotheses num_hypotheses].
  fold (hypotheses_of (ctx w)).
  rewrite !filter_app. cbn [filter]. rewrite Hnew. cbn [negb].
  rewrite app_nil_r, map_app, length_app. cbn [map List.length].
  rewrite Hid. split; [reflexivity|]. split; [reflexivity|]. lia.
Qed.

Lemma evolved_waits_for_review_witness :
  let c' := ctx (fst (snd (Evolution._evolve_hypothesis "h1"
                             (reviewed_once, unary_source)))) in
  map h_id (Ranking.eligible_hypotheses c') = ["h1"] /\
  unreviewed_hypotheses (Supervisor._calculate_statistics c') = ["id"] /\
  num_hypotheses (Supervisor._calculate_statistics c') = 2.
Proof.
  destruct (evolved_waits_for_review "h1" reviewed_once unary_source)
    as (H1 & H2 & H3).
  - simpl. tauto.
  - simpl. intros [H|[]]. discriminate.
  - cbv zeta. rewrite H1, H2, H3. repeat split.
Defined.

(** ** The generation agent *)

Lemma method_named_id name new_id :
  h_id (Generation.method_named name new_id) = new_id.
Proof.
  unfold Generation.method_named.
  destruct (String.eqb name "literature"); [reflexivity|].
  destruct (String.eqb name "debate"); [reflexivity|].
  destruct (String.eqb name "assumptions"); reflexivity.
Qed.

Lemma pick_for_id m i new_id : h_id (Generation.pick_for m i new_id) = new_id.
Proof.
  unfold Generation.pick_for. destruct (_ || _); apply method_named_id.
Qed.

Lemma seq_from (a n : nat) : seq a n = map (fun j => (a + j)%nat) (seq 0 n).
Proof.
  revert a. induction n as [|n IH]; intros a; cbn [seq map].
  - reflexivity.
  - rewrite Nat.add_0_r. f_equal.
    rewrite (IH (S a)), (IH 1%nat), map_map. apply map_ext.
    intros j. cbn. now rewrite Nat.add_succ_r.
Qed.

Lemma generate_spec pick :
  forall n i u,
    let out := Generation.generate pick n i u in
    fst out
    = map (fun j => pick (i + j)%nat (Uuid.issued u (Uuid.used u + j)%nat))
          (seq 0 n) /\
    snd out = {| Uuid.issued := Uuid.issued u;
                 Uuid.used := (Uuid.used u + n)%nat |}.
Proof.
  induction n as [|n IH]; intros i u; cbn [Generation.generate].
  - cbn. rewrite Nat.add_0_r. destruct u; split; reflexivity.
  - cbn [Uuid.uuid4].
    specialize (IH (S i) {| Uuid.issued := Uuid.issued u;
                            Uuid.used := S (Uuid.used u) |}).
    cbv zeta in IH.
    destruct (Generation.generate pick n (S i) _) as [rest u2].
    cbn [fst snd Uuid.issued Uuid.used] in IH |- *. destruct IH as [-> ->].
    split.
    + cbn [seq map]. rewrite !Nat.add_0_r. f_equal.
      rewrite (seq_from 1 n), map_map. apply map_ext. intros j.
      cbn [Nat.add]. now rewrite !Nat.add_succ_r.
    + f_equal. lia.
Qed.

(** X5. A batch of the generation agent appends exactly [count]
    hypotheses (three when the task gives no count, none when the count
    is negative) after the ones already on the blackboard, which are
    kept as they are.  The new hypotheses carry the next identifiers of
    the source, in order; the result map lists the new ones and the whole
    list as stored; the generator and the other keys of the blackboard
    are untouched. *)
Theorem generate_appends_count task method w u :
  let out := Generation._generate_hypotheses task method (w, u) in
  exists new,
    fst out = [E_other "generated_hypotheses" (VHypotheses new);
               E_hypotheses (hypotheses_of (ctx w) ++ new)%list] /\
    cm_hypotheses (ctx (fst (snd out)))
    = Some (hypotheses_of (ctx w) ++ new)%list /\
    List.length new = rounds_of task /\
    map h_id new = next_ids u (rounds_of task) /\
    Uuid.used (snd (snd out)) = (Uuid.used u + rounds_of task)%nat /\
    same_but_hypotheses (ctx w) (ctx (fst (snd out))) /\
    rng (fst (snd out)) = rng w.
Proof.
  unfold Generation._generate_hypotheses. fold (rounds_of task).
  fold (hypotheses_of (ctx w)).
  set (m := match method with Some m => m | None => _ end).
  pose proof (generate_spec (Generation.pick_for m) (rounds_of task) O u) as G.
  cbv zeta in G.
  destruct (Generation.generate _ _ _ _) as [new u1].
  cbn [fst snd] in G |- *. destruct G as [Hn Hu].
  exists new. split; [reflexivity|]. split; [reflexivity|].
  split; [rewrite Hn; now rewrite length_map, length_seq|].
  split.
  - rewrite Hn, map_map. unfold next_ids.
    rewrite (seq_from (Uuid.used u)), map_map. apply map_ext.
    intros j. apply pick_for_id.
  - split; [now rewrite Hu|]. split; [apply set_hypotheses_frame | reflexivity].
Qed.

(** X6. A batch whose task names none of the four methods (or no
    method: the default is the mixed batch) takes the methods in turn:
    the hypothesis of round [i] carries the generation method number
    [i mod 4] of literature exploration, simulated debate, assumptions
    identification and research expansion. *)
Theorem mixed_batch_cycles_methods task method w u :
  single_method method = false ->
  exists new,
    fst (Generation._generate_hypotheses task method (w, u))
    = [E_other "generated_hypotheses" (VHypotheses new);
       E_hypotheses (hypotheses_of (ctx w) ++ new)%list] /\
    map h_generation_method new
    = map (fun i => Some (nth (Nat.modulo i 4) mixed_methods ""))
          (seq 0 (rounds_of task)).
Proof.
  intros Hm. unfold Generation._generate_hypotheses. fold (rounds_of task).
  fold (hypotheses_of (ctx w)).
  set (m := match method with Some m => m | None => _ end).
  pose proof (generate_spec (Generation.pick_for m) (rounds_of task) O u) as G.
  cbv zeta in G.
  destruct (Generation.generate _ _ _ _) as [new u1].
  cbn [fst snd] in G |- *. destruct G as [Hn _].
  exists new. split; [reflexivity|].
  rewrite Hn, map_map. apply map_ext. intros j. cbn [Nat.add].
  assert (Hp : Generation.pick_for m j
               = Generation.method_named
                   (nth (Nat.modulo j 4) Generation.methods "")).
  { unfold Generation.pick_for.
    assert (E : String.eqb m "literature" || String.eqb m "debate"
                || String.eqb m "assumptions" || String.eqb m "expansion"
                = false).
    { destruct method as [m0|]; [|reflexivity].
      subst m. unfold single_method, Generation.methods in Hm.
      cbn [existsb] in Hm.
      destruct (String.eqb m0 "literature"), (String.eqb m0 "debate"),
        (String.eqb m0 "assumptions"), (String.eqb m0 "expansion");
        try discriminate Hm; reflexivity. }
    rewrite E. reflexivity. }
  rewrite Hp.
  pose proof (Nat.mod_upper_bound j 4 ltac:(discriminate)) as Hb.
  remember (Nat.modulo j 4) as r eqn:Hr. clear Hr.
  destruct r as [|[|[|[|r]]]]; try reflexivity. lia.
Qed.

Lemma mixed_batch_cycles_methods_witness :
  exists new,
    fst (Generation._generate_hypotheses
           {| agent := "generation"; task_type := Some "generate_hypotheses";
              count := Some 5; hypothesis_id := None |} None
           (two_generated, unary_source))
    = [E_other "generated_hypotheses" (VHypotheses new);
       E_hypotheses ([hypo "h1"; hypo "h2"] ++ new)%list] /\
    map h_generation_method new
    = [Some "literature_exploration"; Some "simulated_debate";
       Some "assumptions_identification"; Some "research_expansion";
       Some "literature_exploration"].
Proof.
  apply (mixed_batch_cycles_methods
           {| agent := "generation"; task_type := Some "generate_hypotheses";
              count := Some 5; hypothesis_id := None |} None
           two_generated unary_source).
  reflexivity.
Defined.

(** ** The proximity agent *)

Section FoldSet.
Context {V : Type}.
Implicit Types (kvs : list (string * V)) (g : Py.dict V).

Lemma store_all_other kvs : forall g k,
  ~ In k (map fst kvs) -> Py.get (store_all g kvs) k = Py.get g k.
Proof.
  induction kvs as [|[k1 v1] kvs IH]; intros g k Hn; [reflexivity|].
  cbn [store_all fold_left fst snd]. fold (store_all (Py.set g k1 v1) kvs).
  rewrite IH; [|intros H; apply Hn; now right].
  apply get_set_other. intros ->. apply Hn. now left.
Qed.

Lemma store_all_some kvs : forall g k,
  In k (map fst kvs) ->
  exists i v, nth_error kvs i = Some (k, v) /\
              Py.get (store_all g kvs) k = Some v.
Proof.
  induction kvs as [|[k1 v1] kvs IH]; intros g k Hin; [destruct Hin|].
  cbn [store_all fold_left fst snd]. fold (store_all (Py.set g k1 v1) kvs).
  destruct (in_dec string_dec k (map fst kvs)) as [Hr|Hr].
  - destruct (IH (Py.set g k1 v1) k Hr) as (i & v & Hi & Hg).
    exists (S i), v. split; assumption.
  - destruct Hin as [E|Hin]; [|contradiction]. cbn in E. subst k1.
    exists O, v1. split; [reflexivity|].
    rewrite store_all_other by assumption. apply get_set_same.
Qed.

Lemma store_all_keys kvs : forall g,
  NoDup (Py.keys g ++ map fst kvs) ->
  Py.keys (store_all g kvs) = (Py.keys g ++ map fst kvs)%list.
Proof.
  induction kvs as [|[k1 v1] kvs IH]; intros g Hnd.
  - cbn. now rewrite app_nil_r.
  - cbn [store_all fold_left fst snd map] in *.
    fold (store_all (Py.set g k1 v1) kvs).
    assert (Hk : Py.keys (Py.set g k1 v1) = (Py.keys g ++ [k1])%list).
    { apply keys_set_new. destruct (Py.mem g k1) eqn:E; [|reflexivity].
      apply mem_in_keys in E. apply NoDup_remove_2 in Hnd.
      exfalso. apply Hnd. apply in_or_app. now left. }
    rewrite IH; rewrite Hk, <- app_assoc; [reflexivity | exact Hnd].
Qed.
End FoldSet.

Lemma enumerate_from {A} (l : list A) : forall a i x,
  In (i, x) (combine (seq a (List.length l)) l)
  <-> (a <= i)%nat /\ nth_error l (i - a) = Some x.
Proof.
  induction l as [|y l IH]; intros a i x; cbn [List.length seq combine].
  - split; [intros [] | intros [_ H]]. destruct (i - a)%nat; discriminate.
  - cbn [In]. rewrite IH. split.
    + intros [E|[Hle Hn]].
      * injection E as <- <-. split; [lia|]. now rewrite Nat.sub_diag.
      * split; [lia|]. replace (i - a)%nat with (S (i - S a)) by lia.
        exact Hn.
    + intros [Hle Hn]. destruct (Nat.eq_dec a i) as [<-|Hne].
      * rewrite Nat.sub_diag in Hn. injection Hn as <-. now left.
      * right. split; [lia|].
        replace (i - a)%nat with (S (i - S a)) in Hn by lia. exact Hn.
Qed.

Lemma in_enumerate {A} (l : list A) i x :
  In (i, x) (Proximity.enumerate l) <-> nth_error l i = Some x.
Proof.
  unfold Proximity.enumerate. rewrite enumerate_from, Nat.sub_0_r.
  split; [tauto | intros H; split; [lia | exact H]].
Qed.

Lemma map_snd_enumerate {A} (l : list A) :
  map snd (Proximity.enumerate l) = l.
Proof.
  unfold Proximity.enumerate. generalize O.
  induction l as [|y l IH]; intros a; cbn; [reflexivity|]. now rewrite IH.
Qed.

Lemma nth_error_enumerate {A} (l : list A) i x :
  nth_error l i = Some x -> nth_error (Proximity.enumerate l) i = Some (i, x).
Proof.
  unfold Proximity.enumerate.
  replace (Some (i, x)) with (Some ((0 + i)%nat, x)) by reflexivity.
  generalize O. revert i.
  induction l as [|y l IH]; intros [|i] a H; try discriminate.
  - injection H as <-. cbn. now rewrite Nat.add_0_r.
  - cbn in H |- *. rewrite (IH i (S a) H). now rewrite Nat.add_succ_r.
Qed.

(** The graph as the pairs it is built from. *)
Lemma build_graph_store hs :
  Proximity.build_graph hs
  = store_all []
      (map (fun ih => (h_id (snd ih), Proximity.edges_from hs (fst ih)))
           (Proximity.enumerate hs)).
Proof.
  unfold Proximity.build_graph, store_all.
  generalize (@nil (string * list Proximity.Edge)).
  induction (Proximity.enumerate hs) as [|ih l IH]; intros g; [reflexivity|].
  cbn [map fold_left fst snd]. apply IH.
Qed.

Lemma graph_keys_source hs :
  map fst (map (fun ih => (h_id (snd ih), Proximity.edges_from hs (fst ih)))
               (Proximity.enumerate hs))
  = map h_id hs.
Proof.
  rewrite map_map. cbn [fst].
  rewrite <- (map_snd_enumerate hs) at 2. now rewrite map_map.
Qed.

(** The entry of an id is the list built at some index that carries it. *)
Lemma graph_entry hs k :
  In k (map h_id hs) ->
  exists i h, nth_error hs i = Some h /\ h_id h = k /\
              Py.get (Proximity.build_graph hs) k
              = Some (Proximity.edges_from hs i).
Proof.
  intros Hin. rewrite build_graph_store.
  rewrite <- graph_keys_source in Hin.
  destruct (store_all_some _ [] k Hin) as (i & v & Hi & Hg).
  rewrite Hg. rewrite nth_error_map in Hi.
  destruct (nth_error (Proximity.enumerate hs) i) as [[j h]|] eqn:E;
    [|discriminate].
  cbn in Hi. injection Hi as Hk Hv.
  apply nth_error_In, in_enumerate in E.
  exists j, h. split; [exact E|]. split; [exact Hk | now rewrite Hv].
Qed.

Lemma edge_iff hs i k :
  In k (neighbours (Proximity.edges_from hs i))
  <-> exists j h, nth_error hs j = Some h /\ j <> i /\ h_id h = k.
Proof.
  unfold neighbours, Proximity.edges_from. rewrite map_map. cbn.
  rewrite in_map_iff. split.
  - intros ([j h] & Hk & Hin). apply filter_In in Hin. destruct Hin as [Hin Hne].
    apply in_enumerate in Hin. cbn in *. exists j, h.
    split; [exact Hin|]. split; [|exact Hk].
    intros ->. now rewrite Nat.eqb_refl in Hne.
  - intros (j & h & Hn & Hne & Hk). exists (j, h). split; [exact Hk|].
    apply filter_In. split; [now apply in_enumerate|]. cbn.
    destruct (Nat.eqb i j) eqn:E; [|reflexivity].
    apply Nat.eqb_eq in E. congruence.
Qed.

Lemma edges_similarity hs i :
  Forall (fun e => Proximity.similarity e = Proximity.one_half)
         (Proximity.edges_from hs i).
Proof.
  unfold Proximity.edges_from. apply Forall_forall. intros e He.
  apply in_map_iff in He. destruct He as (jh & <- & _). reflexivity.
Qed.

Lemma edges_length_above {A} (l : list A) : forall a i,
  (i < a)%nat ->
  filter (fun jh : nat * A => negb (Nat.eqb i (fst jh)))
         (combine (seq a (List.length l)) l)
  = combine (seq a (List.length l)) l.
Proof.
  induction l as [|y l IH]; intros a i Hlt; [reflexivity|].
  cbn [List.length seq combine filter fst].
  destruct (Nat.eqb i a) eqn:E; [apply Nat.eqb_eq in E; lia|].
  cbn [negb]. f_equal. apply IH. lia.
Qed.

Lemma edges_length_from {A} (l : list A) : forall a i,
  (a <= i < a + List.length l)%nat ->
  List.length (filter (fun jh : nat * A => negb (Nat.eqb i (fst jh)))
                 (combine (seq a (List.length l)) l))
  = (List.length l - 1)%nat.
Proof.
  induction l as [|y l IH]; intros a i Hi; cbn [List.length] in *; [lia|].
  cbn [seq combine filter fst].
  destruct (Nat.eqb i a) eqn:E; cbn [negb].
  - apply Nat.eqb_eq in E. subst i. rewrite edges_length_above by lia.
    rewrite length_combine, length_seq. lia.
  - apply Nat.eqb_neq in E. cbn [List.length]. rewrite IH by lia. lia.
Qed.

Lemma edges_length hs i :
  (i < List.length hs)%nat ->
  List.length (Proximity.edges_from hs i) = (List.length hs - 1)%nat.
Proof.
  intros Hi. unfold Proximity.edges_from, Proximity.enumerate.
  rewrite length_map. apply edges_length_from. lia.
Qed.

Lemma nodup_index (hs : list Hypo) i j h1 h2 :
  NoDup (map h_id hs) ->
  nth_error hs i = Some h1 -> nth_error hs j = Some h2 ->
  h_id h1 = h_id h2 -> i = j.
Proof.
  intros Hnd H1 H2 E. rewrite NoDup_nth_error in Hnd. apply Hnd.
  - rewrite length_map. apply nth_error_Some. congruence.
  - rewrite !nth_error_map, H1, H2. cbn. now rewrite E.
Qed.

(** X7. With at least two hypotheses on the blackboard, all of
    different ids, the proximity agent stores and returns a graph whose
    keys are the ids in the order of the list; the entry of every
    hypothesis leads to exactly the other ids, never to its own, has one
    edge less than there are hypotheses, and every edge has similarity
    0.5.  The context memory apart from the graph is not touched. *)
Theorem proximity_graph_of_distinct b :
  let hs := hypotheses_of (Proximity.memory b) in
  (2 <= List.length hs)%nat ->
  NoDup (map h_id hs) ->
  exists g,
    Proximity._calculate_proximity b
    = (Proximity.Calculated g,
       {| Proximity.memory := Proximity.memory b;
          Proximity.proximity_graph := Some g |}) /\
    Py.keys g = map h_id hs /\
    forall h, In h hs ->
      exists es,
        Py.get g (h_id h) = Some es /\
        (forall k, In k (neighbours es)
                   <-> In k (map h_id hs) /\ k <> h_id h) /\
        List.length es = (List.length hs - 1)%nat /\
        Forall (fun e => Proximity.similarity e = Proximity.one_half) es.
Proof.
  intros hs Hlen Hnd. unfold Proximity._calculate_proximity.
  fold (hypotheses_of (Proximity.memory b)). fold hs.
  destruct (Nat.ltb_spec (List.length hs) 2) as [Hlt|_]; [lia|].
  exists (Proximity.build_graph hs). split; [reflexivity|]. split.
  - rewrite build_graph_store, store_all_keys; rewrite graph_keys_source;
      [reflexivity | exact Hnd].
  - intros h Hh.
    destruct (graph_entry hs (h_id h) (in_map h_id _ _ Hh))
      as (i & h' & Hi & Hid & Hg).
    exists (Proximity.edges_from hs i). split; [exact Hg|]. split; [|split].
    + intros k. rewrite edge_iff. split.
      * intros (j & hj & Hj & Hne & Hk). split.
        -- rewrite <- Hk. apply in_map. eapply nth_error_In; eauto.
        -- intros E. apply Hne.
           apply (nodup_index hs j i hj h' Hnd Hj Hi). congruence.
      * intros [Hk Hne]. apply in_map_iff in Hk.
        destruct Hk as (hj & Hk & Hin). apply In_nth_error in Hin.
        destruct Hin as [j Hj]. exists j, hj. split; [exact Hj|].
        split; [|exact Hk]. intros ->. congruence.
    + apply edges_length. apply nth_error_Some. congruence.
    + apply edges_similarity.
Qed.

Lemma proximity_graph_of_distinct_witness :
  exists g,
    fst (Proximity._calculate_proximity (board_of (ctx two_generated)))
    = Proximity.Calculated g /\
    Py.keys g = ["h1"; "h2"] /\
    exists es, Py.get g "h1" = Some es /\ neighbours es = ["h2"].
Proof.
  destruct (proximity_graph_of_distinct (board_of (ctx two_generated)))
    as (g & Hc & Hk & Hg).
  - simpl. lia.
  - simpl. repeat constructor; simpl; intuition discriminate.
  - exists g. split; [now rewrite Hc|]. split; [exact Hk|].
    destruct (Hg (hypo "h1")) as (es & He & _); [simpl; tauto|].
    exists es. split; [exact He|].
    vm_compute in Hc. injection Hc as <-.
    vm_compute in He. injection He as <-. reflexivity.
Defined.

(** X8. The edges are chosen by position, not by id: when two
    hypotheses at different positions of the list share an id, the graph
    stored has an edge from that id to itself. *)
Theorem shared_id_is_own_neighbour b i j h1 h2 :
  let hs := hypotheses_of (Proximity.memory b) in
  nth_error hs i = Some h1 -> nth_error hs j = Some h2 ->
  i <> j -> h_id h1 = h_id h2 ->
  exists g es,
    fst (Proximity._calculate_proximity b) = Proximity.Calculated g /\
    Py.get g (h_id h1) = Some es /\ In (h_id h1) (neighbours es).
Proof.
  intros hs Hi Hj Hne Hid. unfold Proximity._calculate_proximity.
  fold (hypotheses_of (Proximity.memory b)). fold hs.
  assert (Hlen : (2 <= List.length hs)%nat).
  { assert (i < List.length hs)%nat by (apply nth_error_Some; congruence).
    assert (j < List.length hs)%nat by (apply nth_error_Some; congruence).
    lia. }
  destruct (Nat.ltb_spec (List.length hs) 2) as [Hlt|_]; [lia|].
  cbn [fst].
  destruct (graph_entry hs (h_id h1)) as (n & h & Hn & Hh & Hg).
  { apply in_map. eapply nth_error_In; eauto. }
  exists (Proximity.build_graph hs), (Proximity.edges_from hs n).
  split; [reflexivity|]. split; [exact Hg|]. apply edge_iff.
  destruct (Nat.eq_dec i n) as [E|E].
  - exists j, h2. split; [exact Hj|]. split; [congruence | now symmetry].
  - exists i, h1. split; [exact Hi|]. split; [exact E | reflexivity].
Qed.

Lemma shared_id_is_own_neighbour_witness :
  exists g es,
    fst (Proximity._calculate_proximity
           (board_of (set_hypotheses empty_context [hypo "h1"; hypo "h1"])))
    = Proximity.Calculated g /\
    Py.get g "h1" = Some es /\ In "h1" (neighbours es).
Proof.
  apply (shared_id_is_own_neighbour
           (board_of (set_hypotheses empty_context [hypo "h1"; hypo "h1"]))
           0 1 (hypo "h1") (hypo "h1")); try reflexivity.
  discriminate.
Defined.

(** X9. The proximity agent writes nothing but the graph.  It reports
    an error, and leaves the stored graph as it was, exactly when the
    task names another task type or the blackboard holds fewer than two
    hypotheses; otherwise the graph it returns is the one it stored. *)
Theorem proximity_execute_outcomes task b :
  let out := Proximity.execute task b in
  let hs := hypotheses_of (Proximity.memory b) in
  Proximity.memory (snd out) = Proximity.memory b /\
  match fst out with
  | Proximity.Error _ =>
      snd out = b /\
      (task_type task <> None /\ task_type task <> Some "calculate_proximity"
       \/ (List.length hs < 2)%nat)
  | Proximity.Calculated g =>
      Proximity.proximity_graph (snd out) = Some g /\
      (task_type task = None \/ task_type task = Some "calculate_proximity") /\
      (2 <= List.length hs)%nat
  end.
Proof.
  unfold Proximity.execute, Proximity._calculate_proximity.
  fold (hypotheses_of (Proximity.memory b)).
  destruct (task_type task) as [t|].
  - destruct (String.eqb_spec t "calculate_proximity") as [->|Hne].
    + destruct (Nat.ltb_spec (List.length (hypotheses_of (Proximity.memory b))) 2);
        cbn [fst snd Proximity.memory Proximity.proximity_graph]; auto 6.
    + cbn [fst snd]. split; [reflexivity|]. split; [reflexivity|]. left.
      split; congruence.
  - rewrite String.eqb_refl.
    destruct (Nat.ltb_spec (List.length (hypotheses_of (Proximity.memory b))) 2);
      cbn [fst snd Proximity.memory Proximity.proximity_graph]; auto 6.
Qed.

(** ** The pair of a match and the ratings it starts from *)

Lemma fold_init_get hs : forall d k,
  Py.get (fold_left (fun d h => Ranking.init_rating d (h_id h)) hs d) k
  = match Py.get d k with
    | Some r => Some r
    | None => if Ranking.is_hypothesis_id hs k then Some 1200 else None
    end.
Proof.
  induction hs as [|h hs IH]; intros d k; cbn [fold_left].
  - cbn. now destruct (Py.get d k).
  - rewrite IH. unfold Ranking.is_hypothesis_id. cbn [existsb].
    fold (Ranking.is_hypothesis_id hs k).
    unfold Ranking.init_rating, Py.mem.
    destruct (Py.get d (h_id h)) as [r|] eqn:E.
    + destruct (String.eqb_spec (h_id h) k) as [<-|Hne].
      * now rewrite E.
      * reflexivity.
    + destruct (String.eqb_spec (h_id h) k) as [<-|Hne].
      * rewrite get_set_same, E. reflexivity.
      * rewrite get_set_other by congruence. reflexivity.
Qed.

(** X10. Choosing the pair of a match rates the candidates and resets
    nothing.  On a state that has a ratings [dict], every candidate has a
    rating afterwards: the one it had, or 1200 if it had none; an id that
    was not rated and is no candidate stays unrated, and the rest of the
    state is untouched.  The pair is the first two candidates, and there
    is none exactly when there are fewer than two. *)
Theorem select_pair_rates_candidates hypotheses ts d :
  ratings ts = Some d ->
  let out := Ranking._select_hypothesis_pair hypotheses ts in
  (fst out = None <-> (List.length hypotheses < 2)%nat) /\
  (forall h1 h2, fst out = Some (h1, h2) ->
                 exists rest, hypotheses = h1 :: h2 :: rest) /\
  (forall k,
     Py.get (ratings_of (snd out)) k
     = match Py.get d k with
       | Some r => Some r
       | None =>
           if Ranking.is_hypothesis_id hypotheses k then Some 1200 else None
       end) /\
  matches (snd out) = matches ts /\
  completed_matches (snd out) = completed_matches ts /\
  progress (snd out) = progress ts /\
  top_ranked (snd out) = top_ranked ts.
Proof.
  intros Hd out. subst out. unfold Ranking._select_hypothesis_pair.
  rewrite Hd. cbn [fst snd]. split; [|split; [|split]].
  - destruct hypotheses as [|h1 [|h2 rest]]; cbn; split;
      try reflexivity; try discriminate; lia.
  - intros h1 h2 H. destruct hypotheses as [|a [|b rest]]; try discriminate.
    injection H as <- <-. eauto.
  - intros k. cbn. apply fold_init_get.
  - repeat split.
Qed.

Lemma select_pair_rates_candidates_witness :
  let out := Ranking._select_hypothesis_pair [hypo "a"; hypo "b"]
               (with_ratings Ranking._initialize_tournament [("a", 1216)]) in
  Py.get (ratings_of (snd out)) "a" = Some 1216 /\
  Py.get (ratings_of (snd out)) "b" = Some 1200 /\
  Py.get (ratings_of (snd out)) "c" = None.
Proof.
  destruct (select_pair_rates_candidates [hypo "a"; hypo "b"]
              (with_ratings Ranking._initialize_tournament [("a", 1216)])
              [("a", 1216)] eq_refl) as (_ & _ & H & _).
  cbv zeta. rewrite !H. repeat split.
Defined.

(** ** The matches of a batch *)

Lemma match_between_pair h1 h2 w :
  match_between h1 h2 (fst (Ranking._run_match h1 h2 w)).
Proof.
  unfold Ranking._run_match, match_between.
  destruct (_ && _);
    [destruct (debate_facts h1 h2 w) as (_ & A & B & C & _)
    |destruct (comparison_facts h1 h2 w) as (_ & A & B & C & _)];
    auto.
Qed.

Lemma select_pair_keeps hypotheses ts :
  let ts' := snd (Ranking._select_hypothesis_pair hypotheses ts) in
  matches ts' = matches ts /\ completed_matches ts' = completed_matches ts.
Proof.
  unfold Ranking._select_hypothesis_pair. cbn [snd].
  destruct (ratings ts); split; reflexivity.
Qed.

Lemma run_matches_log libm h1 h2 rest :
  forall n r acc w ms r' w',
    Ranking.run_matches libm n (h1 :: h2 :: rest) r acc w = (Py.Ok ms, r', w') ->
    exists new,
      ms = (acc ++ new)%list /\ List.length new = n /\
      Forall (match_between h1 h2) new /\
      matches_of (Ranking.deref r' w')
      = (matches_of (Ranking.deref r w) ++ map history_entry new)%list /\
      completed_matches (Ranking.deref r' w')
      = completed_matches (Ranking.deref r w).
Proof.
  induction n as [|n IH]; intros r acc w ms r' w'; cbn [Ranking.run_matches].
  - intros [= <- <- <-]. exists []. rewrite !app_nil_r. repeat split.
    constructor.
  - pose proof (select_pair_keeps (h1 :: h2 :: rest) (Ranking.deref r w)) as Hk.
    assert (Hp : fst (Ranking._select_hypothesis_pair (h1 :: h2 :: rest)
                        (Ranking.deref r w)) = Some (h1, h2)) by reflexivity.
    destruct (Ranking._select_hypothesis_pair (h1 :: h2 :: rest)
                (Ranking.deref r w)) as [pair ts1].
    cbn [fst snd] in Hk, Hp. subst pair. destruct Hk as [Km Kc].
    pose proof (deref_assign r ts1 w) as Hd1.
    destruct (Ranking.assign r ts1 w) as [r1 w1]. cbn [fst snd] in Hd1.
    pose proof (match_between_pair h1 h2 w1) as Hm.
    pose proof (run_match_ctx h1 h2 w1) as Hc.
    destruct (Ranking._run_match h1 h2 w1) as [m w2]. cbn [fst snd] in Hm, Hc.
    rewrite (deref_ctx r1 w2 w1 Hc), Hd1.
    pose proof (update_elo_ok libm (h_id h1) (h_id h2) (mr_winner m) ts1) as Hu.
    destruct (Ranking._update_elo_ratings libm (h_id h1) (h_id h2)
                (mr_winner m) ts1) as [res ts2].
    pose proof (deref_assign r1 ts2 w2) as Hd2.
    destruct (Ranking.assign r1 ts2 w2) as [r2 w3]. cbn [fst snd] in Hd2.
    destruct res as [[]|e]; [|discriminate].
    intros Hrun. destruct (IH _ _ _ _ _ _ Hrun)
      as (new & -> & Hlen & Hall & Hms & Hcm).
    destruct (Hu ts2 eq_refl)
      as (e1 & e2 & n1 & n2 & _ & _ & _ & _ & _ & Um & Uc & _).
    exists (m :: new). rewrite <- app_assoc. split; [reflexivity|].
    split; [cbn; now rewrite Hlen|]. split; [now constructor|].
    rewrite Hd2 in Hms, Hcm. split.
    + rewrite Hms. unfold matches_of at 1. rewrite Um, Km.
      fold (matches_of (Ranking.deref r w)). rewrite <- app_assoc.
      f_equal. cbn [map app]. f_equal. unfold history_entry.
      destruct Hm as (-> & -> & _). reflexivity.
    + now rewrite Hcm, Uc, Kc.
Qed.

(** X11. A batch that returns with two or more eligible hypotheses has
    run exactly [count] matches (none for a negative count), every one
    between the first two eligible hypotheses and won by one of them.
    The state it stores has the history of the state it started from
    followed by one entry per match, in order, and a counter of completed
    matches that is [count] higher. *)
Theorem batch_runs_count_matches libm cnt w res w' h1 h2 rest :
  Ranking.eligible_hypotheses (ctx w) = h1 :: h2 :: rest ->
  Ranking._run_tournament_matches libm cnt w = (Py.Ok res, w') ->
  exists ms ts',
    res = [E_other "matches" (VMatches ms); E_tournament_state ts'] /\
    cm_tournament_state (ctx w') = Some ts' /\
    List.length ms = Z.to_nat cnt /\
    Forall (match_between h1 h2) ms /\
    matches_of ts'
    = (matches_of (working_state (ctx w)) ++ map history_entry ms)%list /\
    completed_matches ts'
    = Some (completed_of (working_state (ctx w)) + Z.of_nat (Z.to_nat cnt)).
Proof.
  intros He Hrun.
  assert (Hn : (2 <= List.length (Ranking.eligible_hypotheses (ctx w)))%nat)
    by (rewrite He; cbn; lia).
  destruct (run_tournament_matches_ok libm cnt w res w' Hn Hrun)
    as (ms & r1 & w1 & ts & p & Hloop & -> & Hts & -> & _).
  rewrite He in Hloop.
  destruct (run_matches_log libm h1 h2 rest _ _ _ _ _ _ _ Hloop)
    as (new & Hnew & Hlen & Hall & Hms & Hcm).
  cbn [app] in Hnew. subst new.
  rewrite working_state_deref in Hms, Hcm.
  eexists. eexists. split; [reflexivity|]. split; [exact Hts|].
  split; [exact Hlen|]. split; [exact Hall|]. split; [exact Hms|].
  cbn [completed_matches with_top_ranked with_progress with_completed_matches].
  unfold completed_of. now rewrite Hcm, Hlen.
Qed.

Lemma batch_runs_count_matches_witness :
  let out := Ranking._run_tournament_matches (fun _ => 1%float) 3
               (two_reviewed (constant_rng 0)) in
  exists ms ts',
    fst out = Py.Ok [E_other "matches" (VMatches ms); E_tournament_state ts'] /\
    List.length ms = 3%nat /\
    completed_matches ts' = Some 3.
Proof.
  intros out.
  destruct (batch_runs_count_matches (fun _ => 1%float) 3
              (two_reviewed (constant_rng 0))
              (match fst out with Py.Ok r => r | Py.Raise _ => [] end)
              (snd out) (hypo "h1") (hypo "h2") [])
    as (ms & ts' & H1 & _ & H2 & _ & _ & H3).
  - reflexivity.
  - reflexivity.
  - exists ms, ts'. split; [|split; [exact H2 | exact H3]].
    rewrite <- H1. reflexivity.
Defined.

Lemma ltb_leb (x y : float) : (x <? y)%float = true -> (x <=? y)%float = true.
Proof.
  rewrite ltb_spec, leb_spec. unfold SFltb, SFleb.
  destruct (SFcompare _ _) as [[]|]; congruence.
Qed.

Lemma progress_of_le_one completed total p :
  Ranking.progress_of completed total = Py.Ok p -> (p <=? 1)%float = true.
Proof.
  unfold Ranking.progress_of.
  destruct (if (1 <? total)%float then _ else _) as [q|e];
    cbn [Py.bind]; [|discriminate].
  intros [= <-]. destruct (q <? 1)%float eqn:E; [now apply ltb_leb|reflexivity].
Qed.

(** X12. The progress that a returning batch stores is a float that is
    at most 1.0, and it is the tournament progress that the supervisor's
    statistics then report. *)
Theorem batch_progress_at_most_one libm cnt w res w' :
  (2 <= List.length (Ranking.eligible_hypotheses (ctx w)))%nat ->
  Ranking._run_tournament_matches libm cnt w = (Py.Ok res, w') ->
  exists p,
    progress (Ranking.stored_state (ctx w')) = Some p /\
    (p <=? 1)%float = true /\
    tournament_progress (Supervisor._calculate_statistics (ctx w')) = p.
Proof.
  intros Hn. unfold Ranking._run_tournament_matches.
  destruct (Z.ltb_spec (Z.of_nat (List.length (Ranking.eligible_hypotheses (ctx w)))) 2)
    as [L|L]; [lia|].
  destruct (Ranking.run_matches libm _ _ _ _ _) as [[[ms|e] r1] w1];
    [|discriminate].
  destruct (Py.int_truediv _ 2) as [total|e]; [|discriminate].
  destruct (Ranking.assign r1 _ w1) as [r2 w2].
  destruct (Ranking.progress_of _ total) as [p|e] eqn:Hp; [|discriminate].
  intros [= <- <-]. exists p. split; [reflexivity|].
  split; [exact (progress_of_le_one _ _ _ Hp) | reflexivity].
Qed.

Lemma batch_progress_at_most_one_witness :
  let out := Ranking._run_tournament_matches (fun _ => 1%float) 3
               (two_reviewed (constant_rng 0)) in
  exists p,
    progress (Ranking.stored_state (ctx (snd out))) = Some p /\
    (p <=? 1)%float = true.
Proof.
  intros out.
  destruct (batch_progress_at_most_one (fun _ => 1%float) 3
              (two_reviewed (constant_rng 0))
              (match fst out with Py.Ok r => r | Py.Raise _ => [] end)
              (snd out))
    as (p & H1 & H2 & _).
  - simpl. lia.
  - reflexivity.
  - exists p. split; assumption.
Defined.

(** ** The first batch of a run *)

Lemma no_state_rating c k :
  is_empty (Ranking.stored_state c) = true -> Ranking.context_rating c k = 1200.
Proof.
  unfold Ranking.context_rating, is_empty.
  destruct (ratings (Ranking.stored_state c)); [|reflexivity].
  discriminate.
Qed.

Lemma run_matches_local libm eligible :
  forall n ts acc w ms r' w',
    is_empty (Ranking.stored_state (ctx w)) = true ->
    Ranking.run_matches libm n eligible (Ranking.Local ts) acc w
    = (Py.Ok ms, r', w') ->
    Forall (fun m => mr_kind m = Simple) acc ->
    Forall (fun m => mr_kind m = Simple) ms.
Proof.
  induction n as [|n IH]; intros ts acc w ms r' w' Hemp;
    cbn [Ranking.run_matches Ranking.deref Ranking.assign].
  - now intros [= <- _ _].
  - destruct (Ranking._select_hypothesis_pair eligible ts) as [pair ts1].
    destruct pair as [[h1 h2]|]; [|now intros [= <- _ _]].
    assert (Hk : mr_kind (fst (Ranking._run_match h1 h2 w)) = Simple).
    { unfold Ranking._run_match. rewrite !no_state_rating by exact Hemp.
      cbn [Z.leb Z.compare Pos.compare Pos.compare_cont andb].
      apply comparison_facts. }
    pose proof (run_match_ctx h1 h2 w) as Hc.
    destruct (Ranking._run_match h1 h2 w) as [m w2]. cbn [fst snd] in Hk, Hc.
    destruct (Ranking._update_elo_ratings libm _ _ _ _) as [res ts2].
    destruct res as [u|e]; [|discriminate].
    intros Hrun Hacc. apply (IH ts2 (acc ++ [m])%list w2 ms r' w').
    + now rewrite Hc.
    + exact Hrun.
    + apply Forall_app. split; [exact Hacc|]. now constructor.
Qed.

(** X13. While no tournament state is stored on the blackboard, which
    is so in the first batch of a run, every match of a returning batch
    is a simple comparison: a match is classified by the ratings in the
    context memory, and the batch stores its state only when it ends. *)
Theorem first_batch_never_debates libm cnt w res w' ms ts' :
  is_empty (Ranking.stored_state (ctx w)) = true ->
  Ranking._run_tournament_matches libm cnt w = (Py.Ok res, w') ->
  res = [E_other "matches" (VMatches ms); E_tournament_state ts'] ->
  Forall (fun m => mr_kind m = Simple) ms.
Proof.
  intros Hemp Hrun ->.
  destruct (Nat.lt_ge_cases
              (List.length (Ranking.eligible_hypotheses (ctx w))) 2)
    as [Hlt|Hge].
  - rewrite (too_few_eligible libm cnt w Hlt) in Hrun. discriminate.
  - destruct (run_tournament_matches_ok libm cnt w _ w' Hge Hrun)
      as (ms0 & r1 & w1 & ts & p & Hloop & _ & _ & E & _).
    injection E as <- _. rewrite Hemp in Hloop.
    apply (run_matches_local libm _ _ _ _ _ _ _ _ Hemp Hloop). constructor.
Qed.

Lemma first_batch_never_debates_witness :
  let out := Ranking._run_tournament_matches (fun _ => 1%float) 3
               (two_reviewed (constant_rng 0)) in
  let ms := match fst out with
            | Py.Ok (E_other _ (VMatches ms) :: _) => ms
            | _ => []
            end in
  List.length ms = 3%nat /\ Forall (fun m => mr_kind m = Simple) ms.
Proof.
  intros out ms. split; [reflexivity|].
  apply (first_batch_never_debates (fun _ => 1%float) 3
           (two_reviewed (constant_rng 0))
           (match fst out with Py.Ok r => r | Py.Raise _ => [] end)
           (snd out) ms
           (match fst out with
            | Py.Ok [_; E_tournament_state ts] => ts
            | _ => empty_state
            end)); reflexivity.
Defined.

(** ** The reflection agent's failures *)

Lemma reflection_find_iff (hs : list Hypo) k :
  In k (map h_id hs) <-> exists h, Reflection.find_hypothesis hs k = Some h.
Proof. apply find_some_iff. Qed.

(** X14. The reflection agent reports an error exactly when the task
    names another task type, or gives no id or the empty id, or gives an
    id that no hypothesis on the blackboard has; an error leaves the
    blackboard as it was, so nothing is marked reviewed. *)
Theorem review_fails_iff task w :
  let out := Reflection.execute task w in
  ((exists msg, fst out = Reflection.Error msg) <->
   (task_type task <> None /\ task_type task <> Some "review_hypothesis")
   \/ hypothesis_id task = None \/ hypothesis_id task = Some ""
   \/ exists k, hypothesis_id task = Some k /\
                ~ In k (map h_id (hypotheses_of (ctx w)))) /\
  ((exists msg, fst out = Reflection.Error msg) -> snd out = w).
Proof.
  cbv zeta. unfold Reflection.execute.
  assert (Hrev : forall k,
    ((exists msg, fst (Reflection._review_hypothesis k w) = Reflection.Error msg)
     <-> ~ In k (map h_id (hypotheses_of (ctx w)))) /\
    ((exists msg, fst (Reflection._review_hypothesis k w) = Reflection.Error msg)
     -> snd (Reflection._review_hypothesis k w) = w)).
  { intros k.
    destruct (Reflection.find_hypothesis (hypotheses_of (ctx w)) k) as [h|] eqn:Hf.
    - destruct (review_found k w h Hf) as (r & -> & _). cbn [fst snd]. split.
      + split; [intros [msg H]; discriminate|].
        intros Hn. exfalso. apply Hn. apply reflection_find_iff. eauto.
      + intros [msg H]. discriminate.
    - rewrite (review_not_found k w Hf). cbn [fst snd]. split; [|reflexivity].
      split; [|eauto]. intros _ Hin. apply reflection_find_iff in Hin.
      destruct Hin as [h Hh]. congruence. }
  assert (Hty : forall t,
    String.eqb (match t with Some t => t | None => "review_hypothesis" end)
               "review_hypothesis" = false
    <-> t <> None /\ t <> Some "review_hypothesis").
  { intros [t|].
    - rewrite String.eqb_neq. split; [intros H; split; congruence|].
      intros [_ H] ->. now apply H.
    - rewrite String.eqb_refl. split; [discriminate | intros [H _]; now destruct H]. }
  specialize (Hty (task_type task)).
  destruct (String.eqb _ "review_hypothesis").
  - assert (Hno : ~ (task_type task <> None /\
                     task_type task <> Some "review_hypothesis")).
    { intros H. apply Hty in H. discriminate. }
    destruct (hypothesis_id task) as [[|c k]|]; cbn [fst snd].
    + split; [|reflexivity]. split; [auto|eauto].
    + destruct (Hrev (String c k)) as [[A B] C]. split; [|exact C]. split.
      * intros H. right; right; right. exists (String c k). auto.
      * intros [H|[H|[H|(k' & [= <-] & H)]]];
          [contradiction | discriminate | discriminate | auto].
    + split; [|reflexivity]. split; [auto|eauto].
  - cbn [fst snd]. split; [|reflexivity]. split; [|eauto].
    intros _. left. now apply Hty.
Qed.

(** ** What a refill asks for *)

Lemma in_refill stats t :
  In t (Supervisor.refill_tasks stats) ->
  (agent t = "generation" /\ task_type t = Some "generate_hypotheses" /\
   count t = Some 5 /\ num_hypotheses stats < Supervisor.target_hypotheses)
  \/ (agent t = "reflection" /\ task_type t = Some "review_hypothesis" /\
      exists k, hypothesis_id t = Some k /\
                In k (firstn 5 (unreviewed_hypotheses stats)))
  \/ (agent t = "ranking" /\ task_type t = Some "run_tournament_matches" /\
      count t = Some 10 /\
      (tournament_progress stats <? Supervisor.eight_tenths)%float = true)
  \/ (agent t = "evolution" /\ task_type t = Some "evolve_hypothesis" /\
      exists k, hypothesis_id t = Some k /\
                In k (firstn 3 (top_hypotheses stats))).
Proof.
  unfold Supervisor.refill_tasks. rewrite !in_app_iff.
  intros [H|[H|[H|H]]].
  - left. destruct (Z.ltb_spec (num_hypotheses stats) Supervisor.target_hypotheses);
      [|destruct H]. destruct H as [<-|[]]. cbn. auto.
  - right; left. apply in_map_iff in H. destruct H as (k & <- & Hk). cbn. eauto.
  - right; right; left.
    destruct (tournament_progress stats <? Supervisor.eight_tenths)%float;
      [|destruct H]. destruct H as [<-|[]]. cbn. auto.
  - right; right; right. apply in_map_iff in H.
    destruct H as (k & <- & Hk). cbn. eauto.
Qed.

Lemma in_firstn {A} (n : nat) (l : list A) x : In x (firstn n l) -> In x l.
Proof.
  intros H. rewrite <- (firstn_skipn n l). apply in_or_app. now left.
Qed.

Lemma in_unreviewed c k :
  In k (unreviewed_hypotheses (Supervisor._calculate_statistics c)) ->
  In k (map h_id (hypotheses_of c)) /\ ~ In k (reviewed_of c).
Proof.
  cbn [Supervisor._calculate_statistics unreviewed_hypotheses].
  fold (hypotheses_of c). fold (reviewed_of c).
  rewrite in_map_iff. intros (h & <- & Hh). apply filter_In in Hh.
  destruct Hh as [Hh Hn]. split; [now apply in_map|].
  intros Hin. apply negb_true_iff in Hn.
  assert (existsb (String.eqb (h_id h)) (reviewed_of c) = true);
    [|congruence].
  apply existsb_exists. exists (h_id h). split; [exact Hin|].
  apply String.eqb_refl.
Qed.

(** X15. A review that the supervisor's refill queues is for a
    hypothesis that is on the blackboard and not yet reviewed.  Run on
    that blackboard it succeeds, unless the id is the empty string: the
    review passes and the id is appended to the reviewed ones. *)
Theorem queued_review_succeeds w t :
  In t (Supervisor.refill_tasks (Supervisor._calculate_statistics (ctx w))) ->
  agent t = "reflection" ->
  hypothesis_id t <> Some "" ->
  exists k r,
    hypothesis_id t = Some k /\
    In k (map h_id (hypotheses_of (ctx w))) /\
    ~ In k (reviewed_of (ctx w)) /\
    Reflection.execute t w
    = (Reflection.Reviewed r,
       with_ctx w (set_reviewed_hypotheses (ctx w)
                     (reviewed_of (ctx w) ++ [k])%list)) /\
    Reflection.rv_hypothesis_id r = k /\ Reflection.rv_passed r = true.
Proof.
  intros Hin Hag Hne. apply in_refill in Hin.
  destruct Hin as [(A & _)|[(_ & Hty & k & Hk & Hin)|[(A & _)|(A & _)]]];
    try (rewrite Hag in A; discriminate).
  apply in_firstn, in_unreviewed in Hin. destruct Hin as [Hh Hr].
  pose proof Hh as Hf. apply reflection_find_iff in Hf. destruct Hf as [h Hf].
  destruct (review_found k w h Hf) as (r & Hrev & Hid & Hp).
  exists k, r. split; [exact Hk|]. split; [exact Hh|]. split; [exact Hr|].
  split; [|split; assumption].
  unfold Reflection.execute. rewrite Hty, Hk. rewrite String.eqb_refl.
  destruct k as [|c k]; [contradiction|]. exact Hrev.
Qed.

Lemma queued_review_succeeds_witness :
  exists r,
    fst (Reflection.execute (review_task "h1") two_generated)
    = Reflection.Reviewed r /\
    Reflection.rv_passed r = true.
Proof.
  destruct (queued_review_succeeds two_generated (review_task "h1"))
    as (k & r & _ & _ & _ & H & _ & Hp).
  - vm_compute. tauto.
  - reflexivity.
  - discriminate.
  - exists r. rewrite H. split; [reflexivity | exact Hp].
Defined.

(** ** The histogram of generation methods *)

Lemma count_methods_from hs m : forall acc,
  Py.get
    (fold_left
       (fun methods h =>
          Py.set methods (method_of h)
            (match Py.get methods (method_of h) with
             | Some n => n
             | None => 0
             end + 1)) hs acc) m
  = match Py.get acc m, count_occ string_dec (map method_of hs) m with
    | None, O => None
    | None, n => Some (Z.of_nat n)
    | Some a, n => Some (a + Z.of_nat n)
    end.
Proof.
  induction hs as [|h hs IH]; intros acc; cbn [fold_left map count_occ].
  - destruct (Py.get acc m); [f_equal; cbn; lia | reflexivity].
  - rewrite IH. destruct (string_dec (method_of h) m) as [E|E].
    + rewrite E, get_set_same.
      destruct (Py.get acc m); f_equal; lia.
    + rewrite get_set_other by congruence. reflexivity.
Qed.

(** X16. The statistics' histogram of generation methods is exact: a
    method is a key of it exactly when some hypothesis has it, and its
    value is the number of those hypotheses; a hypothesis without a
    method counts under [unknown]. *)
Theorem generation_methods_histogram hs m :
  Py.get (Supervisor._count_generation_methods hs) m
  = match count_occ string_dec (map method_of hs) m with
    | O => None
    | n => Some (Z.of_nat n)
    end.
Proof.
  unfold Supervisor._count_generation_methods.
  exact (count_methods_from hs m []).
Qed.

(** ** The queue *)

Lemma refill_length stats :
  (List.length (Supervisor.refill_tasks stats) <= 10)%nat.
Proof.
  unfold Supervisor.refill_tasks. rewrite !length_app, !length_map.
  pose proof (firstn_le_length 5 (unreviewed_hypotheses stats)).
  pose proof (length_firstn 5 (unreviewed_hypotheses stats)) as H5.
  pose proof (length_firstn 3 (top_hypotheses stats)) as H3.
  destruct (num_hypotheses stats <? Supervisor.target_hypotheses);
    destruct (tournament_progress stats <? Supervisor.eight_tenths)%float;
    cbn [List.length]; lia.
Qed.

(** X17. A refill appends its tasks behind the ones already queued and
    changes nothing else: at most ten tasks, of which at most five are
    reviews and at most three are evolutions. *)
Theorem refill_appends_at_most_ten stats s :
  let s' := Supervisor._update_task_queue stats s in
  exists new,
    Supervisor.task_queue s' = (Supervisor.task_queue s ++ new)%list /\
    (List.length new <= 10)%nat /\
    (List.length (filter (fun t => String.eqb (agent t) "reflection") new)
     <= 5)%nat /\
    (List.length (filter (fun t => String.eqb (agent t) "evolution") new)
     <= 3)%nat /\
    Supervisor.world s' = Supervisor.world s.
Proof.
  cbv zeta. destruct (update_task_queue_queue stats s) as [Hq Hw].
  exists (Supervisor.refill_tasks stats). split; [exact Hq|].
  split; [apply refill_length|]. split; [|split; [|exact Hw]].
  - unfold Supervisor.refill_tasks. rewrite !filter_app, !length_app.
    pose proof (length_firstn 5 (unreviewed_hypotheses stats)) as H5.
    assert (A : forall l : list string,
      filter (fun t => String.eqb (agent t) "reflection")
        (map (fun k => {| agent := "reflection";
                          task_type := Some "review_hypothesis";
                          count := None; hypothesis_id := Some k |}) l)
      = map (fun k => {| agent := "reflection";
                         task_type := Some "review_hypothesis";
                         count := None; hypothesis_id := Some k |}) l).
    { induction l as [|k l IH]; [reflexivity|]. cbn [map filter agent].
      rewrite IH. reflexivity. }
    assert (B : forall l : list string,
      filter (fun t => String.eqb (agent t) "reflection")
        (map (fun k => {| agent := "evolution";
                          task_type := Some "evolve_hypothesis";
                          count := None; hypothesis_id := Some k |}) l)
      = []).
    { induction l as [|k l IH]; [reflexivity|]. cbn [map filter agent].
      rewrite IH. reflexivity. }
    rewrite A, B, length_map.
    set (n5 := List.length (firstn 5 (unreviewed_hypotheses stats))) in *.
    clearbody n5.
    destruct (num_hypotheses stats <? Supervisor.target_hypotheses);
      destruct (tournament_progress stats <? Supervisor.eight_tenths)%float;
      cbn; lia.
  - unfold Supervisor.refill_tasks. rewrite !filter_app, !length_app.
    pose proof (length_firstn 3 (top_hypotheses stats)) as H3.
    assert (A : forall l : list string,
      filter (fun t => String.eqb (agent t) "evolution")
        (map (fun k => {| agent := "evolution";
                          task_type := Some "evolve_hypothesis";
                          count := None; hypothesis_id := Some k |}) l)
      = map (fun k => {| agent := "evolution";
                         task_type := Some "evolve_hypothesis";
                         count := None; hypothesis_id := Some k |}) l).
    { induction l as [|k l IH]; [reflexivity|]. cbn [map filter agent].
      rewrite IH. reflexivity. }
    assert (B : forall l : list string,
      filter (fun t => String.eqb (agent t) "evolution")
        (map (fun k => {| agent := "reflection";
                          task_type := Some "review_hypothesis";
                          count := None; hypothesis_id := Some k |}) l)
      = []).
    { induction l as [|k l IH]; [reflexivity|]. cbn [map filter agent].
      rewrite IH. reflexivity. }
    rewrite A, B, length_map.
    set (n3 := List.length (firstn 3 (top_hypotheses stats))) in *.
    clearbody n3.
    destruct (num_hypotheses stats <? Supervisor.target_hypotheses);
      destruct (tournament_progress stats <? Supervisor.eight_tenths)%float;
      cbn; lia.
Qed.

Lemma run_workers_skipn agents k : forall s,
  Supervisor.task_queue (Supervisor.run_workers agents k s)
  = skipn k (Supervisor.task_queue s) /\
  Supervisor.running (Supervisor.run_workers agents k s) = Supervisor.running s.
Proof.
  induction k as [|k IH]; intros s; cbn [Supervisor.run_workers];
    [split; reflexivity|].
  destruct (IH (Supervisor.worker_step agents s)) as [-> ->].
  rewrite worker_step_queue. split.
  - destruct (Supervisor.task_queue s); cbn [tl skipn];
      [apply skipn_nil | reflexivity].
  - unfold Supervisor.worker_step. destruct (Supervisor.task_queue s); reflexivity.
Qed.

Lemma worker_step_unregistered agents s t q :
  Supervisor.task_queue s = t :: q ->
  Py.get agents (agent t) = None ->
  Supervisor.world (Supervisor.worker_step agents s) = Supervisor.world s.
Proof.
  intros Hq Hn. unfold Supervisor.worker_step. rewrite Hq. cbn [Supervisor.world].
  unfold Supervisor.AgentExec in *. now rewrite Hn.
Qed.

(** X18. The workers take the tasks from the front of the queue, one
    per step, whatever the outcome of a task: after [k] steps the first
    [k] tasks are gone and the others are left in order.  A task for an
    agent that is not registered is dropped without a trace: when none
    of those [k] tasks has a registered agent, the world is unchanged. *)
Theorem workers_take_tasks_in_order agents k s :
  Supervisor.task_queue (Supervisor.run_workers agents k s)
  = skipn k (Supervisor.task_queue s) /\
  (Forall (fun t => Py.get agents (agent t) = None)
          (firstn k (Supervisor.task_queue s)) ->
   Supervisor.world (Supervisor.run_workers agents k s) = Supervisor.world s).
Proof.
  split; [apply run_workers_skipn|].
  revert s. induction k as [|k IH]; intros s H; cbn [Supervisor.run_workers];
    [reflexivity|].
  destruct (Supervisor.task_queue s) as [|t q] eqn:Hq.
  - assert (E : Supervisor.worker_step agents s = s)
      by (unfold Supervisor.worker_step; now rewrite Hq).
    rewrite E. apply IH. rewrite Hq. destruct k; constructor.
  - cbn [firstn] in H. inversion H as [|? ? Ht Hrest]; subst.
    rewrite IH.
    + now apply (worker_step_unregistered agents s t q).
    + rewrite worker_step_queue, Hq. exact Hrest.
Qed.

Lemma run_workers_length agents k s :
  (List.length (Supervisor.task_queue (Supervisor.run_workers agents k s))
   <= List.length (Supervisor.task_queue s))%nat.
Proof.
  destruct (run_workers_skipn agents k s) as [-> _].
  rewrite length_skipn. lia.
Qed.

Lemma rounds_length agents schedule max : forall n i last s,
  (List.length
     (Supervisor.task_queue
        (snd (Supervisor.rounds agents schedule n i max last s)))
   <= List.length (Supervisor.task_queue s) + 10 * n)%nat.
Proof.
  induction n as [|n IH]; intros i last s; cbn [Supervisor.rounds]; [cbn; lia|].
  pose proof (run_workers_length agents (schedule i) s) as Hw.
  set (s1 := Supervisor.run_workers agents (schedule i) s) in *.
  set (stats := Supervisor._calculate_statistics (ctx (Supervisor.world s1))).
  destruct (Supervisor._check_terminal_state stats i max); cbn [snd].
  - cbn [Supervisor.with_world Supervisor.task_queue]. lia.
  - etransitivity; [apply IH|].
    destruct (update_task_queue_queue stats
                (Supervisor.with_world s1
                   (with_ctx (Supervisor.world s1)
                      (set_stats_iteration (ctx (Supervisor.world s1)) i stats))))
      as [-> _].
    rewrite length_app. pose proof (refill_length stats).
    cbn [Supervisor.with_world Supervisor.task_queue]. lia.
Qed.

(** X19. A run of the supervisor leaves at most the tasks it found,
    one for the initial generation and ten per round in the queue, however
    slow the workers are. *)
Theorem queue_grows_by_ten_a_round agents meta schedule task s :
  (List.length
     (Supervisor.task_queue
        (snd (Supervisor.execute agents meta schedule task s)))
   <= List.length (Supervisor.task_queue s) + 1
      + 10 * Z.to_nat (max_iterations_of task))%nat.
Proof.
  unfold Supervisor.execute. fold (max_iterations_of task).
  match goal with
  | |- context [Supervisor.rounds agents schedule ?n ?i ?m ?l ?s3] =>
      pose proof (rounds_length agents schedule m n i l s3) as HR;
      destruct (Supervisor.rounds agents schedule n i m l s3) as [j s4]
  end.
  cbn [snd] in HR.
  assert (H3 : (List.length (Supervisor.task_queue s4)
                <= List.length (Supervisor.task_queue s) + 1
                   + 10 * Z.to_nat (max_iterations_of task))%nat).
  { etransitivity; [exact HR|]. apply Nat.add_le_mono_r.
    unfold Supervisor._initialize_task_queue.
    destruct (Py.mem agents "generation");
      cbn [Supervisor.put Supervisor.set_running Supervisor.task_queue];
      [rewrite length_app|]; rewrite parse_goal_queue;
      cbn [Supervisor.with_world Supervisor.task_queue List.length]; lia. }
  destruct meta as [mr|].
  - destruct (mr _ _) as [[o|e] w]; [rewrite build_result_state|]; exact H3.
  - rewrite build_result_state. exact H3.
Qed.

Lemma review_fails_iff_witness :
  (exists msg,
     fst (Reflection.execute (review_task "h3") two_generated)
     = Reflection.Error msg) /\
  snd (Reflection.execute (review_task "h3") two_generated) = two_generated.
Proof.
  destruct (review_fails_iff (review_task "h3") two_generated) as [[_ A] B].
  assert (H : exists msg,
             fst (Reflection.execute (review_task "h3") two_generated)
             = Reflection.Error msg).
  { apply A. right; right; right. exists "h3". split; [reflexivity|].
    simpl. intros [H|[H|[]]]; discriminate. }
  split; [exact H | exact (B H)].
Defined.

Lemma workers_take_tasks_in_order_witness :
  let s := with_queue two_generated [review_task "h1"; ranking_task] in
  Supervisor.task_queue (Supervisor.run_workers [] 1 s) = [ranking_task] /\
  Supervisor.world (Supervisor.run_workers [] 1 s) = two_generated.
Proof.
  intros s. destruct (workers_take_tasks_in_order [] 1 s) as [A B].
  split; [exact A|]. apply B. repeat constructor.
Defined.

(** ** What a tournament leaves alone *)

(** X20. Whatever the task and however the call ends, the ranking
    agent writes nothing but the tournament state: the hypotheses, the
    reviewed ids and every other key are as before, so the same
    hypotheses are eligible and the same ones wait for a review. *)
Theorem tournament_keeps_eligibility libm task w :
  let w' := snd (Ranking.execute libm task w) in
  same_but_tournament (ctx w) (ctx w') /\
  Ranking.eligible_hypotheses (ctx w') = Ranking.eligible_hypotheses (ctx w) /\
  unreviewed_hypotheses (Supervisor._calculate_statistics (ctx w'))
  = unreviewed_hypotheses (Supervisor._calculate_statistics (ctx w)).
Proof.
  cbv zeta. pose proof (ranking_execute_frame libm task w) as F.
  split; [exact F|]. destruct F as (Hh & Hr & _).
  unfold Ranking.eligible_hypotheses, Supervisor._calculate_statistics.
  cbn [unreviewed_hypotheses]. rewrite Hh, Hr. split; reflexivity.
Qed.

Lemma top_ranked_ignores_list ts l hs :
  Ranking._get_top_ranked (with_top_ranked ts l) hs
  = Ranking._get_top_ranked ts hs.
Proof. reflexivity. Qed.

Lemma set_same_state w ts :
  cm_tournament_state (ctx w) = Some ts ->
  with_ctx w (set_tournament_state (ctx w) ts) = w.
Proof.
  destruct w as [c g]. destruct c. cbn. intros ->. reflexivity.
Qed.

(** X21. Updating the rankings right after a batch that returned
    changes nothing: the batch has stored the list of the ratings it
    ended with, and the update returns that very state. *)
Theorem update_rankings_after_batch libm cnt w res w' :
  (2 <= List.length (Ranking.eligible_hypotheses (ctx w)))%nat ->
  Ranking._run_tournament_matches libm cnt w = (Py.Ok res, w') ->
  exists ts',
    cm_tournament_state (ctx w') = Some ts' /\
    Ranking._update_rankings w' = (Py.Ok [E_tournament_state ts'], w').
Proof.
  intros Hn Hrun.
  destruct (run_tournament_matches_ok libm cnt w res w' Hn Hrun)
    as (ms & r1 & w1 & ts & p & _ & _ & Hts & _ & _).
  pose proof (run_tournament_matches_frame libm cnt w) as F.
  rewrite Hrun in F. cbn [snd] in F. destruct F as (Hh & _).
  eexists. split; [exact Hts|].
  unfold Ranking._update_rankings, Ranking.stored_state. rewrite Hts.
  rewrite Hh. fold (hypotheses_of (ctx w)). rewrite top_ranked_ignores_list.
  cbn [with_top_ranked ratings matches completed_matches progress top_ranked].
  f_equal. now apply set_same_state.
Qed.

Lemma update_rankings_after_batch_witness :
  let w' := snd (Ranking._run_tournament_matches (fun _ => 1%float) 3
                   (two_reviewed (constant_rng 0))) in
  exists ts',
    cm_tournament_state (ctx w') = Some ts' /\
    Ranking._update_rankings w' = (Py.Ok [E_tournament_state ts'], w').
Proof.
  intros w'.
  apply (update_rankings_after_batch (fun _ => 1%float) 3
           (two_reviewed (constant_rng 0))
           (match fst (Ranking._run_tournament_matches (fun _ => 1%float) 3
                         (two_reviewed (constant_rng 0))) with
            | Py.Ok r => r
            | Py.Raise _ => []
            end) w').
  - simpl. lia.
  - reflexivity.
Defined.

(** X22. Every hypothesis on the blackboard is either eligible for the
    tournament or listed as unreviewed in the statistics, never both:
    the two lists together are as long as the list of hypotheses. *)
Theorem eligible_or_unreviewed c :
  (List.length (Ranking.eligible_hypotheses c)
   + List.length (unreviewed_hypotheses (Supervisor._calculate_statistics c)))%nat
  = List.length (hypotheses_of c) /\
  forall h, In h (hypotheses_of c) ->
    (In h (Ranking.eligible_hypotheses c)
     /\ ~ In (h_id h) (unreviewed_hypotheses (Supervisor._calculate_statistics c)))
    \/ (~ In h (Ranking.eligible_hypotheses c)
        /\ In (h_id h)
              (unreviewed_hypotheses (Supervisor._calculate_statistics c))).
Proof.
  unfold Ranking.eligible_hypotheses, Supervisor._calculate_statistics.
  cbn [unreviewed_hypotheses]. fold (hypotheses_of c). fold (reviewed_of c).
  split.
  - rewrite length_map. apply filter_length.
  - intros h Hh.
    destruct (existsb (String.eqb (h_id h)) (reviewed_of c)) eqn:E.
    + left. split; [apply filter_In; auto|].
      rewrite in_map_iff. intros (h' & Hid & Hin). apply filter_In in Hin.
      destruct Hin as [_ Hn]. rewrite Hid, E in Hn. discriminate.
    + right. split.
      * intros Hin. apply filter_In in Hin. destruct Hin as [_ Hn]. congruence.
      * apply in_map. apply filter_In. split; [exact Hh|]. now rewrite E.
Qed.

(** ** The generator is never seeded *)


























